(** * Voice-command pipeline of the Novaa voice browser

    A shallow embedding of the TypeScript sources
    - [ai-mobile/app/(tabs)/browser.tsx]  (command executor, URL normalisation),
    - [services/voiceService.ts]          (inference-mode router, backend client),
    - [services/llamaEngine.ts]           (on-device engine, response parsing),
    - [hooks/useVoiceRecognition.ts]      (speech recognition hook),
    - [ai-mobile/app/(tabs)/settings.tsx] (settings screen),
    - [nova-web, api/parse-command/route.ts] (interpretation route),
    together with the properties their specification states about them and
    further properties the code itself has.

    JavaScript strings are sequences of UTF-16 code units; they are modelled
    as [list N].  Module-level [let] variables and React state become fields
    of explicit state records; [async] functions become state-passing
    functions whose result is either a rejection or a resolved value. *)

From Stdlib Require Import NArith ZArith List String Ascii Bool Lia.
From Stdlib Require Import DecimalNat DecimalString.
From stdpp Require Import base option list gmap.

Set Default Goal Selector "!".
Set Warnings "-register-all".
Open Scope bool_scope.

(* ===================================================================== *)
(** * 1. JavaScript strings *)
(* ===================================================================== *)

Module JsString.

(** A string is its list of UTF-16 code units. *)
Abbreviation jsstring := (list N).

(** A literal of the source, written as a Rocq string of ASCII characters. *)
Definition lit (s : string) : jsstring :=
  List.map N_of_ascii (list_ascii_of_string s).

(** The double-quote character, which some literals of the source contain. *)
Definition dquote : jsstring := [34%N].

(** A literal in which every single quote stands for a double quote
    (used to write JSON texts in examples). *)
Definition litq (s : string) : jsstring :=
  List.map (fun c => if N.eqb c 39 then 34%N else c) (lit s).

(** [WhiteSpace] and [LineTerminator] code units of ECMAScript, the ones
    [String.prototype.trim] strips. *)
Definition isWhiteSpace (c : N) : bool :=
  ((9 <=? c) && (c <=? 13) || (c =? 32) || (c =? 160) || (c =? 5760)
   || (8192 <=? c) && (c <=? 8202) || (c =? 8232) || (c =? 8233)
   || (c =? 8239) || (c =? 8287) || (c =? 12288) || (c =? 65279))%N.

Fixpoint trimStart (s : jsstring) : jsstring :=
  match s with
  | [] => []
  | c :: s' => if isWhiteSpace c then trimStart s' else s
  end.

Definition trimEnd (s : jsstring) : jsstring := rev (trimStart (rev s)).

(** [s.trim()] *)
Definition trim (s : jsstring) : jsstring := trimEnd (trimStart s).

(** [s.startsWith(pat)] *)
Fixpoint startsWith (pat s : jsstring) : bool :=
  match pat, s with
  | [], _ => true
  | _ :: _, [] => false
  | p :: pat', c :: s' => (p =? c)%N && startsWith pat' s'
  end.

(** [s.includes(pat)] *)
Fixpoint includes (pat s : jsstring) : bool :=
  startsWith pat s ||
  match s with
  | [] => false
  | _ :: s' => includes pat s'
  end.

(** [s.indexOf(pat)]: the first position at which [pat] occurs, or -1. *)
Fixpoint indexOf (pat s : jsstring) : Z :=
  if startsWith pat s then 0%Z
  else match s with
       | [] => (-1)%Z
       | _ :: s' => let i := indexOf pat s' in
                    if (i =? -1)%Z then (-1)%Z else (1 + i)%Z
       end.

(** [s.lastIndexOf(pat)]: the last position at which [pat] occurs, or -1. *)
Fixpoint lastIndexOf (pat s : jsstring) : Z :=
  match s with
  | [] => if startsWith pat [] then 0%Z else (-1)%Z
  | _ :: s' => let i := lastIndexOf pat s' in
               if (i =? -1)%Z
               then (if startsWith pat s then 0%Z else (-1)%Z)
               else (1 + i)%Z
  end.

(** [s.substring(start, end)]: both indices are clamped to [0, length], and
    swapped when [start > end]. *)
Definition substring (s : jsstring) (start fin : Z) : jsstring :=
  let len := Z.of_nat (length s) in
  let clamp i := Z.min (Z.max i 0) len in
  let a := clamp start in
  let b := clamp fin in
  let from := Z.min a b in
  let to := Z.max a b in
  firstn (Z.to_nat (to - from)) (skipn (Z.to_nat from) s).

(** [s.replace(pat, rep)] with a string pattern: the first occurrence of
    [pat] is replaced.  ([rep] is taken literally; the replacement strings
    of the source contain no [$] pattern.) *)
Fixpoint replace (pat rep s : jsstring) : jsstring :=
  if startsWith pat s then rep ++ skipn (length pat) s
  else match s with
       | [] => []
       | c :: s' => c :: replace pat rep s'
       end.

(** [s.replace(/pat/g, '')] for a pattern without metacharacters: every
    occurrence of [pat], scanning from the left, is removed.  The recursion
    is on [fuel], an upper bound of the length of [s]. *)
Fixpoint removeAll_fuel (fuel : nat) (pat s : jsstring) : jsstring :=
  match fuel with
  | O => s
  | S fuel' =>
      match s with
      | [] => []
      | c :: s' =>
          if startsWith pat s
          then removeAll_fuel fuel' pat (skipn (length pat) s)
          else c :: removeAll_fuel fuel' pat s'
      end
  end.

Definition removeAll (pat s : jsstring) : jsstring :=
  removeAll_fuel (length s) pat s.

(** Truthiness of a string: only the empty string is falsy. *)
Definition nonEmpty (s : jsstring) : bool :=
  match s with [] => false | _ :: _ => true end.

(** A string is trimmed when neither end is white space. *)
Definition cleanStart (s : jsstring) : bool :=
  match s with [] => true | c :: _ => negb (isWhiteSpace c) end.

Definition cleanEnd (s : jsstring) : bool := cleanStart (rev s).

End JsString.
Import JsString.

(* ===================================================================== *)
(** * 2. URL normalisation ([browser.tsx], [normalizeURL]) *)
(* ===================================================================== *)

(** <<
    let normalized = urlString.trim();
    if (!normalized.includes('://')) normalized = `https://${normalized}`;
    if (!normalized.includes('.') && !normalized.includes('localhost')) {
        normalized = normalized.replace('https://', 'https://www.');
        normalized += '.com';
    }
    return normalized;
    >> *)
Definition normalizeURL (urlString : jsstring) : jsstring :=
  let normalized := trim urlString in
  let normalized :=
    if negb (includes (lit "://") normalized)
    then lit "https://" ++ normalized
    else normalized in
  let normalized :=
    if negb (includes (lit ".") normalized)
       && negb (includes (lit "localhost") normalized)
    then replace (lit "https://") (lit "https://www.") normalized ++ lit ".com"
    else normalized in
  normalized.

(** Steps 2 and 3 of the normalisation, each on its own. *)
Definition withScheme (n : jsstring) : jsstring :=
  if negb (includes (lit "://") n) then lit "https://" ++ n else n.

Definition asHostname (m : jsstring) : jsstring :=
  if negb (includes (lit ".") m) && negb (includes (lit "localhost") m)
  then replace (lit "https://") (lit "https://www.") m ++ lit ".com"
  else m.

(* ===================================================================== *)
(** * 3. Exceptions, results and the state monad of the model *)
(* ===================================================================== *)

(** The error objects the pipeline throws and catches.  The only property
    the source ever reads of one is [error.message]. *)
Inductive ErrorClass := ErrorC | TypeErrorC | SyntaxErrorC | URIErrorC.

Record JsError := mkError { errorClass : ErrorClass; message : jsstring }.

(** [new Error(msg)] *)
Definition Error (msg : jsstring) : JsError := mkError ErrorC msg.

(** The result of evaluating an expression or awaiting a promise: it throws
    (the promise rejects) or it returns (the promise resolves). *)
Inductive Outcome (A : Type) : Type :=
  | Throws (e : JsError)
  | Returns (a : A).
Arguments Throws {A} e.
Arguments Returns {A} a.

#[global] Instance Outcome_ret : MRet Outcome := fun A a => Returns a.
#[global] Instance Outcome_bind : MBind Outcome := fun A B k o =>
  match o with
  | Throws e => Throws e
  | Returns a => k a
  end.

(** [try { o } catch (error) { handler error }] on pure computations. *)
Definition catch {A} (o : Outcome A) (handler : JsError -> Outcome A) : Outcome A :=
  match o with
  | Throws e => handler e
  | Returns a => Returns a
  end.

Definition resolves {A} (o : Outcome A) : bool :=
  match o with Returns _ => true | Throws _ => false end.

(** Stateful code: a function from the state before to the outcome and the
    state after.  A thrown exception keeps the state reached so far. *)
Definition M (St A : Type) : Type := St -> Outcome A * St.

#[global] Instance M_ret {St} : MRet (M St) := fun A a s => (Returns a, s).
#[global] Instance M_bind {St} : MBind (M St) := fun A B k m s =>
  match m s with
  | (Throws e, s') => (Throws e, s')
  | (Returns a, s') => k a s'
  end.

Definition throw {St A} (e : JsError) : M St A := fun s => (Throws e, s).
Definition get {St} : M St St := fun s => (Returns s, s).
Definition modify {St} (f : St -> St) : M St unit := fun s => (Returns tt, f s).
Definition liftOutcome {St A} (o : Outcome A) : M St A := fun s => (o, s).

(** [try { body } catch (error) { handler error }] *)
Definition try_catch {St A} (body : M St A) (handler : JsError -> M St A) : M St A :=
  fun s =>
    match body s with
    | (Throws e, s') => handler e s'
    | (Returns a, s') => (Returns a, s')
    end.

(** [try { body } finally { cleanup }] *)
Definition try_finally {St A} (body : M St A) (cleanup : M St unit) : M St A :=
  fun s =>
    let '(r, s') := body s in
    match cleanup s' with
    | (Throws e, s'') => (Throws e, s'')
    | (Returns _, s'') => (r, s'')
    end.

(** A relation that holds between the state before and the state after
    every run of [m], whether it returns or throws. *)
Definition maintains {St A} (R : St -> St -> Prop) (m : M St A) : Prop :=
  forall s, R s (m s).2.

(* ===================================================================== *)
(** * 4. JavaScript values and the builtins the pipeline calls *)
(* ===================================================================== *)

(** Decimal numeral of a natural number (array indices as property keys). *)
Definition decimal (n : nat) : jsstring :=
  lit (NilEmpty.string_of_uint (Nat.to_uint n)).

Section Values.

(** Numbers are IEEE doubles in JavaScript.  The pipeline never computes
    with one: it only tests truthiness and converts to a string, so the type
    of numbers and these two operations are left to the runtime. *)
Context {num : Type}.

(** What [JSON.parse] and an HTTP response body can produce, plus
    [undefined]. *)
Inductive JSValue :=
  | JUndefined
  | JNull
  | JBool (b : bool)
  | JNumber (n : num)
  | JString (s : jsstring)
  | JArray (elems : list JSValue)
  | JObject (props : gmap jsstring JSValue).

(** The builtins of the JavaScript runtime that the source calls and that
    are no code of the repository. *)
Record Runtime := {
  (** a numeric literal of the source *)
  Number_ofZ : Z -> num;
  (** [ToBoolean] on a number: false for [0], [-0] and [NaN] *)
  Number_truthy : num -> bool;
  (** [String(n)] *)
  Number_toString : num -> jsstring;
  (** [JSON.parse(text)]; throws a [SyntaxError] *)
  JSON_parse : jsstring -> Outcome JSValue;
  (** [encodeURIComponent(s)]; throws a [URIError] on a lone surrogate *)
  encodeURIComponent : jsstring -> Outcome jsstring;
  (** message of the [TypeError] raised when property [p] of [null] or
      [undefined] is read *)
  msg_read_of_nullish : bool -> jsstring -> jsstring;
  (** message of the [TypeError] raised when an object has no primitive
      value *)
  msg_no_primitive : jsstring;
  (** message of the [TypeError] raised when [v.p(...)] is called and [v.p]
      is not a function *)
  msg_not_a_function : jsstring -> jsstring;
}.

Variable rt : Runtime.

(** [ToBoolean(v)], the test of [if (v)], [!v] and [v && ...]. *)
Definition truthy (v : JSValue) : bool :=
  match v with
  | JUndefined | JNull => false
  | JBool b => b
  | JNumber n => Number_truthy rt n
  | JString s => nonEmpty s
  | JArray _ | JObject _ => true
  end.

(** [typeof v] *)
Definition typeof (v : JSValue) : jsstring :=
  match v with
  | JUndefined => lit "undefined"
  | JBool _ => lit "boolean"
  | JNumber _ => lit "number"
  | JString _ => lit "string"
  | JNull | JArray _ | JObject _ => lit "object"
  end.

(** [v.p] for the property names the source reads ([name], [parameters],
    [url], [query]), none of which a builtin prototype defines: an own
    property of an object, [undefined] on any other value, and a
    [TypeError] on [null] and [undefined]. *)
Definition getProp (v : JSValue) (p : jsstring) : Outcome JSValue :=
  match v with
  | JUndefined => Throws (mkError TypeErrorC (msg_read_of_nullish rt false p))
  | JNull => Throws (mkError TypeErrorC (msg_read_of_nullish rt true p))
  | JObject props => Returns (default JUndefined (props !! p))
  | _ => Returns JUndefined
  end.

(** [String(v)] and [`${v}`].  An array joins its elements with commas,
    [null] and [undefined] elements giving the empty string.  A plain object
    gives ["[object Object]"] through [Object.prototype.toString], unless an
    own property [toString] (never callable in a parsed value) hides that
    method, in which case the conversion throws. *)
Fixpoint ToString (v : JSValue) : Outcome jsstring :=
  match v with
  | JUndefined => Returns (lit "undefined")
  | JNull => Returns (lit "null")
  | JBool true => Returns (lit "true")
  | JBool false => Returns (lit "false")
  | JNumber n => Returns (Number_toString rt n)
  | JString s => Returns s
  | JArray elems =>
      (fix join (l : list JSValue) : Outcome jsstring :=
         match l with
         | [] => Returns []
         | x :: rest =>
             s ← match x with
                 | JUndefined | JNull => Returns []
                 | _ => ToString x
                 end;
             match rest with
             | [] => Returns s
             | _ :: _ => r ← join rest; Returns (s ++ lit "," ++ r)
             end
         end) elems
  | JObject props =>
      match props !! lit "toString" with
      | Some _ => Throws (mkError TypeErrorC (msg_no_primitive rt))
      | None => Returns (lit "[object Object]")
      end
  end.

(** [Object.entries(v)] of an object or an array (own enumerable
    properties; an array's are its indices). *)
Definition Object_entries (v : JSValue) : list (jsstring * JSValue) :=
  match v with
  | JObject props => map_to_list props
  | JArray elems => imap (fun i x => (decimal i, x)) elems
  | _ => []
  end.

End Values.

Arguments JSValue : clear implicits.
Arguments Runtime : clear implicits.

(** The contract between interpretation and execution ([llamaEngine.ts]). *)
Record FunctionCall := {
  name : jsstring;
  parameters : gmap jsstring jsstring;
}.

(** The value [{ name: n, parameters: ps }]. *)
Definition callValue {num} (n : jsstring) (ps : gmap jsstring (JSValue num))
  : JSValue num :=
  JObject (<[lit "name" := JString n]> (<[lit "parameters" := JObject ps]> ∅)).

(** A Function Call as the value the executor receives. *)
Definition valueOfCall {num} (fc : FunctionCall) : JSValue num :=
  callValue (name fc) (JString <$> parameters fc).

(** [obj[key] = value] on an object created by the literal [{}], for a
    string [value]: an own property is written, except for the key
    [__proto__], which reaches the accessor of [Object.prototype] and is
    ignored there because a string is no prototype. *)
Definition assign (key value : jsstring) (obj : gmap jsstring jsstring)
  : gmap jsstring jsstring :=
  if bool_decide (key = lit "__proto__") then obj else <[key := value]> obj.

(* ===================================================================== *)
(** * 5. The on-device engine ([llamaEngine.ts]) *)
(* ===================================================================== *)

(** [Platform.OS] *)
Inductive PlatformOS := ios | android | web | windows | macos.

(** A handle of a native llama context. *)
Definition LlamaContext := N.

Section Pipeline.

Context {num : Type}.

(** Argument of [initLlama]. *)
Record InitParams := {
  model : jsstring;
  use_mlock : bool;
  n_gpu_layers : num;
  n_ctx : num;
  n_batch : num;
  n_threads : num;
}.

(** Argument of [llamaContext.completion]. *)
Record CompletionParams := {
  prompt : jsstring;
  n_predict : num;
  temperature : num;
  top_p : num;
  stop : list jsstring;
}.

Record ModelConfig := {
  modelPath : option jsstring;
  nGpuLayers : option num;
  nCtx : option num;
  nBatch : option num;
  nThreads : option num;
}.

Record InferenceOptions := {
  maxTokens : option num;
  temperatureOpt : option num;
  topP : option num;
}.

(** How an [axios.post] ends: a response whose body is [data], or a
    rejection; [error.response?.status] is the status of the response the
    rejection carries, if it carries one. *)
Inductive AxiosOutcome :=
  | AxiosResponse (data : JSValue num)
  | AxiosRejected (response_status : option Z).

(** The environment of one operation: the platform constants, the native
    module and the network, each answering the requests made of it. *)
Record Env := {
  Platform_OS : PlatformOS;
  (** [Constants.isDevice] *)
  Constants_isDevice : bool;
  (** [Constants.expoConfig?.hostUri] *)
  Constants_hostUri : option jsstring;
  (** [import('llama.rn')] and its [initLlama]; [None] when the module is
      not installed *)
  llama_rn : option (InitParams -> Outcome LlamaContext);
  (** [llamaContext.completion(params)], giving [response.text] *)
  llama_completion : LlamaContext -> CompletionParams -> Outcome jsstring;
  (** [llamaContext.release()] *)
  llama_release : LlamaContext -> Outcome unit;
  (** [axios.post(url, {command}, config)] *)
  axios_post : jsstring -> jsstring -> option num -> AxiosOutcome;
}.

(** The requests that reach the outside world, in the order made.  Console
    output is not recorded. *)
Inductive Event :=
  | EvInitLlama (params : InitParams)
  | EvCompletion (ctx : LlamaContext) (params : CompletionParams)
  | EvRelease (ctx : LlamaContext)
  | EvPost (url command : jsstring) (timeout : option num).

(** The fields of a [FunctionGemmaEngine]. *)
Record Engine := {
  isLoaded : bool;
  loadError : option jsstring;
  llamaContext : option LlamaContext;
}.

(** [new FunctionGemmaEngine()] *)
Definition newEngine : Engine :=
  {| isLoaded := false; loadError := None; llamaContext := None |}.

(** [export enum InferenceMode] *)
Inductive InferenceMode := ON_DEVICE | BACKEND | AUTO.

(** The module-level variables of [voiceService.ts]. *)
Record VoiceService := {
  API_URL : jsstring;
  currentMode : InferenceMode;
  onDeviceAvailable : bool;
  autoInitAttempted : bool;
}.

(** The process-wide state: the voice service's variables, the engine
    singleton ([engineInstance]) and the requests made so far. *)
Record World := {
  service : VoiceService;
  engineInstance : option Engine;
  trace : list Event;
}.

Definition set_service (f : VoiceService -> VoiceService) (w : World) : World :=
  {| service := f (service w); engineInstance := engineInstance w; trace := trace w |}.

Definition set_engineInstance (e : option Engine) (w : World) : World :=
  {| service := service w; engineInstance := e; trace := trace w |}.

Definition emit (ev : Event) : M World unit :=
  modify (fun w =>
    {| service := service w; engineInstance := engineInstance w;
       trace := trace w ++ [ev] |}).

Definition set_currentMode (m : InferenceMode) (s : VoiceService) : VoiceService :=
  {| API_URL := API_URL s; currentMode := m;
     onDeviceAvailable := onDeviceAvailable s;
     autoInitAttempted := autoInitAttempted s |}.

Definition set_onDeviceAvailable (b : bool) (s : VoiceService) : VoiceService :=
  {| API_URL := API_URL s; currentMode := currentMode s;
     onDeviceAvailable := b;
     autoInitAttempted := autoInitAttempted s |}.

Definition set_autoInitAttempted (b : bool) (s : VoiceService) : VoiceService :=
  {| API_URL := API_URL s; currentMode := currentMode s;
     onDeviceAvailable := onDeviceAvailable s;
     autoInitAttempted := b |}.

(** The voice service's variables are the same. *)
Definition sameService (w w' : World) : Prop := service w' = service w.

(** On-device readiness, once there, is still there. *)
Definition staysReady (w w' : World) : Prop :=
  onDeviceAvailable (service w) = true -> onDeviceAvailable (service w') = true.

Variable rt : Runtime num.
Variable env : Env.

(** [getFunctionGemmaEngine()]: the singleton, created on first use. *)
Definition getFunctionGemmaEngine : M World Engine := fun w =>
  match engineInstance w with
  | Some e => (Returns e, w)
  | None => (Returns newEngine, set_engineInstance (Some newEngine) w)
  end.

(** Reading and writing [this] inside a method of the singleton. *)
Definition this : M World Engine := fun w =>
  (Returns (default newEngine (engineInstance w)), w).

Definition set_this (f : Engine -> Engine) : M World unit :=
  modify (fun w =>
    set_engineInstance (Some (f (default newEngine (engineInstance w)))) w).

Definition set_loadError (msg : option jsstring) (e : Engine) : Engine :=
  {| isLoaded := isLoaded e; loadError := msg; llamaContext := llamaContext e |}.

Definition set_isLoaded (b : bool) (e : Engine) : Engine :=
  {| isLoaded := b; loadError := loadError e; llamaContext := llamaContext e |}.

Definition set_llamaContext (c : option LlamaContext) (e : Engine) : Engine :=
  {| isLoaded := isLoaded e; loadError := loadError e; llamaContext := c |}.

(** [getBundledModelPath()] *)
Definition getBundledModelPath : option jsstring :=
  match Platform_OS env with
  | web => None
  | android => Some (lit "file:///android_asset/models/functiongemma-270m-it-Q4_K_M.gguf")
  | ios => Some (lit "functiongemma-270m-it-Q4_K_M.gguf")
  | _ => None
  end.

(** [config?.field ?? fallback] *)
Definition orDefault (config : option ModelConfig)
    (field : ModelConfig -> option num) (fallback : Z) : num :=
  default (Number_ofZ rt fallback) (config ≫= field).

(** [loadModel(modelPath, config?)] *)
Definition loadModel (modelPath : jsstring) (config : option ModelConfig)
  : M World bool :=
  try_catch
    (match Platform_OS env with
     | web =>
         set_this (set_loadError
           (Some (lit "Web platform not yet supported for on-device inference")));;
         mret false
     | _ =>
         try_catch
           (match llama_rn env with
            | None => throw (Error (lit "Cannot find module 'llama.rn'"))
            | Some initLlama =>
                let params :=
                  {| model := modelPath;
                     use_mlock := true;
                     n_gpu_layers := orDefault config nGpuLayers 99;
                     n_ctx := orDefault config nCtx 2048;
                     n_batch := orDefault config nBatch 512;
                     n_threads := orDefault config nThreads 4 |} in
                emit (EvInitLlama params);;
                ctx ← liftOutcome (initLlama params);
                set_this (set_llamaContext (Some ctx));;
                set_this (set_isLoaded true);;
                set_this (set_loadError None);;
                mret true
            end)
           (fun importError =>
              set_this (set_loadError
                (Some (lit "llama.rn not installed. Install with: npm install llama.rn")));;
              mret false)
     end)
    (fun error =>
       set_this (set_loadError (Some (message error)));;
       mret false).

(** [tryLoadBundledModel()] *)
Definition tryLoadBundledModel : M World bool :=
  match getBundledModelPath with
  | None => mret false
  | Some bundledPath => loadModel bundledPath None
  end.

(** [unloadModel()] *)
Definition unloadModel : M World unit :=
  e ← this;
  match llamaContext e with
  | Some ctx =>
      try_catch
        (emit (EvRelease ctx);; liftOutcome (llama_release env ctx))
        (fun error => mret tt);;
      set_this (set_llamaContext None)
  | None => mret tt
  end;;
  set_this (set_isLoaded false).

(** [isModelLoaded()] and [getLoadError()] *)
Definition isModelLoaded : M World bool := e ← this; mret (isLoaded e).
Definition getLoadError : M World (option jsstring) := e ← this; mret (loadError e).

(** The function catalogue embedded in every prompt. *)
Definition FUNCTION_DECLARATIONS : jsstring := lit
"<start_function_declaration>declaration:open_browser{description:<escape>Opens a web browser to the specified URL<escape>,parameters:{type:<escape>OBJECT<escape>,properties:{url:{type:<escape>STRING<escape>,description:<escape>The URL to open<escape>}},required:[url]}}<end_function_declaration>
<start_function_declaration>declaration:search_web{description:<escape>Searches the web using a search engine<escape>,parameters:{type:<escape>OBJECT<escape>,properties:{query:{type:<escape>STRING<escape>,description:<escape>The search query<escape>}},required:[query]}}<end_function_declaration>
<start_function_declaration>declaration:go_back{description:<escape>Navigate back in browser history<escape>,parameters:{type:<escape>OBJECT<escape>,properties:{},required:[]}}<end_function_declaration>
<start_function_declaration>declaration:go_forward{description:<escape>Navigate forward in browser history<escape>,parameters:{type:<escape>OBJECT<escape>,properties:{},required:[]}}<end_function_declaration>
<start_function_declaration>declaration:refresh_page{description:<escape>Refresh the current page<escape>,parameters:{type:<escape>OBJECT<escape>,properties:{},required:[]}}<end_function_declaration>".

(** [buildPrompt(userInput)] *)
Definition buildPrompt (userInput : jsstring) : jsstring :=
  lit "<bos><start_of_turn>developer
You are a model that can do function calling with the following functions
" ++ FUNCTION_DECLARATIONS ++ lit "
<end_of_turn>
<start_of_turn>user
" ++ userInput ++ lit "<end_of_turn>
<start_of_turn>model
".

(** The loop of [parseResponse] over [Object.entries(parsed.parameters)]:
    [parameters[key] = String(value)]. *)
Fixpoint stringifyEntries (entries : list (jsstring * JSValue num))
    (parameters : gmap jsstring jsstring) : Outcome (gmap jsstring jsstring) :=
  match entries with
  | [] => Returns parameters
  | (key, value) :: rest =>
      s ← ToString rt value;
      stringifyEntries rest (assign key s parameters)
  end.

(** The string a value is once [typeof] has shown it to be one. *)
Definition asString (v : JSValue num) : jsstring :=
  match v with JString s => s | _ => [] end.

(** [response.replace(/<end_of_turn>/g, '').trim()] *)
Definition cleanup (response : jsstring) : jsstring :=
  trim (removeAll (lit "<end_of_turn>") response).

(** The search for the JSON object in [parseResponse]: [None] stands for
    the [throw] of "No JSON object found in response".
    <<
    const startIdx = cleaned.indexOf('{');
    const endIdx = cleaned.lastIndexOf('}');
    if (startIdx === -1 || endIdx === -1) throw ...;
    cleaned = cleaned.substring(startIdx, endIdx + 1);
    >> *)
Definition extractJSON (cleaned : jsstring) : option jsstring :=
  let startIdx := indexOf (lit "{") cleaned in
  let endIdx := lastIndexOf (lit "}") cleaned in
  if (startIdx =? -1)%Z || (endIdx =? -1)%Z then None
  else Some (substring cleaned startIdx (endIdx + 1)).

(** [j] runs from the first opening brace of [cleaned] to its last closing
    brace. *)
Definition spansBraces (cleaned j : jsstring) : Prop :=
  exists before inside after,
    cleaned = before ++ j ++ after
    /\ j = lit "{" ++ inside ++ lit "}"
    /\ includes (lit "{") before = false
    /\ includes (lit "}") after = false.

(** ['Invalid function call: missing or invalid "name" field'] *)
Definition msg_invalid_name : jsstring :=
  lit "Invalid function call: missing or invalid " ++ dquote ++ lit "name"
  ++ dquote ++ lit " field".

(** The body of the [try] block of [parseResponse] after [JSON.parse].
    <<
    if (!parsed.name || typeof parsed.name !== 'string')
        throw new Error('Invalid function call: missing or invalid "name" field');
    const parameters = {};
    if (parsed.parameters && typeof parsed.parameters === 'object')
        for (const [key, value] of Object.entries(parsed.parameters))
            parameters[key] = String(value);
    return { name: parsed.name, parameters };
    >> *)
Definition validateCall (parsed : JSValue num) : Outcome FunctionCall :=
  parsed_name ← getProp rt parsed (lit "name");
  if negb (truthy rt parsed_name)
     || negb (bool_decide (typeof parsed_name = lit "string"))
  then Throws (Error msg_invalid_name)
  else
    parsed_parameters ← getProp rt parsed (lit "parameters");
    parameters ←
      (if truthy rt parsed_parameters
          && bool_decide (typeof parsed_parameters = lit "object")
       then stringifyEntries (Object_entries parsed_parameters) ∅
       else Returns ∅);
    Returns {| name := asString parsed_name; parameters := parameters |}.

(** [parseResponse(response)]
    <<
    let cleaned = response.replace(/<end_of_turn>/g, '').trim();
    const startIdx = cleaned.indexOf('{');
    const endIdx = cleaned.lastIndexOf('}');
    if (startIdx === -1 || endIdx === -1)
        throw new Error('No JSON object found in response');
    cleaned = cleaned.substring(startIdx, endIdx + 1);
    try {
        const parsed = JSON.parse(cleaned);
        ... (validateCall)
    } catch (error) {
        throw new Error(`JSON parsing failed: ${error.message}`);
    }
    >> *)
Definition parseResponse (response : jsstring) : Outcome FunctionCall :=
  let cleaned := cleanup response in
  match extractJSON cleaned with
  | None => Throws (Error (lit "No JSON object found in response"))
  | Some cleaned =>
      catch
        (parsed ← JSON_parse rt cleaned; validateCall parsed)
        (fun error =>
           Throws (Error (lit "JSON parsing failed: " ++ message error)))
  end.

(** [parseCommand(userInput, options?)] *)
Definition parseCommand (userInput : jsstring) (options : option InferenceOptions)
  : M World FunctionCall :=
  e ← this;
  match isLoaded e, llamaContext e with
  | true, Some ctx =>
      let prompt := buildPrompt userInput in
      try_catch
        (let params :=
           {| prompt := prompt;
              n_predict := default (Number_ofZ rt 256) (options ≫= maxTokens);
              temperature := default (Number_ofZ rt 0) (options ≫= temperatureOpt);
              top_p := default (Number_ofZ rt 1) (options ≫= topP);
              stop := [lit "<end_of_turn>"] |} in
         emit (EvCompletion ctx params);;
         response_text ← liftOutcome (llama_completion env ctx params);
         liftOutcome (parseResponse response_text))
        (fun error =>
           throw (Error (lit "Inference failed: " ++ message error)))
  | _, _ => throw (Error (lit "Model not loaded. Call loadModel() first."))
  end.

(** [releaseFunctionGemmaEngine()] *)
Definition releaseFunctionGemmaEngine : M World unit := fun w =>
  match engineInstance w with
  | Some _ =>
      match unloadModel w with
      | (Returns _, w') => (Returns tt, set_engineInstance None w')
      | (Throws e, w') => (Throws e, w')
      end
  | None => (Returns tt, w)
  end.

(* ===================================================================== *)
(** * 6. The voice service ([voiceService.ts]) *)
(* ===================================================================== *)

(** [s.split(':')[0]]: the part of [s] before its first colon. *)
Fixpoint beforeColon (s : jsstring) : jsstring :=
  match s with
  | [] => []
  | c :: s' => if (c =? 58)%N then [] else c :: beforeColon s'
  end.

(** [getBackendUrl()] *)
Definition getBackendUrl : jsstring :=
  match Platform_OS env, Constants_isDevice env with
  | android, false => lit "http://10.0.2.2:8000"
  | _, _ =>
      match Constants_hostUri env with
      | Some debuggerHost =>
          if nonEmpty debuggerHost
          then lit "http://" ++ beforeColon debuggerHost ++ lit ":8000"
          else lit "http://localhost:8000"
      | None => lit "http://localhost:8000"
      end
  end.

(** The module as loaded: [API_URL = getBackendUrl()], [currentMode = AUTO],
    [onDeviceAvailable = false], [autoInitAttempted = false], no engine. *)
Definition initialWorld : World :=
  {| service := {| API_URL := getBackendUrl; currentMode := AUTO;
                   onDeviceAvailable := false; autoInitAttempted := false |};
     engineInstance := None;
     trace := [] |}.

(** [autoInitializeOnDevice()] *)
Definition autoInitializeOnDevice : M World bool :=
  w ← get;
  if autoInitAttempted (service w) then mret (onDeviceAvailable (service w))
  else
    modify (set_service (set_autoInitAttempted true));;
    try_catch
      (engine ← getFunctionGemmaEngine;
       success ← tryLoadBundledModel;
       if (success : bool)
       then modify (set_service (set_onDeviceAvailable true));; mret true
       else mret false)
      (fun error => mret false).

(** [initializeOnDeviceInference(modelPath)] *)
Definition initializeOnDeviceInference (modelPath : jsstring) : M World bool :=
  try_catch
    (engine ← getFunctionGemmaEngine;
     success ← loadModel modelPath None;
     if (success : bool)
     then modify (set_service (set_onDeviceAvailable true));; mret true
     else getLoadError;; mret false)
    (fun error => mret false).

(** [setInferenceMode(mode)], [getInferenceMode()], [isOnDeviceAvailable()] *)
Definition setInferenceMode (mode : InferenceMode) : M World unit :=
  modify (set_service (set_currentMode mode)).

Definition getInferenceMode : M World InferenceMode :=
  w ← get; mret (currentMode (service w)).

Definition isOnDeviceAvailable : M World bool :=
  w ← get; mret (onDeviceAvailable (service w)).

(** [parseCommandOnDevice(command)] *)
Definition parseCommandOnDevice (command : jsstring) : M World (JSValue num) :=
  engine ← getFunctionGemmaEngine;
  loaded ← isModelLoaded;
  if negb (loaded : bool) then throw (Error (lit "On-device model not loaded"))
  else fc ← parseCommand command None; mret (valueOfCall fc).

(** The call every failure of the remote path other than a 503 degrades
    to: [{ name: 'search_web', parameters: { query: command } }]. *)
Definition searchFallback (command : jsstring) : FunctionCall :=
  {| name := lit "search_web"; parameters := {[ lit "query" := command ]} |}.

(** The [catch] block shared by both backend clients. *)
Definition backendCatch (command : jsstring) (response_status : option Z)
  : M World (JSValue num) :=
  if bool_decide (response_status = Some 503%Z)
  then throw (Error (lit "Backend server is not running"))
  else mret (valueOfCall (searchFallback command)).

(** [parseCommandViaBackend(command)]
    <<
    try {
        const response = await axios.post(`${API_URL}/parse-command`,
                                          { command }, { timeout: 10000 });
        return response.data;
    } catch (error) {
        if (error.response?.status === 503)
            throw new Error('Backend server is not running');
        return { name: 'search_web', parameters: { query: command } };
    }
    >> *)
Definition parseCommandViaBackend (command : jsstring) : M World (JSValue num) :=
  w ← get;
  let url := API_URL (service w) ++ lit "/parse-command" in
  let timeout := Some (Number_ofZ rt 10000) in
  emit (EvPost url command timeout);;
  match axios_post env url command timeout with
  | AxiosResponse data => mret data
  | AxiosRejected response_status => backendCatch command response_status
  end.

(** The request [parseCommandViaBackend] makes in world [w], as the
    network answers it. *)
Definition backendRequest (w : World) (command : jsstring) : AxiosOutcome :=
  axios_post env (API_URL (service w) ++ lit "/parse-command") command
    (Some (Number_ofZ rt 10000)).

(** [parseVoiceCommand(command)]
    <<
    try {
        switch (currentMode) {
            case InferenceMode.ON_DEVICE:
                return await parseCommandOnDevice(command);
            case InferenceMode.BACKEND:
                return await parseCommandViaBackend(command);
            case InferenceMode.AUTO:
            default:
                if (onDeviceAvailable) {
                    try { return await parseCommandOnDevice(command); }
                    catch (onDeviceError) { /* fall through to backend */ }
                }
                return await parseCommandViaBackend(command);
        }
    } catch (error) { throw error; }
    >> *)
Definition parseVoiceCommand (command : jsstring) : M World (JSValue num) :=
  w ← get;
  try_catch
    (match currentMode (service w) with
     | ON_DEVICE => parseCommandOnDevice command
     | BACKEND => parseCommandViaBackend command
     | AUTO =>
         if onDeviceAvailable (service w)
         then try_catch (parseCommandOnDevice command)
                        (fun onDeviceError => parseCommandViaBackend command)
         else parseCommandViaBackend command
     end)
    (fun error => throw error).

(** [getInferenceStats()] *)
Definition getInferenceStats : M World (InferenceMode * bool * jsstring) :=
  w ← get;
  mret (currentMode (service w), onDeviceAvailable (service w), API_URL (service w)).

(** The first version of the service ([voiceService.ts] before the
    on-device engine was added): [parseVoiceCommand] is the backend client
    alone, without a timeout. *)
Definition parseVoiceCommand_v1 (command : jsstring) : M World (JSValue num) :=
  w ← get;
  let url := API_URL (service w) ++ lit "/parse-command" in
  emit (EvPost url command None);;
  match axios_post env url command None with
  | AxiosResponse data => mret data
  | AxiosRejected response_status => backendCatch command response_status
  end.

(* ===================================================================== *)
(** * 7. The command executor ([browser.tsx], [VoiceBrowserScreen]) *)
(* ===================================================================== *)

(** The two versions of the screen in the repository.  [HookScreen] takes
    speech from the [useVoiceRecognition] hook; [InlineScreen], the earlier
    one, drives the Web Speech API itself and keeps the transcript in its
    own state.  [executeFunction], [normalizeURL] and [loadURL] are the same
    text in both. *)
Inductive ScreenVersion := HookScreen | InlineScreen.

(** A method called on [webViewRef.current]. *)
Inductive WebViewCall := GoBack | GoForward | Reload.

(** The React state and refs of the screen. *)
Record Screen := {
  url : jsstring;
  currentUrl : jsstring;
  status : jsstring;
  transcript : jsstring;
  isProcessing : bool;
  showFeedback : bool;
  (** the value the last animation of [feedbackOpacity] runs to *)
  feedbackOpacity : Z;
  (** [hideTimer.current]: the delay of the pending timer, if any *)
  hideTimer : option Z;
  (** whether [webViewRef.current] is set *)
  webViewMounted : bool;
  (** the calls made on the web view, in order *)
  webViewCalls : list WebViewCall;
}.

(** [useState('https://www.google.com')] and the other initial values. *)
Definition initialScreen : Screen :=
  {| url := lit "https://www.google.com";
     currentUrl := lit "https://www.google.com";
     status := []; transcript := [];
     isProcessing := false; showFeedback := false;
     feedbackOpacity := 0; hideTimer := None;
     webViewMounted := true; webViewCalls := [] |}.

Variable version : ScreenVersion.

(** [showFeedbackPanel(transcriptText, statusText, isError = false)].  The
    body never reads [isError]. *)
Definition showFeedbackPanel (transcriptText statusText : jsstring)
    (isError : bool) : M Screen unit :=
  modify (fun s =>
    {| url := url s; currentUrl := currentUrl s;
       status := statusText;
       transcript := match version with
                     | InlineScreen => transcriptText
                     | HookScreen => transcript s
                     end;
       isProcessing := isProcessing s;
       showFeedback := true;
       feedbackOpacity := 1;
       hideTimer := hideTimer s;
       webViewMounted := webViewMounted s;
       webViewCalls := webViewCalls s |}).

(** [scheduleFeedbackHide(delay = 3000)]: a pending timer is cleared and a
    new one started. *)
Definition scheduleFeedbackHide (delay : Z) : M Screen unit :=
  modify (fun s =>
    {| url := url s; currentUrl := currentUrl s; status := status s;
       transcript := transcript s; isProcessing := isProcessing s;
       showFeedback := showFeedback s; feedbackOpacity := feedbackOpacity s;
       hideTimer := Some delay;
       webViewMounted := webViewMounted s;
       webViewCalls := webViewCalls s |}).

(** [loadURL(urlString)] *)
Definition loadURL (urlString : jsstring) : M Screen unit :=
  modify (fun s =>
    {| url := urlString; currentUrl := urlString; status := status s;
       transcript := transcript s; isProcessing := isProcessing s;
       showFeedback := showFeedback s; feedbackOpacity := feedbackOpacity s;
       hideTimer := hideTimer s;
       webViewMounted := webViewMounted s;
       webViewCalls := webViewCalls s |}).

(** [webViewRef.current?.method()] *)
Definition webView (call : WebViewCall) : M Screen unit :=
  modify (fun s =>
    {| url := url s; currentUrl := currentUrl s; status := status s;
       transcript := transcript s; isProcessing := isProcessing s;
       showFeedback := showFeedback s; feedbackOpacity := feedbackOpacity s;
       hideTimer := hideTimer s;
       webViewMounted := webViewMounted s;
       webViewCalls := if webViewMounted s then webViewCalls s ++ [call]
                       else webViewCalls s |}).

(** [setIsProcessing(b)] *)
Definition setIsProcessing (b : bool) : M Screen unit :=
  modify (fun s =>
    {| url := url s; currentUrl := currentUrl s; status := status s;
       transcript := transcript s; isProcessing := b;
       showFeedback := showFeedback s; feedbackOpacity := feedbackOpacity s;
       hideTimer := hideTimer s;
       webViewMounted := webViewMounted s;
       webViewCalls := webViewCalls s |}).

(** [setStatus(text)] *)
Definition setStatus (text : jsstring) : M Screen unit :=
  modify (fun s =>
    {| url := url s; currentUrl := currentUrl s; status := text;
       transcript := transcript s; isProcessing := isProcessing s;
       showFeedback := showFeedback s; feedbackOpacity := feedbackOpacity s;
       hideTimer := hideTimer s;
       webViewMounted := webViewMounted s;
       webViewCalls := webViewCalls s |}).

(** [v === 'literal']: strict equality with a string. *)
Definition strictEq (v : JSValue num) (s : jsstring) : bool :=
  match v with
  | JString t => bool_decide (t = s)
  | _ => false
  end.

(** [normalizeURL(v)] on what the executor passes it, a truthy value of any
    type: [v.trim()] is a [TypeError] unless [v] is a string. *)
Definition normalizeURL_of (v : JSValue num) : Outcome jsstring :=
  match v with
  | JString urlString => Returns (normalizeURL urlString)
  | _ => Throws (mkError TypeErrorC (msg_not_a_function rt (lit "trim")))
  end.

(** [executeFunction(functionCall, originalCommand)]
    <<
    console.log('Executing:', functionCall.name, functionCall.parameters);
    switch (functionCall.name) {
        case 'open_browser':
            if (functionCall.parameters.url) {
                const normalizedUrl = normalizeURL(functionCall.parameters.url);
                showFeedbackPanel(originalCommand, `Opening ${normalizedUrl}...`);
                loadURL(normalizedUrl);
            } else {
                showFeedbackPanel(originalCommand, 'No URL provided', true);
            }
            break;
        case 'search_web':
            if (functionCall.parameters.query) {
                const query = encodeURIComponent(functionCall.parameters.query);
                const searchUrl = `https://www.google.com/search?q=${query}`;
                showFeedbackPanel(originalCommand,
                    `Searching for "${functionCall.parameters.query}"...`);
                loadURL(searchUrl);
            } else {
                showFeedbackPanel(originalCommand, 'No search query provided', true);
            }
            break;
        case 'go_back':      ... webViewRef.current?.goBack();    break;
        case 'go_forward':   ... webViewRef.current?.goForward(); break;
        case 'refresh_page': ... webViewRef.current?.reload();    break;
        default:
            showFeedbackPanel(originalCommand,
                `Unknown command: ${functionCall.name}`, true);
    }
    scheduleFeedbackHide();
    >> *)
Definition executeFunction (functionCall : JSValue num)
    (originalCommand : jsstring) : M Screen unit :=
  functionCall_name ← liftOutcome (getProp rt functionCall (lit "name"));
  functionCall_parameters ←
    liftOutcome (getProp rt functionCall (lit "parameters"));
  (if strictEq functionCall_name (lit "open_browser") then
     parameters_url ← liftOutcome (getProp rt functionCall_parameters (lit "url"));
     if truthy rt parameters_url then
       normalizedUrl ← liftOutcome (normalizeURL_of parameters_url);
       showFeedbackPanel originalCommand
         (lit "Opening " ++ normalizedUrl ++ lit "...") false;;
       loadURL normalizedUrl
     else
       showFeedbackPanel originalCommand (lit "No URL provided") true
   else if strictEq functionCall_name (lit "search_web") then
     parameters_query ←
       liftOutcome (getProp rt functionCall_parameters (lit "query"));
     if truthy rt parameters_query then
       query ← liftOutcome (s ← ToString rt parameters_query;
                            encodeURIComponent rt s);
       let searchUrl := lit "https://www.google.com/search?q=" ++ query in
       shown ← liftOutcome (ToString rt parameters_query);
       showFeedbackPanel originalCommand
         (lit "Searching for " ++ dquote ++ shown ++ dquote ++ lit "...") false;;
       loadURL searchUrl
     else
       showFeedbackPanel originalCommand (lit "No search query provided") true
   else if strictEq functionCall_name (lit "go_back") then
     showFeedbackPanel originalCommand (lit "Going back...") false;;
     webView GoBack
   else if strictEq functionCall_name (lit "go_forward") then
     showFeedbackPanel originalCommand (lit "Going forward...") false;;
     webView GoForward
   else if strictEq functionCall_name (lit "refresh_page") then
     showFeedbackPanel originalCommand (lit "Refreshing page...") false;;
     webView Reload
   else
     shown ← liftOutcome (ToString rt functionCall_name);
     showFeedbackPanel originalCommand (lit "Unknown command: " ++ shown) true);;
  scheduleFeedbackHide 3000.

(** What the executor does in every branch that does not navigate: show a
    status and schedule the panel's hiding. *)
Definition announce (originalCommand statusText : jsstring) (isError : bool)
  : M Screen unit :=
  showFeedbackPanel originalCommand statusText isError;;
  scheduleFeedbackHide 3000.

(** [handleUrlSubmit()] *)
Definition handleUrlSubmit : M Screen unit :=
  s ← get; loadURL (normalizeURL (currentUrl s)).

(** The process as a whole: the service's world and the screen. *)
Record App := { world : World; screen : Screen }.

Definition onWorld {A} (m : M World A) : M App A := fun a =>
  let '(r, w) := m (world a) in (r, {| world := w; screen := screen a |}).

Definition onScreen {A} (m : M Screen A) : M App A := fun a =>
  let '(r, s) := m (screen a) in (r, {| world := world a; screen := s |}).

(** [processVoiceCommand(command)]
    <<
    setIsProcessing(true);
    setStatus('Processing...');
    showFeedbackPanel(command, 'Processing...');
    try {
        const functionCall = await parseVoiceCommand(command);
        executeFunction(functionCall, command);
    } catch (error) {
        showFeedbackPanel(command, `Error: ${error.message}`, true);
    } finally {
        setIsProcessing(false);
    }
    >> *)
Definition processVoiceCommand (command : jsstring) : M App unit :=
  onScreen (setIsProcessing true);;
  onScreen (setStatus (lit "Processing..."));;
  onScreen (showFeedbackPanel command (lit "Processing...") false);;
  try_finally
    (try_catch
       (functionCall ← onWorld (parseVoiceCommand command);
        onScreen (executeFunction functionCall command))
       (fun error =>
          onScreen (showFeedbackPanel command
                      (lit "Error: " ++ message error) true)))
    (onScreen (setIsProcessing false)).

End Pipeline.

Arguments InitParams : clear implicits.
Arguments CompletionParams : clear implicits.
Arguments ModelConfig : clear implicits.
Arguments InferenceOptions : clear implicits.
Arguments AxiosOutcome : clear implicits.
Arguments Env : clear implicits.
Arguments Event : clear implicits.
Arguments World : clear implicits.
Arguments App : clear implicits.

(** The names the executor recognises. *)
Definition recognized : list jsstring :=
  [lit "open_browser"; lit "search_web"; lit "go_back"; lit "go_forward";
   lit "refresh_page"].

(** No navigation happened between two states of the screen: the URL of the
    web view and of the address bar are the same, and no method of the web
    view was called. *)
Definition noNavigation (before after : Screen) : Prop :=
  url after = url before /\ currentUrl after = currentUrl before
  /\ webViewCalls after = webViewCalls before.

(* ===================================================================== *)
(** * 8. Runs of the service *)
(* ===================================================================== *)

Section Runs.

Context {num : Type}.
Variable rt : Runtime num.

(** What the rest of the application can ask of the voice service and of
    the engine module ([OpUnloadModel] is
    [getFunctionGemmaEngine().unloadModel()]). *)
Inductive Op :=
  | OpAutoInitialize
  | OpInitialize (modelPath : jsstring)
  | OpSetMode (mode : InferenceMode)
  | OpGetMode
  | OpIsOnDeviceAvailable
  | OpGetStats
  | OpParseVoiceCommand (command : jsstring)
  | OpUnloadModel
  | OpReleaseEngine.

(** One operation, in the environment it meets. *)
Definition step (w : World num) (envop : Env num * Op) : World num :=
  let '(env, op) := envop in
  match op with
  | OpAutoInitialize => (autoInitializeOnDevice rt env w).2
  | OpInitialize modelPath => (initializeOnDeviceInference rt env modelPath w).2
  | OpSetMode mode => (setInferenceMode mode w).2
  | OpGetMode => (getInferenceMode w).2
  | OpIsOnDeviceAvailable => (isOnDeviceAvailable w).2
  | OpGetStats => (getInferenceStats w).2
  | OpParseVoiceCommand command => (parseVoiceCommand rt env command w).2
  | OpUnloadModel => ((getFunctionGemmaEngine;; unloadModel env) w).2
  | OpReleaseEngine => (releaseFunctionGemmaEngine env w).2
  end.

(** A sequence of operations, each in its own environment and each run to
    its end before the next starts. *)
Definition run (ops : list (Env num * Op)) (w : World num) : World num :=
  foldl step w ops.

End Runs.

(* ===================================================================== *)
(** * 9. The response parsing as the specification words it *)
(* ===================================================================== *)

(** The text from an opening brace up to the brace that balances it. *)
Fixpoint takeBalanced (depth : nat) (s : jsstring) : option jsstring :=
  match s with
  | [] => None
  | c :: s' =>
      if (c =? 123)%N then (c ::.) <$> takeBalanced (S depth) s'
      else if (c =? 125)%N then
        match depth with
        | 0 => None
        | 1 => Some [c]
        | S d => (c ::.) <$> takeBalanced d s'
        end
      else (c ::.) <$> takeBalanced depth s'
  end.

(** "The first balanced [{...}] JSON object" of a text. *)
Fixpoint spec_firstBalancedObject (s : jsstring) : option jsstring :=
  match s with
  | [] => None
  | c :: s' =>
      match (if (c =? 123)%N then takeBalanced 0 s else None) with
      | Some object => Some object
      | None => spec_firstBalancedObject s'
      end
  end.

(** [parseResponse] with that extraction in place of the source's. *)
Definition spec_parseResponse {num} (rt : Runtime num) (response : jsstring)
  : Outcome FunctionCall :=
  let cleaned := cleanup response in
  match spec_firstBalancedObject cleaned with
  | None => Throws (Error (lit "No JSON object found in response"))
  | Some cleaned =>
      catch
        (parsed ← JSON_parse rt cleaned; validateCall rt parsed)
        (fun error =>
           Throws (Error (lit "JSON parsing failed: " ++ message error)))
  end.

(* ===================================================================== *)
(** * 10. A concrete runtime and environments, for the examples *)
(* ===================================================================== *)

Module Sample.

(** Numbers of the examples are integers. *)
Definition Z_toString (z : Z) : jsstring :=
  lit (NilZero.string_of_int (Z.to_int z)).

Definition hexDigit (n : N) : N :=
  if (n <? 10)%N then (48 + n)%N else (55 + n)%N.

Definition percent (byte : N) : jsstring :=
  [37%N; hexDigit (byte / 16); hexDigit (byte mod 16)].

Definition utf8 (cp : N) : list N :=
  if (cp <? 128)%N then [cp]
  else if (cp <? 2048)%N then [192 + cp / 64; 128 + cp mod 64]%N
  else if (cp <? 65536)%N then
    [224 + cp / 4096; 128 + (cp / 64) mod 64; 128 + cp mod 64]%N
  else
    [240 + cp / 262144; 128 + (cp / 4096) mod 64;
     128 + (cp / 64) mod 64; 128 + cp mod 64]%N.

(** [A-Z a-z 0-9 - _ . ! ~ * ' ( )] *)
Definition uriUnreserved (c : N) : bool :=
  ((65 <=? c) && (c <=? 90) || (97 <=? c) && (c <=? 122)
   || (48 <=? c) && (c <=? 57)
   || (c =? 45) || (c =? 95) || (c =? 46) || (c =? 33) || (c =? 126)
   || (c =? 42) || (c =? 39) || (c =? 40) || (c =? 41))%N.

Definition uriError : JsError := mkError URIErrorC (lit "URI malformed").

Fixpoint percentEncode (s : jsstring) : Outcome jsstring :=
  match s with
  | [] => Returns []
  | c :: rest =>
      if uriUnreserved c then r ← percentEncode rest; Returns (c :: r)
      else if (c <? 55296)%N || (57343 <? c)%N then
        r ← percentEncode rest;
        Returns (concat (percent <$> utf8 c) ++ r)
      else if (c <? 56320)%N then
        match rest with
        | d :: rest' =>
            if (56320 <=? d)%N && (d <=? 57343)%N then
              r ← percentEncode rest';
              Returns (concat (percent <$>
                         utf8 ((c - 55296) * 1024 + (d - 56320) + 65536)%N) ++ r)
            else Throws uriError
        | [] => Throws uriError
        end
      else Throws uriError
  end.

(** The texts [JSON.parse] is given in the examples, with their values. *)
Definition parses : list (jsstring * Outcome (JSValue Z)) :=
  [ (litq "{'name':'open_browser','parameters':{'url':'google','tab':2}}",
     Returns (JObject
       (<[lit "name" := JString (lit "open_browser")]>
        (<[lit "parameters" :=
             JObject (<[lit "url" := JString (lit "google")]>
                      (<[lit "tab" := JNumber 2%Z]> ∅))]> ∅))));
    (litq "{'parameters':{'url':'google'}}",
     Returns (JObject
       (<[lit "parameters" :=
            JObject (<[lit "url" := JString (lit "google")]> ∅)]> ∅)));
    (litq "{'name':'go_back'}",
     Returns (JObject (<[lit "name" := JString (lit "go_back")]> ∅))) ].

Definition syntaxError : JsError :=
  mkError SyntaxErrorC (lit "JSON Parse error: Unexpected token").

Definition tableParse (text : jsstring) : Outcome (JSValue Z) :=
  match List.find (fun p => bool_decide (p.1 = text)) parses with
  | Some p => p.2
  | None => Throws syntaxError
  end.

Definition runtime : Runtime Z :=
  {| Number_ofZ := fun z => z;
     Number_truthy := fun z => negb (z =? 0)%Z;
     Number_toString := Z_toString;
     JSON_parse := tableParse;
     encodeURIComponent := percentEncode;
     msg_read_of_nullish := fun null p =>
       lit "Cannot read property '" ++ p ++ lit "' of "
       ++ (if null then lit "null" else lit "undefined");
     msg_no_primitive := lit "Cannot convert object to primitive value";
     msg_not_a_function := fun p => p ++ lit " is not a function" |}.

(** A phone on which [llama.rn] loads every model, the model generates
    [answer], and the backend answers [post]. *)
Definition phone (answer : jsstring) (post : AxiosOutcome Z) : Env Z :=
  {| Platform_OS := android;
     Constants_isDevice := true;
     Constants_hostUri := Some (lit "192.168.1.20:8081");
     llama_rn := Some (fun _ => Returns 1%N);
     llama_completion := fun _ _ => Returns answer;
     llama_release := fun _ => Returns tt;
     axios_post := fun _ _ _ => post |}.

(** A browser tab: no native module, so no model ever loads; the backend
    answers [post]. *)
Definition browserTab (post : AxiosOutcome Z) : Env Z :=
  {| Platform_OS := web;
     Constants_isDevice := false;
     Constants_hostUri := None;
     llama_rn := None;
     llama_completion := fun _ _ => Throws (Error (lit "no context"));
     llama_release := fun _ => Returns tt;
     axios_post := fun _ _ _ => post |}.

(** The world once the phone has loaded a model. *)
Definition loaded (env : Env Z) : World Z :=
  (initializeOnDeviceInference runtime env (lit "/models/gemma.gguf")
     (initialWorld env)).2.

(** A text the model generates, and the call it stands for. *)
Definition generated : jsstring :=
  litq "Sure: {'name':'open_browser','parameters':{'url':'google','tab':2}}<end_of_turn>".

Definition generatedCall : FunctionCall :=
  {| name := lit "open_browser";
     parameters := <[lit "url" := lit "google"]> (<[lit "tab" := lit "2"]> ∅) |}.

(** A text with two objects in it. *)
Definition generatedTwice : jsstring :=
  litq "{'name':'go_back'} or {'name':'refresh_page'}<end_of_turn>".

(** The backend's answer to "open google". *)
Definition openGoogle : JSValue Z :=
  valueOfCall {| name := lit "open_browser";
                 parameters := {[ lit "url" := lit "google" ]} |}.

End Sample.


(* ===================================================================== *)
(** * 11. What the outside world was asked; further vocabulary *)
(* ===================================================================== *)

Section Requests.

Context {num : Type}.

(** The requests of a trace that went to the backend. *)
Definition isPost (ev : Event num) : bool :=
  match ev with EvPost _ _ _ => true | _ => false end.

Definition posts (t : list (Event num)) : list (Event num) :=
  List.filter isPost t.

(** The requests of a trace that went to the native module. *)
Definition isNative (ev : Event num) : bool := negb (isPost ev).

Definition natives (t : list (Event num)) : list (Event num) :=
  List.filter isNative t.

(** No request went to the backend between two worlds. *)
Definition samePosts (w w' : World num) : Prop :=
  posts (trace w') = posts (trace w).

(** No request went to the native module, and the engine singleton is the
    same. *)
Definition sameEngine (w w' : World num) : Prop :=
  natives (trace w') = natives (trace w)
  /\ engineInstance w' = engineInstance w.

(** The engine as a method sees it: the singleton, or a fresh engine. *)
Definition engineOf (w : World num) : Engine :=
  default newEngine (engineInstance w).

(** An environment in which no model can load: a browser, or a build
    without [llama.rn]. *)
Definition cannotLoad (env : Env num) : Prop :=
  Platform_OS env = web \/ llama_rn env = None.

End Requests.

(** The method of the web view a history command calls. *)
Definition historyCall (n : jsstring) : option WebViewCall :=
  if bool_decide (n = lit "go_back") then Some GoBack
  else if bool_decide (n = lit "go_forward") then Some GoForward
  else if bool_decide (n = lit "refresh_page") then Some Reload
  else None.

(** [s.endsWith(suffix)] *)
Definition endsWith (suffix s : jsstring) : bool :=
  startsWith (rev suffix) (rev s).

(* ===================================================================== *)
(** * 12. The speech recognition hook ([useVoiceRecognition.ts]) *)
(* ===================================================================== *)

Module VoiceRecognition.

(** The state of the hook, and whether [webRecognitionRef.current] is
    set. *)
Record Hook := {
  isListening : bool;
  transcript : jsstring;
  error : option jsstring;
  isSupported : bool;
  webRecognitionRef : bool;
}.

(** A call made on a platform recogniser. *)
Inductive Call :=
  | GetState | RequestPermissions | NativeStart | NativeStop
  | WebStart | WebStop.

Record State := { hook : Hook; calls : list Call }.

(** The platform as the hook meets it. *)
Record Speech := {
  OS : PlatformOS;
  (** ['webkitSpeechRecognition' in window || 'SpeechRecognition' in window] *)
  speechInWindow : bool;
  (** [window.webkitSpeechRecognition || window.SpeechRecognition] is
      there to construct *)
  speechConstructor : bool;
  (** [ExpoSpeechRecognitionModule.getStateAsync()] *)
  getStateAsync : Outcome unit;
  (** the [status] of [requestPermissionsAsync()] *)
  requestPermissionsAsync : Outcome jsstring;
  (** [ExpoSpeechRecognitionModule.start(...)] and [.stop()] *)
  nativeStart : Outcome unit;
  nativeStop : Outcome unit;
  (** [webRecognitionRef.current.start()] and [.stop()] *)
  webStart : Outcome unit;
  webStop : Outcome unit;
}.

(** [useState(false)], [useState('')], [useState(null)], [useState(false)],
    [useRef(null)] *)
Definition initial : State :=
  {| hook := {| isListening := false; transcript := []; error := None;
                isSupported := false; webRecognitionRef := false |};
     calls := [] |}.

Definition setHook (f : Hook -> Hook) : M State unit :=
  modify (fun s => {| hook := f (hook s); calls := calls s |}).

Definition call (c : Call) : M State unit :=
  modify (fun s => {| hook := hook s; calls := calls s ++ [c] |}).

Definition setIsListening (b : bool) : M State unit :=
  setHook (fun h =>
    {| isListening := b; transcript := transcript h; error := error h;
       isSupported := isSupported h;
       webRecognitionRef := webRecognitionRef h |}).

Definition setTranscript (t : jsstring) : M State unit :=
  setHook (fun h =>
    {| isListening := isListening h; transcript := t; error := error h;
       isSupported := isSupported h;
       webRecognitionRef := webRecognitionRef h |}).

Definition setError (e : option jsstring) : M State unit :=
  setHook (fun h =>
    {| isListening := isListening h; transcript := transcript h; error := e;
       isSupported := isSupported h;
       webRecognitionRef := webRecognitionRef h |}).

Definition setIsSupported (b : bool) : M State unit :=
  setHook (fun h =>
    {| isListening := isListening h; transcript := transcript h;
       error := error h; isSupported := b;
       webRecognitionRef := webRecognitionRef h |}).

Definition setWebRecognitionRef (b : bool) : M State unit :=
  setHook (fun h =>
    {| isListening := isListening h; transcript := transcript h;
       error := error h; isSupported := isSupported h;
       webRecognitionRef := b |}).

Section Hook.

Variable platform : Speech.

(** The two effects run on mount: [checkSupport()], and the creation of the
    web recogniser once [isSupported] holds. *)
Definition mount : M State unit :=
  match OS platform with
  | web => setIsSupported (speechInWindow platform)
  | _ =>
      try_catch
        (call GetState;; liftOutcome (getStateAsync platform);;
         setIsSupported true)
        (fun e => setIsSupported false)
  end;;
  s ← get;
  match OS platform with
  | web =>
      if isSupported (hook s) && speechConstructor platform
      then setWebRecognitionRef true
      else mret tt
  | _ => mret tt
  end.

(** [startListening()] *)
Definition startListening : M State unit :=
  setError None;;
  setTranscript [];;
  s ← get;
  match OS platform with
  | web =>
      if webRecognitionRef (hook s)
      then try_catch
             (call WebStart;; liftOutcome (webStart platform);;
              setIsListening true)
             (fun e => setError (Some (message e)))
      else mret tt
  | _ =>
      try_catch
        (call RequestPermissions;;
         status ← liftOutcome (requestPermissionsAsync platform);
         if negb (bool_decide (status = lit "granted"))
         then setError (Some (lit "Microphone permission denied"))
         else
           call NativeStart;; liftOutcome (nativeStart platform);;
           setIsListening true)
        (fun e => setError (Some (message e)))
  end.

(** [stopListening()] *)
Definition stopListening : M State unit :=
  s ← get;
  match OS platform with
  | web =>
      if webRecognitionRef (hook s)
      then try_catch (call WebStop;; liftOutcome (webStop platform))
                     (fun e => mret tt)
      else mret tt
  | _ =>
      try_catch (call NativeStop;; liftOutcome (nativeStop platform))
                (fun e => mret tt)
  end;;
  setIsListening false.

End Hook.

(** What a recogniser reports to the hook. *)
Inductive Report :=
  | WebResult (transcriptText : jsstring) (isFinal : bool)
  | WebError (err : jsstring)
  | WebEnd
  | NativeStarted
  | NativeEnded
  | NativeResult (first : option jsstring) (isFinal : bool)
  | NativeError (err : jsstring).

(** What [useVoiceRecognition] is given as [onResult]: nothing, a function,
    or a value that is no function. *)
Inductive Argument := Nothing | Callback | NoFunction.

(** [if (onResult) { onResult({ transcript, isFinal }) }]: what the callback
    is called with, if it is called.  A value that is no function is truthy
    all the same (an object is), and calling it throws a [TypeError]. *)
Definition callOnResult {num} (rt : Runtime num) (onResult : Argument)
    (result : jsstring * bool) : Outcome (option (jsstring * bool)) :=
  match onResult with
  | Nothing => Returns None
  | Callback => Returns (Some result)
  | NoFunction =>
      Throws (mkError TypeErrorC (msg_not_a_function rt (lit "onResult")))
  end.

(** The handlers of those reports; what they return is what [onResult] is
    called with, if anything.  ([first] is [event.results[0]?.transcript].) *)
Definition report {num} (rt : Runtime num) (onResult : Argument) (r : Report)
  : M State (option (jsstring * bool)) :=
  match r with
  | WebResult transcriptText isFinal =>
      setTranscript transcriptText;;
      liftOutcome (callOnResult rt onResult (transcriptText, isFinal))
  | WebError err => setError (Some err);; setIsListening false;; mret None
  | WebEnd => setIsListening false;; mret None
  | NativeStarted => setIsListening true;; setError None;; mret None
  | NativeEnded => setIsListening false;; mret None
  | NativeResult first isFinal =>
      let transcriptText :=
        match first with
        | Some t => if nonEmpty t then t else []
        | None => []
        end in
      setTranscript transcriptText;;
      liftOutcome (callOnResult rt onResult (transcriptText, isFinal))
  | NativeError err => setError (Some err);; setIsListening false;; mret None
  end.

(** What the user of the hook can do once it is mounted. *)
Inductive Action := Start | Stop.

Definition act (platform : Speech) (s : State) (a : Action) : State :=
  match a with
  | Start => (startListening platform s).2
  | Stop => (stopListening platform s).2
  end.

Definition run (platform : Speech) (actions : list Action) : State :=
  foldl (act platform) (mount platform initial).2 actions.

(** Nothing to start or stop, and nothing was. *)
Definition idle (s : State) : Prop :=
  webRecognitionRef (hook s) = false
  /\ isListening (hook s) = false
  /\ error (hook s) = None
  /\ calls s = [].

(** A browser without the Web Speech API, and a phone on which the user
    refuses the microphone. *)
Definition plainBrowser : Speech :=
  {| OS := web; speechInWindow := false; speechConstructor := false;
     getStateAsync := Returns tt;
     requestPermissionsAsync := Returns (lit "granted");
     nativeStart := Returns tt; nativeStop := Returns tt;
     webStart := Returns tt; webStop := Returns tt |}.

Definition refusingPhone : Speech :=
  {| OS := android; speechInWindow := false; speechConstructor := false;
     getStateAsync := Returns tt;
     requestPermissionsAsync := Returns (lit "denied");
     nativeStart := Returns tt; nativeStop := Returns tt;
     webStart := Returns tt; webStop := Returns tt |}.

End VoiceRecognition.

(* ===================================================================== *)
(** * 13. Transcripts reaching the screen ([browser.tsx]) *)
(* ===================================================================== *)

Section Transcripts.

Context {num : Type}.
Variable rt : Runtime num.
Variable env : Env num.
Variable version : ScreenVersion.

(** [setTranscript(text)]: of the inline screen itself, and of the hook,
    whose [transcript] the hook screen shows. *)
Definition setTranscript (text : jsstring) : M Screen unit :=
  modify (fun s =>
    {| url := url s; currentUrl := currentUrl s; status := status s;
       transcript := text; isProcessing := isProcessing s;
       showFeedback := showFeedback s; feedbackOpacity := feedbackOpacity s;
       hideTimer := hideTimer s;
       webViewMounted := webViewMounted s;
       webViewCalls := webViewCalls s |}).

(** The callback the hook screen writes for its results:
    <<
    (result) => {
        if (result.isFinal) processVoiceCommand(result.transcript);
        else showFeedbackPanel(result.transcript, 'Listening...');
    }
    >> *)
Definition hookCallback (transcriptText : jsstring) (isFinal : bool)
  : M (App num) unit :=
  if isFinal then processVoiceCommand rt env HookScreen transcriptText
  else onScreen (showFeedbackPanel HookScreen transcriptText
                   (lit "Listening...") false).

(** What the hook screen calls the hook with.  The hook is
    [useVoiceRecognition = (onResult?: (result) => void) => ...] and calls
    its argument; the screen calls it as
    [useVoiceRecognition({ onResult: (result) => { ... } })], with an object
    that holds the callback: a value that is no function. *)
Definition hookArgument : VoiceRecognition.Argument :=
  VoiceRecognition.NoFunction.

(** What a result of the recogniser does on the screen.  On the hook screen
    the handler is the hook's,
    <<
    setTranscript(transcriptText);
    if (onResult) onResult({ transcript: transcriptText, isFinal });
    >>
    and on the inline screen it is the one the screen sets on its
    recogniser,
    <<
    onresult = (event) => {
        const result = event.results[event.results.length - 1];
        const transcriptText = result[0].transcript;
        setTranscript(transcriptText);
        if (result.isFinal) processVoiceCommand(transcriptText);
    }
    >> *)
Definition onResult (transcriptText : jsstring) (isFinal : bool)
  : M (App num) unit :=
  match version with
  | HookScreen =>
      onScreen (setTranscript transcriptText);;
      called ← liftOutcome
        (VoiceRecognition.callOnResult rt hookArgument
           (transcriptText, isFinal));
      match called with
      | Some result => hookCallback result.1 result.2
      | None => mret tt
      end
  | InlineScreen =>
      onScreen (setTranscript transcriptText);;
      if isFinal then processVoiceCommand rt env version transcriptText
      else mret tt
  end.

(** The state one result leaves; what its handler throws stops no later
    result. *)
Definition hear (a : App num) (result : jsstring * bool) : App num :=
  (onResult result.1 result.2 a).2.

(** One listening session: interim transcripts, then the final one. *)
Definition session (interim : list jsstring) (final : jsstring) (a : App num)
  : App num :=
  foldl hear a (((fun t => (t, false)) <$> interim) ++ [(final, true)]).

End Transcripts.

(* ===================================================================== *)
(** * 14. The settings screen ([settings.tsx]) *)
(* ===================================================================== *)

(** The inference mode is left as it was. *)
Definition sameMode {num} (w w' : World num) : Prop :=
  currentMode (service w') = currentMode (service w).

Module SettingsScreen.

(** What [DocumentPicker.getDocumentAsync] resolves to: [canceled], or the
    [name] and [uri] of [assets[0]]. *)
Inductive Picked := Canceled | Asset (name uri : jsstring).

(** The state of the screen, and the alerts it has shown (title and
    message). *)
Record Settings := {
  inferenceMode : InferenceMode;
  onDeviceReady : bool;
  isLoading : bool;
  modelPath : option jsstring;
  stats : InferenceMode * bool * jsstring;
  alerts : list (jsstring * jsstring);
}.

Section Settings.

Context {num : Type}.

(** The screen together with the voice service it imports. *)
Record Page := { services : World num; settings : Settings }.

(** The first render: [useState(InferenceMode.AUTO)], [useState(false)],
    [useState(false)], [useState(null)], [useState(getInferenceStats())]. *)
Definition initialPage (w : World num) : Page :=
  {| services := w;
     settings :=
       {| inferenceMode := AUTO; onDeviceReady := false; isLoading := false;
          modelPath := None;
          stats := (currentMode (service w), onDeviceAvailable (service w),
                    API_URL (service w));
          alerts := [] |} |}.

(** What holds of the settings screen and the service at any time: the
    mode shown is the mode in use, the screen believes the model ready only
    if it is, and on-device mode is in use only with a model ready. *)
Definition consistent (p : Page) : Prop :=
  inferenceMode (settings p) = currentMode (service (services p))
  /\ (onDeviceReady (settings p) = true ->
      onDeviceAvailable (service (services p)) = true)
  /\ (currentMode (service (services p)) = ON_DEVICE ->
      onDeviceAvailable (service (services p)) = true).

Definition onService {A} (m : M (World num) A) : M Page A := fun p =>
  let '(o, w) := m (services p) in
  (o, {| services := w; settings := settings p |}).

Definition setSettings (f : Settings -> Settings) : M Page unit :=
  modify (fun p => {| services := services p; settings := f (settings p) |}).

(** [Alert.alert(title, message, ...)] *)
Definition alert (title message : jsstring) : M Page unit :=
  setSettings (fun s =>
    {| inferenceMode := inferenceMode s; onDeviceReady := onDeviceReady s;
       isLoading := isLoading s; modelPath := modelPath s; stats := stats s;
       alerts := alerts s ++ [(title, message)] |}).

Definition setIsLoading (b : bool) : M Page unit :=
  setSettings (fun s =>
    {| inferenceMode := inferenceMode s; onDeviceReady := onDeviceReady s;
       isLoading := b; modelPath := modelPath s; stats := stats s;
       alerts := alerts s |}).

Definition setModelPath (uri : option jsstring) : M Page unit :=
  setSettings (fun s =>
    {| inferenceMode := inferenceMode s; onDeviceReady := onDeviceReady s;
       isLoading := isLoading s; modelPath := uri; stats := stats s;
       alerts := alerts s |}).

Definition setLocalInferenceMode (mode : InferenceMode) : M Page unit :=
  setSettings (fun s =>
    {| inferenceMode := mode; onDeviceReady := onDeviceReady s;
       isLoading := isLoading s; modelPath := modelPath s; stats := stats s;
       alerts := alerts s |}).

Definition setOnDeviceReady (b : bool) : M Page unit :=
  setSettings (fun s =>
    {| inferenceMode := inferenceMode s; onDeviceReady := b;
       isLoading := isLoading s; modelPath := modelPath s; stats := stats s;
       alerts := alerts s |}).

Definition setStats (st : InferenceMode * bool * jsstring) : M Page unit :=
  setSettings (fun s =>
    {| inferenceMode := inferenceMode s; onDeviceReady := onDeviceReady s;
       isLoading := isLoading s; modelPath := modelPath s; stats := st;
       alerts := alerts s |}).

(** [refreshStats()] *)
Definition refreshStats : M Page unit :=
  currentStats ← onService getInferenceStats;
  setStats currentStats;;
  setLocalInferenceMode currentStats.1.1;;
  setOnDeviceReady currentStats.1.2.

Variable rt : Runtime num.
Variable env : Env num.

(** [handleLoadModel()], on what the document picker gives. *)
Definition handleLoadModel (picker : Outcome Picked) : M Page unit :=
  try_finally
    (try_catch
       (result ← liftOutcome picker;
        match result with
        | Canceled => mret tt
        | Asset name uri =>
            if negb (endsWith (lit ".gguf") name)
            then alert (lit "Invalid File")
                       (lit "Please select a .gguf model file")
            else
              setIsLoading true;;
              setModelPath (Some uri);;
              success ← onService (initializeOnDeviceInference rt env uri);
              if (success : bool)
              then alert (lit "Success")
                     (lit "Model loaded successfully! On-device inference is now available.")
              else alert (lit "Error")
                     (lit "Failed to load model. Make sure you selected a valid FunctionGemma .gguf file.")
        end)
       (fun error => alert (lit "Error") (message error)))
    (setIsLoading false).

(** [handleModeChange(mode)] *)
Definition handleModeChange (mode : InferenceMode) : M Page unit :=
  p ← get;
  if match mode with ON_DEVICE => true | _ => false end
     && negb (onDeviceReady (settings p))
  then alert (lit "Model Not Loaded")
         (lit "Please load a model first to use on-device inference.")
  else
    onService (setInferenceMode mode);;
    setLocalInferenceMode mode;;
    refreshStats.

End Settings.

(** What the user can do with the application, as far as the voice service
    is concerned: start it (the root layout calls
    [autoInitializeOnDevice]), speak a command on the browser screen, and on
    the settings screen have the figures refreshed (on mount, and by the
    button of the alert after a load), pick a model file, and choose a
    mode. *)
Inductive Gesture :=
  | Launch
  | Speak (command : jsstring)
  | Refresh
  | PickModel (picker : Outcome Picked)
  | ChooseMode (mode : InferenceMode).

Definition gesture {num} (rt : Runtime num) (p : Page)
    (envg : Env num * Gesture) : Page :=
  let '(env, g) := envg in
  match g with
  | Launch => (onService (autoInitializeOnDevice rt env) p).2
  | Speak command => (onService (parseVoiceCommand rt env command) p).2
  | Refresh => (refreshStats p).2
  | PickModel picker => (handleLoadModel rt env picker p).2
  | ChooseMode mode => (handleModeChange mode p).2
  end.

Definition use {num} (rt : Runtime num) (gs : list (Env num * Gesture))
    (p : Page) : Page :=
  foldl (gesture rt) p gs.

End SettingsScreen.

(* ===================================================================== *)
(** * 15. The web application's interpretation route ([route.ts]) *)
(* ===================================================================== *)

Module WebRoute.

(** The characters [{] and [}]. *)
Definition lbrace : N := 123.
Definition rbrace : N := 125.

(** [[^}]*] followed by [}]: the characters before the first [}], when there
    is one. *)
Fixpoint untilClose (s : jsstring) : option jsstring :=
  match s with
  | [] => None
  | c :: rest =>
      if (c =? rbrace)%N then Some []
      else body ← untilClose rest; Some (c :: body)
  end.

(** [text.match(/\{[^}]+\}/)]: the leftmost [{] that is followed by at least
    one character other than [}] and then by a [}], with everything up to
    that first [}]. *)
Fixpoint matchObject (s : jsstring) : option jsstring :=
  match s with
  | [] => None
  | c :: rest =>
      if (c =? lbrace)%N then
        match untilClose rest with
        | Some (d :: body) => Some (c :: d :: body ++ [rbrace])
        | _ => matchObject rest
        end
      else matchObject rest
  end.

(** What is thrown inside the route, as far as its [catch] looks at it:
    [error.code] and [error.message]. *)
Record Thrown := { code : option jsstring; thrownMessage : jsstring }.

(** [NextResponse.json(body, { status })] *)
Record Reply {num} := { status : Z; body : JSValue num }.
Arguments Reply : clear implicits.

Section Route.

Context {num : Type}.
Variable rt : Runtime num.

(** The request and the model server as the route meets them. *)
Record Server := {
  (** [await request.json()] *)
  request_json : Thrown + JSValue num;
  (** what destructuring [null] throws *)
  destructure_null : Thrown;
  (** [(await ollama.generate({ model, prompt, ... })).response] *)
  ollama_generate : jsstring -> Thrown + jsstring;
}.

Variable server : Server.

Definition arrow : jsstring := [8594%N].

Definition SYSTEM_PROMPT : jsstring :=
  lit "You are a browser command parser. Convert natural language commands into structured function calls.

Available functions:
1. open_browser(url: string) - Navigate to a URL
2. search_web(query: string) - Search Google
3. go_back() - Browser back
4. go_forward() - Browser forward
5. refresh_page() - Reload page

Return ONLY valid JSON in this format:
" ++ litq "{'name': 'function_name', 'parameters': {'param': 'value'}}

Examples:
'open google' " ++ arrow
  ++ litq " {'name': 'open_browser', 'parameters': {'url': 'google.com'}}
'search for cats' " ++ arrow
  ++ litq " {'name': 'search_web', 'parameters': {'query': 'cats'}}
'go back' " ++ arrow ++ litq " {'name': 'go_back', 'parameters': {}}".

(** The prompt sent for a command. *)
Definition promptFor (command : jsstring) : jsstring :=
  SYSTEM_PROMPT ++ lit "

User command: " ++ dquote ++ command ++ dquote ++ lit "

Function call:".

Definition errorBody (message : jsstring) : JSValue num :=
  JObject {[ lit "error" := JString message ]}.

(** The [try] block of [POST]: what it returns, or what it throws. *)
Definition attempt : Thrown + Reply num :=
  match request_json server with
  | inl error => inl error
  | inr json =>
      match json with
      | JNull | JUndefined => inl (destructure_null server)
      | _ =>
          let command :=
            match json with
            | JObject props => default JUndefined (props !! lit "command")
            | _ => JUndefined
            end in
          match command with
          | JString text =>
              if negb (truthy rt command)
              then inr {| status := 400;
                          body := errorBody (lit "Invalid command") |}
              else
                match ollama_generate server (promptFor text) with
                | inl error => inl error
                | inr response =>
                    inr {| status := 200;
                           body :=
                             match matchObject response with
                             | Some jsonMatch =>
                                 match JSON_parse rt jsonMatch with
                                 | Returns functionCall => functionCall
                                 | Throws parseError =>
                                     valueOfCall (searchFallback text)
                                 end
                             | None => valueOfCall (searchFallback text)
                             end |}
                end
          | _ => inr {| status := 400;
                        body := errorBody (lit "Invalid command") |}
          end
      end
  end.

(** The errors that reach the [catch] block of [POST]: a rejection of
    [request.json()], the destructuring of [null], and a rejection of
    [ollama.generate] for a command that is a non-empty string. *)
Definition thrown (error : Thrown) : Prop :=
  request_json server = inl error
  \/ (request_json server = inr JNull /\ error = destructure_null server)
  \/ (request_json server = inr JUndefined /\ error = destructure_null server)
  \/ exists props text,
       request_json server = inr (JObject props)
       /\ props !! lit "command" = Some (JString text)
       /\ text <> []
       /\ ollama_generate server (promptFor text) = inl error.

(** The [catch] block of [POST] ([thrownMessage] is empty when the error
    has no message). *)
Definition caught (error : Thrown) : Reply num :=
  if bool_decide (code error = Some (lit "ECONNREFUSED"))
  then {| status := 503;
          body := errorBody (lit "Ollama is not running. Please start Ollama and pull functiongemma model.") |}
  else {| status := 500;
          body := errorBody (if nonEmpty (thrownMessage error)
                             then thrownMessage error
                             else lit "Failed to process command") |}.

(** [POST(request)] *)
Definition POST : Reply num :=
  match attempt with
  | inr reply => reply
  | inl error => caught error
  end.

End Route.

Arguments Server : clear implicits.

(** A request with the command "go back" when no model server listens. *)
Definition refusedRequest : Server Z :=
  {| request_json :=
       inr (JObject {[ lit "command" := JString (lit "go back") ]});
     destructure_null :=
       {| code := None;
          thrownMessage := lit "Cannot destructure property 'command' of 'null'" |};
     ollama_generate := fun _ =>
       inl {| code := Some (lit "ECONNREFUSED");
              thrownMessage := lit "connect ECONNREFUSED 127.0.0.1:11434" |} |}.

(** A request with the command "go back", and a model that always gives
    [answer]. *)
Definition goBackRequest (answer : jsstring) : Server Z :=
  {| request_json :=
       inr (JObject {[ lit "command" := JString (lit "go back") ]});
     destructure_null :=
       {| code := None;
          thrownMessage := lit "Cannot destructure property 'command' of 'null'" |};
     ollama_generate := fun _ => inr answer |}.

End WebRoute.
(* ===================================================================== *)
(** * 16. Facts about strings *)
(* ===================================================================== *)

(** Literals are unfolded to their code units before computing with them. *)
Ltac eval_lit s :=
  let v := eval vm_compute in (lit s) in
  change (lit s) with v in *.

Ltac eval_lits :=
  repeat match goal with
         | |- context [lit ?s] => eval_lit s
         | H : context [lit ?s] |- _ => eval_lit s
         end.

Section StringFacts.

Implicit Types pat rep s t : jsstring.

Lemma startsWith_app pat s t :
  startsWith pat s = true -> startsWith pat (s ++ t) = true.
Proof.
  revert s. induction pat as [|p pat IH]; intros [|c s]; simpl; try done.
  intros [-> H]%andb_true_iff. by rewrite (IH _ H).
Qed.

Lemma startsWith_spec pat s :
  startsWith pat s = true <-> exists t, s = pat ++ t.
Proof.
  revert s. induction pat as [|p pat IH]; intros s; simpl.
  - split; [by exists s | done].
  - destruct s as [|c s].
    + split; [done | by intros [t ?]].
    + rewrite andb_true_iff, N.eqb_eq, IH. split.
      * intros [-> [t ->]]. by exists t.
      * intros [t [= -> ->]]. split; [done | by exists t].
Qed.

Lemma startsWith_skipn pat s :
  startsWith pat s = true -> s = pat ++ skipn (length pat) s.
Proof.
  intros [t ->]%startsWith_spec. by rewrite drop_app_length.
Qed.

Lemma includes_app_l pat s t :
  includes pat s = true -> includes pat (s ++ t) = true.
Proof.
  induction s as [|c s IH]; simpl.
  - rewrite orb_false_r. intros H. destruct pat; [|done].
    by destruct t.
  - intros [H|H]%orb_true_iff.
    + pose proof (startsWith_app pat (c :: s) t H) as H'.
      simpl in H'. by rewrite H'.
    + rewrite (IH H). apply orb_true_r.
Qed.

Lemma includes_app_r pat s t :
  includes pat t = true -> includes pat (s ++ t) = true.
Proof.
  intros H. induction s as [|c s IH]; simpl; [done|].
  rewrite IH. apply orb_true_r.
Qed.

Lemma includes_split pat s :
  includes pat s = true -> exists a b, s = a ++ pat ++ b.
Proof.
  induction s as [|c s IH]; simpl.
  - rewrite orb_false_r. intros [t ->]%startsWith_spec. by exists [], t.
  - intros [H|H]%orb_true_iff.
    + apply startsWith_spec in H as [t ->]. by exists [], t.
    + destruct (IH H) as (a & b & ->). by exists (c :: a), b.
Qed.

Lemma includes_nonempty pat s :
  pat <> [] -> includes pat s = true -> s <> [].
Proof. intros Hpat H ->. by destruct pat. Qed.

(** [replace] leaves a string without the pattern alone, and otherwise
    swaps one occurrence of the pattern for the replacement. *)
Lemma replace_absent pat rep s :
  includes pat s = false -> replace pat rep s = s.
Proof.
  induction s as [|c s IH]; simpl.
  - by intros [-> _]%orb_false_iff.
  - intros [-> H]%orb_false_iff. by rewrite (IH H).
Qed.

Lemma replace_present pat rep s :
  includes pat s = true ->
  exists a b, s = a ++ pat ++ b /\ replace pat rep s = a ++ rep ++ b.
Proof.
  induction s as [|c s IH].
  - simpl. rewrite orb_false_r. intros H. rewrite H.
    apply startsWith_spec in H as [t Ht]. exists [], t. split; [done|].
    destruct pat; [|done]. simpl in *. by subst.
  - intros H. cbn [replace].
    destruct (startsWith pat (c :: s)) eqn:Hp.
    + exists [], (skipn (length pat) (c :: s)). split; [|done].
      by apply startsWith_skipn.
    + cbn [includes] in H. rewrite Hp in H. simpl in H.
      destruct (IH H) as (a & b & Hs & Hr). exists (c :: a), b.
      split; [by rewrite Hs | by rewrite Hr].
Qed.

Lemma replace_keeps_includes q pat rep s :
  includes q s = true -> includes q rep = true ->
  includes q (replace pat rep s) = true.
Proof.
  intros Hs Hrep. destruct (includes pat s) eqn:Hp.
  - destruct (replace_present pat rep s Hp) as (a & b & _ & ->).
    by apply includes_app_r, includes_app_l.
  - by rewrite replace_absent.
Qed.

Lemma trimStart_clean s : cleanStart (trimStart s) = true.
Proof.
  induction s as [|c s IH]; simpl; [done|].
  destruct (isWhiteSpace c) eqn:Hc; [done|]. simpl. by rewrite Hc.
Qed.

Lemma trimStart_fixed s : cleanStart s = true -> trimStart s = s.
Proof. destruct s as [|c s]; simpl; [done|]. by intros ->%negb_true_iff. Qed.

Lemma trimStart_suffix s : exists ws, s = ws ++ trimStart s.
Proof.
  induction s as [|c s [ws IH]]; simpl; [by exists []|].
  destruct (isWhiteSpace c); [|by exists []].
  exists (c :: ws). simpl. by f_equal.
Qed.

Lemma trimEnd_prefix s : exists ws, s = trimEnd s ++ ws.
Proof.
  unfold trimEnd. destruct (trimStart_suffix (rev s)) as [ws H].
  exists (rev ws). rewrite <- rev_app_distr, <- H. by rewrite rev_involutive.
Qed.

Lemma trimEnd_cleanEnd s : cleanEnd (trimEnd s) = true.
Proof.
  unfold cleanEnd, trimEnd. rewrite rev_involutive. apply trimStart_clean.
Qed.

Lemma trimEnd_cleanStart s : cleanStart s = true -> cleanStart (trimEnd s) = true.
Proof.
  destruct (trimEnd_prefix s) as [ws H]. intros Hs.
  destruct (trimEnd s) as [|c t]; [done|]. rewrite H in Hs. exact Hs.
Qed.

Lemma trim_clean s : cleanStart (trim s) = true /\ cleanEnd (trim s) = true.
Proof.
  unfold trim. split.
  - apply trimEnd_cleanStart, trimStart_clean.
  - apply trimEnd_cleanEnd.
Qed.

Lemma trim_fixed s : cleanStart s = true -> cleanEnd s = true -> trim s = s.
Proof.
  intros Hs He. unfold trim. rewrite (trimStart_fixed s Hs).
  unfold trimEnd. rewrite (trimStart_fixed _ He). apply rev_involutive.
Qed.

Lemma trim_fixed_iff s : trim s = s <-> cleanStart s = true /\ cleanEnd s = true.
Proof.
  split.
  - intros <-. apply trim_clean.
  - intros [? ?]. by apply trim_fixed.
Qed.

Lemma cleanStart_app s t :
  cleanStart s = true -> cleanStart t = true -> cleanStart (s ++ t) = true.
Proof. by destruct s. Qed.

Lemma cleanEnd_app s t :
  cleanEnd s = true -> cleanEnd t = true -> cleanEnd (s ++ t) = true.
Proof. unfold cleanEnd. rewrite rev_app_distr. intros. by apply cleanStart_app. Qed.

Lemma cleanEnd_app_r s t :
  t <> [] -> cleanEnd t = true -> cleanEnd (s ++ t) = true.
Proof.
  unfold cleanEnd. rewrite rev_app_distr. intros Ht H.
  destruct (rev t) as [|c r] eqn:Hr; [|done].
  apply (f_equal (@rev N)) in Hr. rewrite rev_involutive in Hr. done.
Qed.

Lemma replace_cleanStart pat rep s :
  pat <> [] -> rep <> [] -> cleanStart rep = true -> cleanStart s = true ->
  cleanStart (replace pat rep s) = true.
Proof.
  intros Hpat Hrep Hc Hs. destruct s as [|c s].
  - simpl. by destruct pat.
  - cbn [replace]. destruct (startsWith pat (c :: s)); [|done].
    by destruct rep.
Qed.

End StringFacts.

(* ===================================================================== *)
(** * 17. URL normalisation *)
(* ===================================================================== *)

Example normalizeURL_google :
  normalizeURL (lit "google") = lit "https://www.google.com".
Proof. reflexivity. Qed.

Example normalizeURL_github :
  normalizeURL (lit " github.com ") = lit "https://github.com".
Proof. reflexivity. Qed.

Example normalizeURL_localhost :
  normalizeURL (lit "localhost:3000") = lit "https://localhost:3000".
Proof. reflexivity. Qed.

Example normalizeURL_http :
  normalizeURL (lit "http://intranet") = lit "http://intranet.com".
Proof. reflexivity. Qed.

Example normalizeURL_empty :
  normalizeURL [] = lit "https://www..com".
Proof. reflexivity. Qed.

Lemma normalizeURL_steps x : normalizeURL x = asHostname (withScheme (trim x)).
Proof. reflexivity. Qed.

Lemma withScheme_includes n : includes (lit "://") (withScheme n) = true.
Proof.
  unfold withScheme. destruct (includes (lit "://") n) eqn:H; cbn [negb]; [done|].
  by apply includes_app_l.
Qed.

Lemma withScheme_clean n :
  cleanStart n = true -> cleanEnd n = true ->
  cleanStart (withScheme n) = true /\ cleanEnd (withScheme n) = true.
Proof.
  intros Hs He. unfold withScheme.
  destruct (negb (includes (lit "://") n)); [|done].
  split; [done | by apply cleanEnd_app].
Qed.

Lemma asHostname_includes m :
  includes (lit "://") m = true -> includes (lit "://") (asHostname m) = true.
Proof.
  intros H. unfold asHostname.
  destruct (negb _ && negb _); [|done].
  apply includes_app_l. by apply replace_keeps_includes.
Qed.

Lemma asHostname_dotted m :
  includes (lit ".") (asHostname m) || includes (lit "localhost") (asHostname m)
  = true.
Proof.
  unfold asHostname.
  destruct (includes (lit ".") m) eqn:Hd; simpl; [by rewrite Hd|].
  destruct (includes (lit "localhost") m) eqn:Hl; simpl.
  - rewrite Hd, Hl. done.
  - rewrite (includes_app_r (lit ".") _ (lit ".com")); done.
Qed.

Lemma asHostname_clean m :
  cleanStart m = true -> cleanEnd m = true ->
  cleanStart (asHostname m) = true /\ cleanEnd (asHostname m) = true.
Proof.
  intros Hs He. unfold asHostname.
  destruct (negb _ && negb _); [|done]. split.
  - apply cleanStart_app; [|done].
    apply replace_cleanStart; [discriminate | discriminate | reflexivity | done].
  - apply cleanEnd_app_r; [discriminate | reflexivity].
Qed.

(** A normalised URL is left alone: it is trimmed, has a scheme separator,
    and has a dot or names [localhost]. *)
Lemma normalizeURL_fixed s :
  cleanStart s = true -> cleanEnd s = true ->
  includes (lit "://") s = true ->
  includes (lit ".") s || includes (lit "localhost") s = true ->
  normalizeURL s = s.
Proof.
  intros Hs He Hsep Hdot. rewrite normalizeURL_steps, (trim_fixed s Hs He).
  unfold withScheme. rewrite Hsep. simpl. unfold asHostname.
  apply orb_true_iff in Hdot as [-> | ->]; simpl; [done|].
  by rewrite andb_false_r.
Qed.

(** C6. [normalizeURL] is idempotent: normalising a normalised URL changes
    nothing, for every input string (no second scheme prefix, no second
    [.com]). *)
Theorem normalizeURL_idempotent (x : jsstring) :
  normalizeURL (normalizeURL x) = normalizeURL x.
Proof.
  rewrite (normalizeURL_steps x).
  destruct (trim_clean x) as [Hs He].
  destruct (withScheme_clean _ Hs He) as [Hs' He'].
  destruct (asHostname_clean _ Hs' He') as [Hs'' He''].
  apply normalizeURL_fixed; try done.
  - apply asHostname_includes, withScheme_includes.
  - apply asHostname_dotted.
Qed.

(** C5. A bare hostname [h] (trimmed, without ["://"], without a dot and
    without ["localhost"]) normalises to ["https://www." + h + ".com"]: the
    [https://] that step 2 prepends is replaced by [https://www.] and
    [.com] is appended. *)
Theorem normalizeURL_bare_hostname (h : jsstring) :
  trim h = h ->
  includes (lit "://") h = false ->
  includes (lit ".") h = false ->
  includes (lit "localhost") h = false ->
  normalizeURL h = lit "https://www." ++ h ++ lit ".com"
  /\ withScheme (trim h) = lit "https://" ++ h
  /\ asHostname (lit "https://" ++ h)
     = replace (lit "https://") (lit "https://www.") (lit "https://" ++ h)
       ++ lit ".com".
Proof.
  intros Htrim Hsep Hdot Hlocal.
  assert (Hm : withScheme (trim h) = lit "https://" ++ h).
  { rewrite Htrim. unfold withScheme. by rewrite Hsep. }
  assert (Hd : includes (lit ".") (lit "https://" ++ h) = false).
  { eval_lits. simpl. exact Hdot. }
  assert (Hl : includes (lit "localhost") (lit "https://" ++ h) = false).
  { eval_lits. simpl. exact Hlocal. }
  assert (Ha : asHostname (lit "https://" ++ h)
               = replace (lit "https://") (lit "https://www.")
                   (lit "https://" ++ h) ++ lit ".com").
  { unfold asHostname. by rewrite Hd, Hl. }
  split; [|done].
  rewrite normalizeURL_steps, Hm, Ha.
  eval_lits. reflexivity.
Qed.

(** The hostname ["google"] is one. *)
Lemma normalizeURL_bare_hostname_witness :
  normalizeURL (lit "google") = lit "https://www." ++ lit "google" ++ lit ".com"
  /\ withScheme (trim (lit "google")) = lit "https://" ++ lit "google"
  /\ asHostname (lit "https://" ++ lit "google")
     = replace (lit "https://") (lit "https://www.") (lit "https://" ++ lit "google")
       ++ lit ".com".
Proof.
  apply (normalizeURL_bare_hostname (lit "google")); reflexivity.
Defined.

(* ===================================================================== *)
(** * 18. The command executor *)
(* ===================================================================== *)

(** Two literals differ. *)
Ltac lit_neq :=
  let H := fresh in intros H; vm_compute in H; discriminate H.

Section Executor.

Context {num : Type}.
Variable rt : Runtime num.
Variable version : ScreenVersion.

Implicit Types props ps : gmap jsstring (JSValue num).
Implicit Types s : Screen.

Lemma announce_returns originalCommand statusText isError s :
  (announce version originalCommand statusText isError s).1 = Returns tt.
Proof. reflexivity. Qed.

Lemma announce_status originalCommand statusText isError s :
  status (announce version originalCommand statusText isError s).2 = statusText
  /\ showFeedback (announce version originalCommand statusText isError s).2 = true.
Proof. split; reflexivity. Qed.

Lemma announce_noNavigation originalCommand statusText isError s :
  noNavigation s (announce version originalCommand statusText isError s).2.
Proof. repeat split. Qed.

Lemma getProp_callValue_name n ps :
  getProp rt (callValue n ps) (lit "name") = Returns (JString n).
Proof. unfold callValue, getProp. by rewrite lookup_insert_eq. Qed.

Lemma getProp_callValue_parameters n ps :
  getProp rt (callValue n ps) (lit "parameters") = Returns (JObject ps).
Proof.
  unfold callValue, getProp.
  rewrite lookup_insert_ne by lit_neq. by rewrite lookup_insert_eq.
Qed.

(** [open_browser] whose [parameters.url] is falsy only announces
    "No URL provided". *)
Lemma executeFunction_open_browser_falsy props ps originalCommand s :
  props !! lit "name" = Some (JString (lit "open_browser")) ->
  props !! lit "parameters" = Some (JObject ps) ->
  truthy rt (default JUndefined (ps !! lit "url")) = false ->
  executeFunction rt version (JObject props) originalCommand s
  = announce version originalCommand (lit "No URL provided") true s.
Proof.
  intros Hname Hparams Hurl.
  unfold executeFunction, announce, mbind, M_bind, liftOutcome, getProp.
  rewrite Hname, Hparams. cbn [default from_option id strictEq].
  rewrite bool_decide_eq_true_2 by done.
  by rewrite Hurl.
Qed.

(** [search_web] whose [parameters.query] is falsy only announces
    "No search query provided". *)
Lemma executeFunction_search_web_falsy props ps originalCommand s :
  props !! lit "name" = Some (JString (lit "search_web")) ->
  props !! lit "parameters" = Some (JObject ps) ->
  truthy rt (default JUndefined (ps !! lit "query")) = false ->
  executeFunction rt version (JObject props) originalCommand s
  = announce version originalCommand (lit "No search query provided") true s.
Proof.
  intros Hname Hparams Hquery.
  unfold executeFunction, announce, mbind, M_bind, liftOutcome, getProp.
  rewrite Hname, Hparams. cbn [default from_option id strictEq].
  rewrite (bool_decide_eq_false_2 (lit "search_web" = lit "open_browser"))
    by lit_neq.
  rewrite bool_decide_eq_true_2 by done.
  by rewrite Hquery.
Qed.

(** A name outside the recognised set only announces "Unknown command". *)
Lemma executeFunction_unknown props n originalCommand s :
  props !! lit "name" = Some (JString n) ->
  n ∉ recognized ->
  executeFunction rt version (JObject props) originalCommand s
  = announce version originalCommand (lit "Unknown command: " ++ n) true s.
Proof.
  intros Hname Hn.
  unfold recognized in Hn.
  repeat (apply not_elem_of_cons in Hn as [? Hn]).
  unfold executeFunction, announce, mbind, M_bind, liftOutcome, getProp.
  rewrite Hname. cbn [default from_option id strictEq].
  rewrite !bool_decide_eq_false_2 by done.
  reflexivity.
Qed.

End Executor.

(** The executor at work on the screen as it starts. *)
Example executeFunction_open_github :
  let s' := (executeFunction Sample.runtime HookScreen
               (callValue (lit "open_browser")
                  {[ lit "url" := JString (lit " github ") ]})
               (lit "open github") initialScreen).2 in
  url s' = lit "https://www.github.com"
  /\ currentUrl s' = lit "https://www.github.com"
  /\ status s' = lit "Opening https://www.github.com...".
Proof. repeat split. Qed.

Example executeFunction_search_cats :
  let s' := (executeFunction Sample.runtime InlineScreen
               (callValue (lit "search_web")
                  {[ lit "query" := JString (lit "cute cats") ]})
               (lit "search for cute cats") initialScreen).2 in
  url s' = lit "https://www.google.com/search?q=cute%20cats"
  /\ status s' = lit "Searching for " ++ dquote ++ lit "cute cats" ++ dquote
                  ++ lit "..."
  /\ transcript s' = lit "search for cute cats".
Proof. repeat split. Qed.

Example executeFunction_go_back :
  webViewCalls (executeFunction Sample.runtime HookScreen
                  (callValue (lit "go_back") ∅) (lit "go back")
                  initialScreen).2 = [GoBack].
Proof. reflexivity. Qed.

(** A call without [parameters] that needs one throws inside the executor;
    [processVoiceCommand] turns that into a status. *)
Example executeFunction_no_parameters_object :
  (executeFunction Sample.runtime HookScreen
     (JObject {[ lit "name" := JString (lit "open_browser") ]})
     (lit "open") initialScreen).1
  = Throws (mkError TypeErrorC
              (lit "Cannot read property 'url' of undefined")).
Proof. reflexivity. Qed.

(** C8. Given [{name: "open_browser", parameters: {}}], or any parameters
    without a [url], the executor returns without throwing, the status it
    shows is "No URL provided", and no navigation happens: [url] and
    [currentUrl] keep their values and the web view is not called. *)
Theorem executeFunction_missing_url {num} (rt : Runtime num)
    (version : ScreenVersion) (ps : gmap jsstring (JSValue num))
    (originalCommand : jsstring) (s : Screen) :
  ps !! lit "url" = None ->
  exists s',
    executeFunction rt version (callValue (lit "open_browser") ps)
      originalCommand s = (Returns tt, s')
    /\ status s' = lit "No URL provided"
    /\ showFeedback s' = true
    /\ noNavigation s s'.
Proof.
  intros Hurl.
  exists (announce version originalCommand (lit "No URL provided") true s).2.
  split; [|by repeat split].
  unfold callValue.
  erewrite executeFunction_open_browser_falsy.
  - reflexivity.
  - by rewrite lookup_insert_eq.
  - rewrite lookup_insert_ne by lit_neq. by rewrite lookup_insert_eq.
  - by rewrite Hurl.
Qed.

(** The call [{name: "open_browser", parameters: {}}] itself, on the screen
    as it starts. *)
Lemma executeFunction_missing_url_witness :
  exists s',
    executeFunction Sample.runtime HookScreen
      (callValue (lit "open_browser") ∅) (lit "open the browser") initialScreen
    = (Returns tt, s')
    /\ status s' = lit "No URL provided"
    /\ showFeedback s' = true
    /\ noNavigation initialScreen s'.
Proof.
  apply (executeFunction_missing_url Sample.runtime HookScreen ∅).
  reflexivity.
Defined.

(** C9. Given a call whose name is outside the recognised set, such as
    [{name: "frobnicate"}], the executor returns without throwing, the
    status it shows is "Unknown command: " followed by the name, and no
    navigation happens.  The call need not carry parameters. *)
Theorem executeFunction_unknown_command {num} (rt : Runtime num)
    (version : ScreenVersion) (props : gmap jsstring (JSValue num))
    (n originalCommand : jsstring) (s : Screen) :
  props !! lit "name" = Some (JString n) ->
  n ∉ recognized ->
  exists s',
    executeFunction rt version (JObject props) originalCommand s
    = (Returns tt, s')
    /\ status s' = lit "Unknown command: " ++ n
    /\ showFeedback s' = true
    /\ noNavigation s s'.
Proof.
  intros Hname Hn.
  exists (announce version originalCommand (lit "Unknown command: " ++ n) true s).2.
  split; [|by repeat split].
  by rewrite (executeFunction_unknown rt version props n).
Qed.

(** The call [{name: "frobnicate"}], which has no [parameters] at all. *)
Lemma executeFunction_unknown_command_witness :
  exists s',
    executeFunction Sample.runtime HookScreen
      (JObject {[ lit "name" := JString (lit "frobnicate") ]})
      (lit "frobnicate the page") initialScreen
    = (Returns tt, s')
    /\ status s' = lit "Unknown command: " ++ lit "frobnicate"
    /\ showFeedback s' = true
    /\ noNavigation initialScreen s'.
Proof.
  apply (executeFunction_unknown_command Sample.runtime HookScreen
           {[ lit "name" := JString (lit "frobnicate") ]} (lit "frobnicate")).
  - apply lookup_singleton_eq.
  - unfold recognized. rewrite !not_elem_of_cons.
    repeat split; try lit_neq. apply not_elem_of_nil.
Defined.

(** C10. A required parameter that is the empty string is treated exactly
    as an absent one: for [open_browser] with [url: ""] and [search_web]
    with [query: ""] the executor does what it does without the parameter,
    shows the missing-parameter status, and does not navigate.  Presence is
    tested by truthiness, not by the key being there. *)
Theorem executeFunction_empty_parameter {num} (rt : Runtime num)
    (version : ScreenVersion) (ps : gmap jsstring (JSValue num))
    (originalCommand : jsstring) (s : Screen) :
  (executeFunction rt version
     (callValue (lit "open_browser") (<[lit "url" := JString []]> ps))
     originalCommand s
   = executeFunction rt version
       (callValue (lit "open_browser") (delete (lit "url") ps))
       originalCommand s
   /\ exists s',
        executeFunction rt version
          (callValue (lit "open_browser") (<[lit "url" := JString []]> ps))
          originalCommand s = (Returns tt, s')
        /\ status s' = lit "No URL provided"
        /\ noNavigation s s')
  /\
  (executeFunction rt version
     (callValue (lit "search_web") (<[lit "query" := JString []]> ps))
     originalCommand s
   = executeFunction rt version
       (callValue (lit "search_web") (delete (lit "query") ps))
       originalCommand s
   /\ exists s',
        executeFunction rt version
          (callValue (lit "search_web") (<[lit "query" := JString []]> ps))
          originalCommand s = (Returns tt, s')
        /\ status s' = lit "No search query provided"
        /\ noNavigation s s').
Proof.
  assert (Hname : forall n ps',
    (<[lit "name" := JString n]> (<[lit "parameters" := JObject ps']> ∅)
       : gmap jsstring (JSValue num)) !! lit "name" = Some (JString n)).
  { intros. apply lookup_insert_eq. }
  assert (Hparams : forall n ps',
    (<[lit "name" := JString n]> (<[lit "parameters" := JObject ps']> ∅)
       : gmap jsstring (JSValue num)) !! lit "parameters" = Some (JObject ps')).
  { intros. rewrite lookup_insert_ne by lit_neq. apply lookup_insert_eq. }
  unfold callValue. split.
  - rewrite (executeFunction_open_browser_falsy rt version _
               (<[lit "url" := JString []]> ps))
      by (rewrite ?lookup_insert_eq; done).
    rewrite (executeFunction_open_browser_falsy rt version _
               (delete (lit "url") ps))
      by (rewrite ?lookup_delete_eq; done).
    split; [done|]. eexists. split; [reflexivity|]. by repeat split.
  - rewrite (executeFunction_search_web_falsy rt version _
               (<[lit "query" := JString []]> ps))
      by (rewrite ?lookup_insert_eq; done).
    rewrite (executeFunction_search_web_falsy rt version _
               (delete (lit "query") ps))
      by (rewrite ?lookup_delete_eq; done).
    split; [done|]. eexists. split; [reflexivity|]. by repeat split.
Qed.

(* ===================================================================== *)
(** * 19. Rules for state relations *)
(* ===================================================================== *)

Section Maintains.

Context {St : Type} (R : St -> St -> Prop) `{!PreOrder R}.

Lemma maintains_ret {A} (a : A) : maintains R (mret a).
Proof. intros s. reflexivity. Qed.

Lemma maintains_throw {A} (e : JsError) : maintains R (throw e : M St A).
Proof. intros s. reflexivity. Qed.

Lemma maintains_get : maintains R get.
Proof. intros s. reflexivity. Qed.

Lemma maintains_liftOutcome {A} (o : Outcome A) : maintains R (liftOutcome o).
Proof. intros s. reflexivity. Qed.

Lemma maintains_modify (f : St -> St) :
  (forall s, R s (f s)) -> maintains R (modify f).
Proof. intros H s. apply H. Qed.

Lemma maintains_bind {A B} (m : M St A) (k : A -> M St B) :
  maintains R m -> (forall a, maintains R (k a)) -> maintains R (m ≫= k).
Proof.
  intros Hm Hk s. unfold mbind, M_bind. specialize (Hm s).
  destruct (m s) as [[e|a] s']; simpl in *; [done|].
  by etrans; [|apply Hk].
Qed.

Lemma maintains_try_catch {A} (m : M St A) (h : JsError -> M St A) :
  maintains R m -> (forall e, maintains R (h e)) -> maintains R (try_catch m h).
Proof.
  intros Hm Hh s. unfold try_catch. specialize (Hm s).
  destruct (m s) as [[e|a] s']; simpl in *; [|done].
  by etrans; [|apply Hh].
Qed.

Lemma maintains_try_finally {A} (m : M St A) (c : M St unit) :
  maintains R m -> maintains R c -> maintains R (try_finally m c).
Proof.
  intros Hm Hc s. unfold try_finally. specialize (Hm s).
  destruct (m s) as [r s']. specialize (Hc s').
  destruct (c s') as [[e|u] s'']; simpl in *; by etrans.
Qed.

End Maintains.

(** Breaks a goal [maintains R m] down along the structure of [m]; the
    hint database [maintains] holds what is known of the operations [m]
    calls, which are tried before [m] is taken apart. *)
Create HintDb maintains discriminated.

Ltac maintain :=
  repeat first
    [ solve [auto 1 with maintains nocore]
    | solve [apply maintains_ret; apply _]
    | solve [apply maintains_throw; apply _]
    | solve [apply maintains_get; apply _]
    | solve [apply maintains_liftOutcome; apply _]
    | apply maintains_bind; try solve [apply _]; [|intros ?]
    | apply maintains_try_catch; try solve [apply _]; [|intros ?]
    | match goal with
      | |- maintains _ (match ?x with _ => _ end) => destruct x
      end ].

Section Service.

Context {num : Type}.
Variable rt : Runtime num.
Variable env : Env num.

#[local] Instance sameService_preorder : PreOrder (@sameService num).
Proof.
  split; [done|]. intros w1 w2 w3 H12 H23. unfold sameService in *. congruence.
Qed.

#[local] Instance staysReady_preorder : PreOrder (@staysReady num).
Proof.
  split; [by intros w H|]. intros w1 w2 w3 H12 H23 H. apply H23, H12, H.
Qed.

Lemma sameService_staysReady {A} (m : M (World num) A) :
  maintains sameService m -> maintains staysReady m.
Proof. intros H w Hw. by rewrite (H w). Qed.

(** The engine never touches the variables of the voice service. *)
Lemma getFunctionGemmaEngine_sameService :
  maintains sameService (@getFunctionGemmaEngine num).
Proof. intros w. unfold getFunctionGemmaEngine. by destruct (engineInstance w). Qed.

Lemma this_sameService : maintains sameService (@this num).
Proof. done. Qed.

Lemma set_this_sameService f : maintains sameService (@set_this num f).
Proof. done. Qed.

Lemma emit_sameService ev : maintains sameService (@emit num ev).
Proof. done. Qed.

#[local] Hint Resolve getFunctionGemmaEngine_sameService this_sameService
  set_this_sameService emit_sameService : maintains.

Lemma loadModel_sameService modelPath config :
  maintains sameService (loadModel rt env modelPath config).
Proof. unfold loadModel. maintain. Qed.

#[local] Hint Resolve loadModel_sameService : maintains.

Lemma tryLoadBundledModel_sameService :
  maintains sameService (tryLoadBundledModel rt env).
Proof. unfold tryLoadBundledModel. maintain. Qed.

Lemma unloadModel_sameService : maintains sameService (unloadModel env).
Proof. unfold unloadModel. maintain. Qed.

#[local] Hint Resolve unloadModel_sameService : maintains.

Lemma singleton_unloadModel_sameService :
  maintains sameService (getFunctionGemmaEngine;; unloadModel env).
Proof. maintain. Qed.

Lemma releaseFunctionGemmaEngine_sameService :
  maintains sameService (releaseFunctionGemmaEngine env).
Proof.
  intros w. unfold releaseFunctionGemmaEngine.
  destruct (engineInstance w); [|done].
  pose proof (unloadModel_sameService w) as H.
  by destruct (unloadModel env w) as [[err|u] w'].
Qed.

Lemma parseCommand_sameService userInput options :
  maintains sameService (parseCommand rt env userInput options).
Proof. unfold parseCommand. maintain. Qed.

#[local] Hint Resolve tryLoadBundledModel_sameService
  releaseFunctionGemmaEngine_sameService parseCommand_sameService : maintains.

Lemma parseCommandOnDevice_sameService command :
  maintains sameService (parseCommandOnDevice rt env command).
Proof. unfold parseCommandOnDevice, isModelLoaded. maintain. Qed.

Lemma parseCommandViaBackend_sameService command :
  maintains sameService (parseCommandViaBackend rt env command).
Proof. unfold parseCommandViaBackend, backendCatch. maintain. Qed.

#[local] Hint Resolve parseCommandOnDevice_sameService
  parseCommandViaBackend_sameService : maintains.

Lemma parseVoiceCommand_sameService command :
  maintains sameService (parseVoiceCommand rt env command).
Proof. unfold parseVoiceCommand. maintain. Qed.

(** Readiness is only ever written [true]. *)
Lemma ready_staysReady :
  maintains staysReady
    (modify (set_service (num:=num) (set_onDeviceAvailable true))).
Proof. by intros w H. Qed.

Lemma attempted_staysReady :
  maintains staysReady
    (modify (set_service (num:=num) (set_autoInitAttempted true))).
Proof. by intros w H. Qed.

Lemma setInferenceMode_staysReady mode :
  maintains staysReady (@setInferenceMode num mode).
Proof. by intros w H. Qed.

#[local] Hint Resolve ready_staysReady attempted_staysReady : maintains.
#[local] Hint Resolve sameService_staysReady : maintains.

Lemma autoInitializeOnDevice_staysReady :
  maintains staysReady (autoInitializeOnDevice rt env).
Proof.
  unfold autoInitializeOnDevice. maintain.
  all: apply sameService_staysReady; maintain.
Qed.

Lemma initializeOnDeviceInference_staysReady modelPath :
  maintains staysReady (initializeOnDeviceInference rt env modelPath).
Proof.
  unfold initializeOnDeviceInference, getLoadError. maintain.
  all: apply sameService_staysReady; maintain.
Qed.

(** A successful load sets readiness. *)
Lemma autoInitializeOnDevice_true w :
  (autoInitializeOnDevice rt env w).1 = Returns true ->
  onDeviceAvailable (service (autoInitializeOnDevice rt env w).2) = true.
Proof.
  unfold autoInitializeOnDevice, mbind, M_bind, get, try_catch, modify, mret,
    M_ret.
  destruct (autoInitAttempted (service w)); simpl; [by intros [= ->]|].
  destruct (getFunctionGemmaEngine _) as [[e|engine] w1]; simpl; [done|].
  destruct (tryLoadBundledModel rt env w1) as [[e|[|]] w2]; simpl; done.
Qed.

Lemma initializeOnDeviceInference_true modelPath w :
  (initializeOnDeviceInference rt env modelPath w).1 = Returns true ->
  onDeviceAvailable
    (service (initializeOnDeviceInference rt env modelPath w).2) = true.
Proof.
  unfold initializeOnDeviceInference, mbind, M_bind, try_catch, modify, mret,
    M_ret.
  destruct (getFunctionGemmaEngine w) as [[e|engine] w1]; simpl; [done|].
  destruct (loadModel rt env modelPath None w1) as [[e|[|]] w2]; simpl;
    [done|done|].
  by destruct (getLoadError w2) as [[e|msg] w3].
Qed.

End Service.

Section Runs.

Context {num : Type}.
Variable rt : Runtime num.

Lemma step_staysReady (w : World num) (envop : Env num * Op) :
  staysReady w (step rt w envop).
Proof.
  destruct envop as [env op]. destruct op; cbn [step].
  - apply autoInitializeOnDevice_staysReady.
  - apply initializeOnDeviceInference_staysReady.
  - apply setInferenceMode_staysReady.
  - by unfold staysReady.
  - by unfold staysReady.
  - by unfold staysReady.
  - apply sameService_staysReady, parseVoiceCommand_sameService.
  - apply sameService_staysReady, singleton_unloadModel_sameService.
  - apply sameService_staysReady, releaseFunctionGemmaEngine_sameService.
Qed.

Lemma run_staysReady (ops : list (Env num * Op)) (w : World num) :
  staysReady w (run rt ops w).
Proof.
  revert w. induction ops as [|envop ops IH]; intros w; [by intros H|].
  intros Hw. apply (IH (step rt w envop)). by apply step_staysReady.
Qed.

End Runs.

(** [loadModel] and [tryLoadBundledModel] never reject. *)
Lemma loadModel_returns {num} (rt : Runtime num) (env : Env num)
    (modelPath : jsstring) (config : option (ModelConfig num)) (w : World num) :
  exists b, (loadModel rt env modelPath config w).1 = Returns b.
Proof.
  unfold loadModel, try_catch, mbind, M_bind, set_this, modify, emit,
    liftOutcome, throw, mret, M_ret.
  destruct (Platform_OS env); cbn [fst snd].
  all: try (by exists false).
  all: destruct (llama_rn env) as [initLlama|]; cbn [fst snd];
    [|by exists false].
  all: match goal with
       | init : _ -> Outcome LlamaContext |- context [?f ?p] =>
           unify f init; destruct (init p) as [e|ctx]
       end; cbn [fst snd]; [by exists false | by exists true].
Qed.

Lemma tryLoadBundledModel_returns {num} (rt : Runtime num) (env : Env num)
    (w : World num) :
  exists b, (tryLoadBundledModel rt env w).1 = Returns b.
Proof.
  unfold tryLoadBundledModel.
  destruct (getBundledModelPath env); [apply loadModel_returns|by exists false].
Qed.

(** C7. On-device readiness is monotone for the life of the process.  A
    load asked for ([initializeOnDeviceInference]) resolves to what
    [loadModel] resolves to, and the automatic one
    ([autoInitializeOnDevice], the first time) to what
    [tryLoadBundledModel] resolves to; either sets [onDeviceAvailable] when
    that is [true], a successful load, and leaves it as it was when that is
    [false].  Once the flag is set, no sequence of operations of the voice
    service (automatic and explicit initialisation, mode changes,
    interpretation) or of the engine (unloading, releasing), in whatever
    environment each one runs and whether it succeeds or fails, resets
    it. *)
Theorem onDeviceAvailable_monotone {num} (rt : Runtime num) :
  (forall env modelPath w,
     exists b,
       (loadModel rt env modelPath None (getFunctionGemmaEngine w).2).1
       = Returns b
       /\ (initializeOnDeviceInference rt env modelPath w).1 = Returns b
       /\ onDeviceAvailable
            (service (initializeOnDeviceInference rt env modelPath w).2)
          = onDeviceAvailable (service w) || b)
  /\ (forall env w,
        autoInitAttempted (service w) = false ->
        exists b,
          (tryLoadBundledModel rt env
             (getFunctionGemmaEngine
                (set_service (set_autoInitAttempted true) w)).2).1
          = Returns b
          /\ (autoInitializeOnDevice rt env w).1 = Returns b
          /\ onDeviceAvailable (service (autoInitializeOnDevice rt env w).2)
             = onDeviceAvailable (service w) || b)
  /\ (forall (ops : list (Env num * Op)) (w : World num),
        onDeviceAvailable (service w) = true ->
        onDeviceAvailable (service (run rt ops w)) = true).
Proof.
  split; [|split].
  - intros env modelPath w.
    pose proof (getFunctionGemmaEngine_sameService w) as Hs1.
    unfold initializeOnDeviceInference, getLoadError, this, try_catch, mbind,
      M_bind, modify, mret, M_ret.
    destruct (getFunctionGemmaEngine w) as [[e|engine] w1] eqn:Hg;
      [unfold getFunctionGemmaEngine in Hg;
       by destruct (engineInstance w)|].
    cbn [fst snd] in *.
    destruct (loadModel_returns rt env modelPath None w1) as [b Hb].
    pose proof (loadModel_sameService rt env modelPath None w1) as Hs2.
    destruct (loadModel rt env modelPath None w1) as [o w2].
    cbn [fst snd] in *. subst o. exists b. split; [done|].
    unfold sameService in *.
    destruct b; cbn; rewrite ?Hs2, ?Hs1; by rewrite ?orb_true_r, ?orb_false_r.
  - intros env w Hattempted.
    unfold autoInitializeOnDevice, try_catch, mbind, M_bind, get, modify, mret,
      M_ret.
    rewrite Hattempted. cbn [fst snd].
    set (w0 := set_service (set_autoInitAttempted true) w).
    pose proof (getFunctionGemmaEngine_sameService w0) as Hs1.
    destruct (getFunctionGemmaEngine w0) as [[e|engine] w1] eqn:Hg;
      [unfold getFunctionGemmaEngine in Hg;
       by destruct (engineInstance w0)|].
    cbn [fst snd] in *.
    destruct (tryLoadBundledModel_returns rt env w1) as [b Hb].
    pose proof (tryLoadBundledModel_sameService rt env w1) as Hs2.
    destruct (tryLoadBundledModel rt env w1) as [o w2].
    cbn [fst snd] in *. subst o. exists b. split; [done|].
    unfold sameService in *.
    destruct b; cbn; rewrite ?Hs2, ?Hs1; by rewrite ?orb_true_r, ?orb_false_r.
  - intros ops w. apply run_staysReady.
Qed.

(** A model is loaded on the phone; then a load fails in a browser tab, the
    mode changes, an interpretation fails on both paths, the model is
    unloaded and an automatic load finds nothing: readiness stays. *)
Lemma onDeviceAvailable_monotone_witness :
  (exists b,
     (loadModel Sample.runtime (Sample.phone [] (AxiosRejected None))
        (lit "/models/gemma.gguf") None
        (getFunctionGemmaEngine
           (initialWorld (Sample.phone [] (AxiosRejected None)))).2).1
     = Returns b
     /\ (initializeOnDeviceInference Sample.runtime
           (Sample.phone [] (AxiosRejected None)) (lit "/models/gemma.gguf")
           (initialWorld (Sample.phone [] (AxiosRejected None)))).1
        = Returns b
     /\ onDeviceAvailable
          (service (initializeOnDeviceInference Sample.runtime
                      (Sample.phone [] (AxiosRejected None))
                      (lit "/models/gemma.gguf")
                      (initialWorld (Sample.phone [] (AxiosRejected None)))).2)
        = onDeviceAvailable
            (service (initialWorld (Sample.phone [] (AxiosRejected None))))
          || b)
  /\ onDeviceAvailable
       (service (run Sample.runtime
          [ (Sample.browserTab (AxiosRejected (Some 503%Z)),
             OpInitialize (lit "/models/other.gguf"));
            (Sample.browserTab (AxiosRejected (Some 503%Z)), OpSetMode ON_DEVICE);
            (Sample.phone (lit "no idea") (AxiosRejected (Some 503%Z)),
             OpParseVoiceCommand (lit "open google"));
            (Sample.phone [] (AxiosRejected None), OpUnloadModel);
            (Sample.browserTab (AxiosRejected None), OpAutoInitialize) ]
          (Sample.loaded (Sample.phone [] (AxiosRejected None))))) = true.
Proof.
  split.
  - apply (proj1 (onDeviceAvailable_monotone Sample.runtime)).
  - apply (proj2 (proj2 (onDeviceAvailable_monotone Sample.runtime))).
    reflexivity.
Defined.

(* ===================================================================== *)
(** * 20. The backend client and the router *)
(* ===================================================================== *)

Section Router.

Context {num : Type}.
Variable rt : Runtime num.
Variable env : Env num.

Implicit Types w : World num.

Lemma parseCommandViaBackend_unfold command w :
  (parseCommandViaBackend rt env command w).1
  = match backendRequest rt env w command with
    | AxiosResponse data => Returns data
    | AxiosRejected response_status =>
        if bool_decide (response_status = Some 503%Z)
        then Throws (Error (lit "Backend server is not running"))
        else Returns (valueOfCall (searchFallback command))
    end.
Proof.
  unfold parseCommandViaBackend, backendRequest, backendCatch, mbind, M_bind,
    get, emit, modify. simpl.
  destruct (axios_post _ _ _ _) as [data|st]; [done|].
  by destruct (bool_decide _).
Qed.

Lemma parseCommandViaBackend_trace command w :
  trace (parseCommandViaBackend rt env command w).2
  = trace w ++ [EvPost (API_URL (service w) ++ lit "/parse-command") command
                  (Some (Number_ofZ rt 10000))].
Proof.
  unfold parseCommandViaBackend, backendCatch, mbind, M_bind, get, emit,
    modify. simpl.
  destruct (axios_post _ _ _ _) as [data|st]; [done|].
  by destruct (bool_decide _).
Qed.

(** In [AUTO] mode with readiness set, a failure of the local path hands
    the command to the remote path, in the world the local attempt left. *)
Lemma parseVoiceCommand_auto_local_failure command w e w' :
  currentMode (service w) = AUTO ->
  onDeviceAvailable (service w) = true ->
  parseCommandOnDevice rt env command w = (Throws e, w') ->
  parseVoiceCommand rt env command w = parseCommandViaBackend rt env command w'.
Proof.
  intros Hmode Hready Hlocal.
  unfold parseVoiceCommand, mbind, M_bind, get, try_catch, throw.
  rewrite Hmode, Hready, Hlocal.
  by destruct (parseCommandViaBackend rt env command w') as [[e'|v] w''].
Qed.

(** In [ON_DEVICE] mode the router is the local path alone. *)
Lemma parseVoiceCommand_on_device command w :
  currentMode (service w) = ON_DEVICE ->
  parseVoiceCommand rt env command w = parseCommandOnDevice rt env command w.
Proof.
  intros Hmode. unfold parseVoiceCommand, mbind, M_bind, get, try_catch, throw.
  rewrite Hmode.
  by destruct (parseCommandOnDevice rt env command w) as [[e'|v] w''].
Qed.

Lemma parseCommandOnDevice_not_loaded command w :
  isLoaded (default newEngine (engineInstance w)) = false ->
  (parseCommandOnDevice rt env command w).1
  = Throws (Error (lit "On-device model not loaded"))
  /\ trace (parseCommandOnDevice rt env command w).2 = trace w.
Proof.
  intros Hloaded.
  unfold parseCommandOnDevice, isModelLoaded, getFunctionGemmaEngine, this,
    mbind, M_bind, mret, M_ret, throw.
  destruct (engineInstance w) as [engine|] eqn:Hengine; simpl in *.
  - rewrite Hengine. simpl. by rewrite Hloaded.
  - done.
Qed.

End Router.

(** C1, as the code has it.  When the remote call is rejected with status
    503, [parseCommandViaBackend] rejects with the error "Backend server is
    not running"; when it is rejected in any other way (no response, or
    another status) it resolves to the synthesized call
    [{name: "search_web", parameters: {query: command}}].  Either way
    exactly one request was made, and what was thrown is never the
    transport error itself. *)
Theorem parseCommandViaBackend_rejected {num} (rt : Runtime num) (env : Env num)
    (command : jsstring) (w : World num) (response_status : option Z) :
  backendRequest rt env w command = AxiosRejected response_status ->
  (response_status = Some 503%Z ->
     (parseCommandViaBackend rt env command w).1
     = Throws (Error (lit "Backend server is not running")))
  /\ (response_status <> Some 503%Z ->
        (parseCommandViaBackend rt env command w).1
        = Returns (valueOfCall (searchFallback command)))
  /\ trace (parseCommandViaBackend rt env command w).2
     = trace w ++ [EvPost (API_URL (service w) ++ lit "/parse-command") command
                     (Some (Number_ofZ rt 10000))].
Proof.
  intros Hreq. rewrite parseCommandViaBackend_unfold, Hreq.
  split; [|split].
  - intros ->. by rewrite bool_decide_eq_true_2.
  - intros Hne. by rewrite bool_decide_eq_false_2.
  - apply parseCommandViaBackend_trace.
Qed.

(** A request that times out (no response) degrades to a search. *)
Lemma parseCommandViaBackend_rejected_witness :
  (parseCommandViaBackend Sample.runtime (Sample.phone [] (AxiosRejected None))
     (lit "open google") (initialWorld (Sample.phone [] (AxiosRejected None)))).1
  = Returns (valueOfCall (searchFallback (lit "open google"))).
Proof.
  apply (parseCommandViaBackend_rejected Sample.runtime
           (Sample.phone [] (AxiosRejected None)) (lit "open google")
           (initialWorld (Sample.phone [] (AxiosRejected None))) None).
  - reflexivity.
  - discriminate.
Defined.

(** C1 as stated fails: on a 503 the promise rejects, and does not resolve
    to the synthesized search. *)
Lemma parseCommandViaBackend_503_rejects :
  (parseCommandViaBackend Sample.runtime
     (Sample.phone [] (AxiosRejected (Some 503%Z))) (lit "open google")
     (initialWorld (Sample.phone [] (AxiosRejected (Some 503%Z))))).1
  = Throws (Error (lit "Backend server is not running"))
  /\ (parseCommandViaBackend Sample.runtime
        (Sample.phone [] (AxiosRejected (Some 503%Z))) (lit "open google")
        (initialWorld (Sample.phone [] (AxiosRejected (Some 503%Z))))).1
     <> Returns (valueOfCall (searchFallback (lit "open google"))).
Proof. split; [reflexivity | discriminate]. Qed.

(** The first version of the service has the same [catch] block. *)
Lemma parseVoiceCommand_v1_rejected {num} (env : Env num) (command : jsstring)
    (w : World num) (response_status : option Z) :
  axios_post env (API_URL (service w) ++ lit "/parse-command") command None
  = AxiosRejected response_status ->
  (parseVoiceCommand_v1 env command w).1
  = if bool_decide (response_status = Some 503%Z)
    then Throws (Error (lit "Backend server is not running"))
    else Returns (valueOfCall (searchFallback command)).
Proof.
  intros Hreq.
  unfold parseVoiceCommand_v1, backendCatch, mbind, M_bind, get, emit, modify.
  simpl. rewrite Hreq. by destruct (bool_decide _).
Qed.

(** The first version of the service treats a 503 the same way. *)
Lemma parseVoiceCommand_v1_503_rejects :
  (parseVoiceCommand_v1
     (Sample.phone [] (AxiosRejected (Some 503%Z))) (lit "open google")
     (initialWorld (Sample.phone [] (AxiosRejected (Some 503%Z))))).1
  = Throws (Error (lit "Backend server is not running")).
Proof. reflexivity. Qed.

(** C2, as the code has it.  In [AUTO] mode with readiness set, when the
    local interpretation throws, its error is dropped and
    [parseVoiceCommand] is the remote path: it resolves to what the remote
    path resolves to, and rejects only when the remote call received a 503,
    then with "Backend server is not running". *)
Theorem parseVoiceCommand_auto_fallback {num} (rt : Runtime num) (env : Env num)
    (command : jsstring) (w w' : World num) (e : JsError) :
  currentMode (service w) = AUTO ->
  onDeviceAvailable (service w) = true ->
  parseCommandOnDevice rt env command w = (Throws e, w') ->
  parseVoiceCommand rt env command w = parseCommandViaBackend rt env command w'
  /\ (backendRequest rt env w' command <> AxiosRejected (Some 503%Z) ->
        resolves (parseVoiceCommand rt env command w).1 = true)
  /\ (backendRequest rt env w' command = AxiosRejected (Some 503%Z) ->
        (parseVoiceCommand rt env command w).1
        = Throws (Error (lit "Backend server is not running"))).
Proof.
  intros Hmode Hready Hlocal.
  rewrite (parseVoiceCommand_auto_local_failure rt env command w e w')
    by done.
  rewrite parseCommandViaBackend_unfold.
  split; [done|split].
  - destruct (backendRequest rt env w' command) as [data|st]; [done|].
    intros Hne. rewrite bool_decide_eq_false_2; [done|]. congruence.
  - intros ->. by rewrite bool_decide_eq_true_2.
Qed.

(** The loaded model answers without any JSON, and the backend answers
    "open google". *)
Lemma parseVoiceCommand_auto_fallback_witness :
  (parseVoiceCommand Sample.runtime
     (Sample.phone (lit "no idea") (AxiosResponse Sample.openGoogle))
     (lit "open google")
     (Sample.loaded (Sample.phone (lit "no idea")
                       (AxiosResponse Sample.openGoogle)))).1
  = Returns Sample.openGoogle.
Proof.
  pose proof (parseVoiceCommand_auto_fallback Sample.runtime
    (Sample.phone (lit "no idea") (AxiosResponse Sample.openGoogle))
    (lit "open google")
    (Sample.loaded (Sample.phone (lit "no idea")
                      (AxiosResponse Sample.openGoogle)))
    (parseCommandOnDevice Sample.runtime
       (Sample.phone (lit "no idea") (AxiosResponse Sample.openGoogle))
       (lit "open google")
       (Sample.loaded (Sample.phone (lit "no idea")
                         (AxiosResponse Sample.openGoogle)))).2
    (Error (lit "Inference failed: No JSON object found in response"))
    eq_refl eq_refl eq_refl) as [H _].
  rewrite H. reflexivity.
Defined.

(** C2 as stated fails: the local path throws, the backend answers 503,
    and [parseVoiceCommand] rejects. *)
Lemma parseVoiceCommand_auto_rejects :
  currentMode (service (Sample.loaded
    (Sample.phone (lit "no idea") (AxiosRejected (Some 503%Z))))) = AUTO
  /\ (parseCommandOnDevice Sample.runtime
        (Sample.phone (lit "no idea") (AxiosRejected (Some 503%Z)))
        (lit "open google")
        (Sample.loaded (Sample.phone (lit "no idea")
                          (AxiosRejected (Some 503%Z))))).1
     = Throws (Error (lit "Inference failed: No JSON object found in response"))
  /\ (parseVoiceCommand Sample.runtime
        (Sample.phone (lit "no idea") (AxiosRejected (Some 503%Z)))
        (lit "open google")
        (Sample.loaded (Sample.phone (lit "no idea")
                          (AxiosRejected (Some 503%Z))))).1
     = Throws (Error (lit "Backend server is not running")).
Proof. repeat split. Qed.

(** C4. In [ON_DEVICE] mode with no model loaded, [parseVoiceCommand]
    rejects with the error "On-device model not loaded", and nothing was
    asked of the outside world: no request reached the remote endpoint. *)
Theorem parseVoiceCommand_on_device_not_loaded {num} (rt : Runtime num)
    (env : Env num) (command : jsstring) (w : World num) :
  currentMode (service w) = ON_DEVICE ->
  isLoaded (default newEngine (engineInstance w)) = false ->
  (parseVoiceCommand rt env command w).1
  = Throws (Error (lit "On-device model not loaded"))
  /\ trace (parseVoiceCommand rt env command w).2 = trace w.
Proof.
  intros Hmode Hloaded.
  rewrite (parseVoiceCommand_on_device rt env command w Hmode).
  by apply parseCommandOnDevice_not_loaded.
Qed.

(** The user picks [ON_DEVICE] on a phone that never loaded a model; the
    backend would have answered. *)
Lemma parseVoiceCommand_on_device_not_loaded_witness :
  (parseVoiceCommand Sample.runtime
     (Sample.phone [] (AxiosResponse Sample.openGoogle)) (lit "open google")
     (setInferenceMode ON_DEVICE
        (initialWorld (Sample.phone [] (AxiosResponse Sample.openGoogle)))).2).1
  = Throws (Error (lit "On-device model not loaded"))
  /\ trace (parseVoiceCommand Sample.runtime
              (Sample.phone [] (AxiosResponse Sample.openGoogle))
              (lit "open google")
              (setInferenceMode ON_DEVICE
                 (initialWorld
                    (Sample.phone [] (AxiosResponse Sample.openGoogle)))).2).2
     = [].
Proof.
  apply (parseVoiceCommand_on_device_not_loaded Sample.runtime
           (Sample.phone [] (AxiosResponse Sample.openGoogle))
           (lit "open google")); reflexivity.
Defined.

(* ===================================================================== *)
(** * 21. Response parsing of the on-device engine *)
(* ===================================================================== *)

Section CharSearch.

Variable c : N.
Implicit Types s a b : jsstring.

Lemma startsWith_char s :
  startsWith [c] s = match s with x :: _ => (c =? x)%N | [] => false end.
Proof. destruct s; simpl; [done | apply andb_true_r]. Qed.

Lemma includes_char_cons x s :
  includes [c] (x :: s) = (c =? x)%N || includes [c] s.
Proof. cbn [includes]. by rewrite startsWith_char. Qed.

Lemma includes_char_middle a b : includes [c] (a ++ c :: b) = true.
Proof.
  apply includes_app_r. rewrite includes_char_cons. by rewrite N.eqb_refl.
Qed.

Lemma indexOf_char_absent s : includes [c] s = false -> indexOf [c] s = (-1)%Z.
Proof.
  induction s as [|x s IH]; [done|].
  rewrite includes_char_cons. intros [Hx Hs]%orb_false_iff.
  cbn [indexOf]. rewrite startsWith_char, Hx, (IH Hs). done.
Qed.

Lemma indexOf_char_present s :
  includes [c] s = true ->
  exists a r, s = a ++ c :: r /\ includes [c] a = false
              /\ indexOf [c] s = Z.of_nat (length a).
Proof.
  induction s as [|x s IH]; [done|].
  rewrite includes_char_cons. cbn [indexOf]. rewrite startsWith_char.
  destruct (c =? x)%N eqn:Hx.
  - intros _. apply N.eqb_eq in Hx as <-. by exists [], s.
  - intros Hs. destruct (IH Hs) as (a & r & -> & Ha & ->).
    exists (x :: a), r. rewrite includes_char_cons, Hx, Ha.
    split; [done|split; [done|]]. cbn [length].
    destruct (Z.eqb_spec (Z.of_nat (length a)) (-1)); lia.
Qed.

Lemma lastIndexOf_char_absent s :
  includes [c] s = false -> lastIndexOf [c] s = (-1)%Z.
Proof.
  induction s as [|x s IH]; [done|].
  rewrite includes_char_cons. intros [Hx Hs]%orb_false_iff.
  cbn [lastIndexOf]. rewrite startsWith_char, Hx, (IH Hs). done.
Qed.

Lemma lastIndexOf_char_present s :
  includes [c] s = true ->
  exists a r, s = a ++ c :: r /\ includes [c] r = false
              /\ lastIndexOf [c] s = Z.of_nat (length a).
Proof.
  induction s as [|x s IH]; [done|].
  rewrite includes_char_cons. cbn [lastIndexOf]. rewrite startsWith_char.
  destruct (includes [c] s) eqn:Hs.
  - intros _. destruct (IH eq_refl) as (a & r & -> & Hr & ->).
    exists (x :: a), r. split; [done|split; [done|]]. cbn [length].
    destruct (Z.eqb_spec (Z.of_nat (length a)) (-1)); lia.
  - rewrite orb_false_r. intros Hx. rewrite Hx.
    apply N.eqb_eq in Hx as <-. rewrite (lastIndexOf_char_absent s Hs).
    by exists [], s.
Qed.

(** The first occurrence is the leftmost, the last the rightmost. *)
Lemma first_is_leftmost a r x y :
  a ++ c :: r = x ++ c :: y -> includes [c] a = false -> exists m, x = a ++ m.
Proof.
  intros [(k & -> & Hk) | (k & -> & _)]%app_eq_inv Ha; [|by exists k].
  destruct k as [|c' k]; [exists []; by rewrite !app_nil_r|].
  injection Hk as <- _. by rewrite includes_char_middle in Ha.
Qed.

Lemma last_is_rightmost a r x y :
  a ++ c :: r = x ++ c :: y -> includes [c] r = false -> exists m, a = x ++ m.
Proof.
  intros [(k & -> & _) | (k & -> & Hk)]%app_eq_inv Hr; [by exists k|].
  destruct k as [|c' k]; [exists []; by rewrite !app_nil_r|].
  injection Hk as <- ->. by rewrite includes_char_middle in Hr.
Qed.

End CharSearch.

Section Extraction.

Implicit Types s j : jsstring.

Lemma substring_middle (a q b : jsstring) :
  substring (a ++ q ++ b) (Z.of_nat (length a))
    (Z.of_nat (length a + length q)) = q.
Proof.
  unfold substring. rewrite !length_app.
  replace (Z.to_nat _) with (length q) by lia.
  replace (Z.to_nat _) with (length a) by lia.
  by rewrite drop_app_length, take_app_length.
Qed.

(** No object is found exactly when a brace is missing. *)
Lemma extractJSON_None s :
  extractJSON s = None
  <-> includes (lit "{") s = false \/ includes (lit "}") s = false.
Proof.
  unfold extractJSON. change (lit "{") with [123%N]. change (lit "}") with [125%N].
  destruct (includes [123%N] s) eqn:Ho.
  - destruct (indexOf_char_present _ s Ho) as (a & r & _ & _ & ->).
    destruct (includes [125%N] s) eqn:Hc.
    + destruct (lastIndexOf_char_present _ s Hc) as (p & b & _ & _ & ->).
      destruct (Z.eqb_spec (Z.of_nat (length a)) (-1)); [lia|].
      destruct (Z.eqb_spec (Z.of_nat (length p)) (-1)); [lia|].
      simpl. split; [done | by intros [|]].
    + rewrite (lastIndexOf_char_absent _ s Hc). rewrite orb_true_r. tauto.
  - rewrite (indexOf_char_absent _ s Ho). simpl. tauto.
Qed.

(** When an opening brace comes before a closing one, what is extracted
    runs from the first opening brace to the last closing brace. *)
Lemma extractJSON_spans s x y z :
  s = x ++ lit "{" ++ y ++ lit "}" ++ z ->
  exists j, extractJSON s = Some j /\ spansBraces s j.
Proof.
  change (lit "{") with [123%N]. change (lit "}") with [125%N]. intros Hs.
  assert (Ho : includes [123%N] s = true).
  { rewrite Hs. apply includes_char_middle. }
  assert (Hc : includes [125%N] s = true).
  { rewrite Hs.
    pose proof (includes_char_middle 125%N (x ++ [123%N] ++ y) z) as H.
    rewrite <- !app_assoc in H. exact H. }
  destruct (indexOf_char_present _ s Ho) as (a & r & Ha & Hfirst & Hi).
  destruct (lastIndexOf_char_present _ s Hc) as (p & b & Hp & Hlast & Hk).
  (* the first opening brace is at or before [x] *)
  assert (exists m1, x = a ++ m1) as [m1 ->].
  { apply (first_is_leftmost 123%N a r x (y ++ [125%N] ++ z)); [|done].
    by rewrite <- Ha, Hs. }
  (* the last closing brace is at or after the one before [z] *)
  assert (exists m2, p = ((a ++ m1) ++ [123%N] ++ y) ++ m2) as [m2 Hp2].
  { apply (last_is_rightmost 125%N p b _ z); [|done].
    rewrite <- Hp, Hs. by rewrite <- !app_assoc. }
  (* from the first opening brace to the last closing brace *)
  set (q := m1 ++ [123%N] ++ y ++ m2).
  assert (Hq : p = a ++ q).
  { rewrite Hp2. unfold q. by rewrite <- !app_assoc. }
  assert (exists inside, q = 123%N :: inside) as [inside Hinside].
  { rewrite Hp, Hq, <- app_assoc in Ha. apply app_inv_head in Ha.
    destruct q as [|c1 q'] eqn:Eq.
    - unfold q in Eq. by destruct m1.
    - injection Ha as -> _. by exists q'. }
  assert (Hdecomp : s = a ++ ([123%N] ++ inside ++ [125%N]) ++ b).
  { rewrite Hp, Hq, Hinside. by rewrite <- !app_assoc. }
  exists ([123%N] ++ inside ++ [125%N]). split.
  - unfold extractJSON.
    change (lit "{") with [123%N]. change (lit "}") with [125%N].
    rewrite Hi, Hk.
    destruct (Z.eqb_spec (Z.of_nat (length a)) (-1)); [lia|].
    destruct (Z.eqb_spec (Z.of_nat (length p)) (-1)); [lia|].
    cbn [orb]. f_equal.
    rewrite Hdecomp at 1.
    replace (Z.of_nat (length p) + 1)%Z
      with (Z.of_nat (length a + length ([123%N] ++ inside ++ [125%N]))).
    + apply substring_middle.
    + rewrite Hq, Hinside. rewrite !length_app. simpl. lia.
  - exists a, inside, b. by repeat split.
Qed.

End Extraction.

Section ParseResponse.

Context {num : Type}.
Variable rt : Runtime num.

Implicit Types acc m : gmap jsstring jsstring.
Implicit Types props : gmap jsstring (JSValue num).

Lemma lookup_assign key value acc k :
  assign key value acc !! k
  = if bool_decide (key = k /\ key <> lit "__proto__") then Some value
    else acc !! k.
Proof.
  unfold assign. destruct (decide (key = lit "__proto__")) as [->|Hkey].
  - rewrite bool_decide_eq_true_2 by done.
    rewrite bool_decide_eq_false_2; [done | by intros [_ ?]].
  - rewrite (bool_decide_eq_false_2 (key = _)) by done.
    destruct (decide (key = k)) as [->|Hne].
    + by rewrite lookup_insert_eq, bool_decide_eq_true_2.
    + rewrite lookup_insert_ne by done.
      rewrite bool_decide_eq_false_2; [done | by intros [? _]].
Qed.

(** The loop writes, under every key but [__proto__], the string of the
    value it finds there, and leaves every other key as it was. *)
Lemma stringifyEntries_spec (entries : list (jsstring * JSValue num)) acc m :
  NoDup entries.*1 ->
  stringifyEntries rt entries acc = Returns m ->
  (forall k v, (k, v) ∈ entries -> k <> lit "__proto__" ->
     exists sv, ToString rt v = Returns sv /\ m !! k = Some sv)
  /\ (forall k, k ∉ entries.*1 \/ k = lit "__proto__" -> m !! k = acc !! k).
Proof.
  revert acc. induction entries as [|[k0 v0] entries IH]; intros acc Hnd Hrun.
  - injection Hrun as <-. split; [by intros k v ?%elem_of_nil | done].
  - cbn [stringifyEntries] in Hrun. unfold mbind, Outcome_bind in Hrun.
    destruct (ToString rt v0) as [e|s0] eqn:Hs0; [done|].
    apply NoDup_cons in Hnd as [Hk0 Hnd].
    destruct (IH _ Hnd Hrun) as [IH1 IH2]. split.
    + intros k v [[= -> ->]|Hin]%elem_of_cons Hk.
      * exists s0. split; [done|]. rewrite IH2 by auto.
        rewrite lookup_assign, bool_decide_eq_true_2; done.
      * by apply IH1.
    + intros k Hk. rewrite IH2.
      * rewrite lookup_assign. case_bool_decide as Hd; [|done].
        destruct Hd as [-> Hd]. destruct Hk as [Hk|Hk]; [|done].
        exfalso. apply Hk. cbn. apply elem_of_cons. by left.
      * destruct Hk as [Hk|Hk]; [left|by right].
        intros Hin. apply Hk. cbn. apply elem_of_cons. by right.
Qed.

Lemma stringifyEntries_object props m :
  stringifyEntries rt (map_to_list props) ∅ = Returns m ->
  forall k, k <> lit "__proto__" ->
    match props !! k with
    | Some v => exists sv, ToString rt v = Returns sv /\ m !! k = Some sv
    | None => m !! k = None
    end.
Proof.
  intros Hrun k Hk.
  destruct (stringifyEntries_spec _ _ _ (NoDup_fst_map_to_list props) Hrun)
    as [H1 H2].
  destruct (props !! k) as [v|] eqn:Hv.
  - apply H1; [|done]. by apply elem_of_map_to_list.
  - rewrite H2; [done|]. left.
    intros ([k' v'] & -> & Hin%elem_of_map_to_list)%list_elem_of_fmap.
    simpl in Hv. congruence.
Qed.

(** What a call that passed validation says of the parsed value. *)
Lemma validateCall_Returns (parsed : JSValue num) (fc : FunctionCall) :
  validateCall rt parsed = Returns fc ->
  getProp rt parsed (lit "name") = Returns (JString (name fc))
  /\ name fc <> []
  /\ forall props,
       getProp rt parsed (lit "parameters") = Returns (JObject props) ->
       stringifyEntries rt (map_to_list props) ∅ = Returns (parameters fc).
Proof.
  unfold validateCall, mbind, Outcome_bind.
  destruct (getProp rt parsed (lit "name")) as [e|nm]; [done|].
  destruct (negb (truthy rt nm) || _) eqn:Hcheck; [done|].
  apply orb_false_iff in Hcheck as [Htruthy Htype].
  apply negb_false_iff in Htruthy. apply negb_false_iff in Htype.
  apply bool_decide_eq_true in Htype.
  destruct nm as [| |b|n|nm|elems|o]; try (by vm_compute in Htype).
  destruct (getProp rt parsed (lit "parameters")) as [e|pv]; [done|].
  destruct (truthy rt pv && _) eqn:Hobj.
  - destruct (stringifyEntries _ _ _) as [e|ps] eqn:Hps; [done|].
    intros [= <-]. cbn. split; [done|]. split; [by destruct nm|].
    by intros props [= ->].
  - intros [= <-]. cbn. split; [done|]. split; [by destruct nm|].
    intros props [= ->]. done.
Qed.

(** A value without a non-empty string under [name] fails validation. *)
Lemma validateCall_invalid_name (parsed : JSValue num) :
  (forall nm, getProp rt parsed (lit "name") = Returns (JString nm) -> nm = []) ->
  validateCall rt parsed
  = Throws (match getProp rt parsed (lit "name") with
            | Throws e => e
            | Returns _ => Error msg_invalid_name
            end).
Proof.
  intros Hname. unfold validateCall, mbind, Outcome_bind.
  destruct (getProp rt parsed (lit "name")) as [e|nm]; [done|].
  destruct nm as [| |b|n|nm|elems|o];
    try (cbn [typeof]; rewrite bool_decide_eq_false_2 by lit_neq;
         by rewrite orb_true_r).
  rewrite (Hname nm eq_refl). done.
Qed.

(** The loop never writes the key [__proto__]. *)
Lemma stringifyEntries_proto (entries : list (jsstring * JSValue num)) acc m :
  stringifyEntries rt entries acc = Returns m ->
  m !! lit "__proto__" = acc !! lit "__proto__".
Proof.
  revert acc. induction entries as [|[k0 v0] entries IH]; intros acc Hrun.
  - by injection Hrun as <-.
  - cbn [stringifyEntries] in Hrun. unfold mbind, Outcome_bind in Hrun.
    destruct (ToString rt v0) as [e|s0]; [done|].
    rewrite (IH _ Hrun), lookup_assign.
    rewrite bool_decide_eq_false_2; [done|]. by intros [-> ?].
Qed.

(** Array indices as property keys: different indices give different
    keys, and none of them is [__proto__]. *)
Lemma lit_inj (s t : string) : lit s = lit t -> s = t.
Proof.
  unfold lit. intros H.
  rewrite <- (string_of_list_ascii_of_string s),
    <- (string_of_list_ascii_of_string t).
  f_equal. revert H.
  generalize (list_ascii_of_string s) (list_ascii_of_string t).
  intros l. induction l as [|a l IH]; intros [|b k] H; try done.
  injection H as Hab Hlk. f_equal; [|by apply IH].
  by rewrite <- (ascii_N_embedding a), <- (ascii_N_embedding b), Hab.
Qed.

Lemma decimal_inj (i j : nat) : decimal i = decimal j -> i = j.
Proof.
  unfold decimal. intros H%lit_inj.
  apply Unsigned.to_uint_inj.
  assert (Hs : Some (Nat.to_uint i) = Some (Nat.to_uint j)).
  { by rewrite <- !NilEmpty.usu, H. }
  by injection Hs.
Qed.

Lemma decimal_not_proto (i : nat) : decimal i <> lit "__proto__".
Proof. unfold decimal. by destruct (Nat.to_uint i). Qed.

(** The loop over the entries of an array writes, under every index, the
    string of the element there, and nothing else. *)
Lemma stringifyEntries_array (elems : list (JSValue num)) m :
  stringifyEntries rt (Object_entries (JArray elems)) ∅ = Returns m ->
  (forall i,
     match elems !! i with
     | Some v => exists sv, ToString rt v = Returns sv
                            /\ m !! decimal i = Some sv
     | None => m !! decimal i = None
     end)
  /\ forall k, (forall i, k <> decimal i) -> m !! k = None.
Proof.
  cbn [Object_entries]. intros Hrun.
  assert (Hkeys : (imap (fun i x => (decimal i, x)) elems).*1
                  = decimal <$> seq 0 (length elems)).
  { rewrite fmap_imap. apply (imap_seq_0 elems decimal). }
  assert (Hnd : NoDup (imap (fun i x => (decimal i, x)) elems).*1).
  { rewrite Hkeys. apply NoDup_fmap_2; [exact decimal_inj | apply NoDup_seq]. }
  destruct (stringifyEntries_spec _ _ _ Hnd Hrun) as [H1 H2]. split.
  - intros i. destruct (elems !! i) as [v|] eqn:Hi.
    + apply H1; [|apply decimal_not_proto].
      by apply (elem_of_lookup_imap_2 (fun i x => (decimal i, x))).
    + rewrite H2; [done|]. left. rewrite Hkeys.
      intros (j & Hij%decimal_inj & Hj%elem_of_seq)%list_elem_of_fmap.
      subst j. apply lookup_ge_None in Hi. lia.
  - intros k Hk. rewrite H2; [done|]. left. rewrite Hkeys.
    intros (j & Hkj & _)%list_elem_of_fmap. by apply (Hk j).
Qed.

(** What a call that passed validation has for parameters. *)
Lemma validateCall_parameters (parsed : JSValue num) (fc : FunctionCall) :
  validateCall rt parsed = Returns fc ->
  exists v,
    getProp rt parsed (lit "parameters") = Returns v
    /\ if truthy rt v && bool_decide (typeof v = lit "object")
       then stringifyEntries rt (Object_entries v) ∅ = Returns (parameters fc)
       else parameters fc = ∅.
Proof.
  unfold validateCall, mbind, Outcome_bind.
  destruct (getProp rt parsed (lit "name")) as [e|nm]; [done|].
  destruct (negb (truthy rt nm) || _); [done|].
  destruct (getProp rt parsed (lit "parameters")) as [e|pv]; [done|].
  intros Hfc. exists pv. split; [done|].
  destruct (truthy rt pv && _).
  - destruct (stringifyEntries _ _ _) as [e|ps]; [done|].
    by injection Hfc as <-.
  - by injection Hfc as <-.
Qed.

End ParseResponse.

(** C3, as the code has it.  [parseResponse] removes the end-of-turn
    markers and trims; it then takes the text from the first opening brace
    to the last closing brace (not the first balanced object).  It fails
    with "No JSON object found in response" when a brace is missing, and
    with "JSON parsing failed: ..." when the text does not parse or when
    the parsed value has no non-empty string under [name].  In the call it
    returns, [name] is that string and every value of an object
    [parameters] is there as its string, under its key; the key [__proto__]
    alone is not copied, so the call never has it.  Of an array
    [parameters] every element is there as its string under its index, and
    nothing else; a [parameters] that is neither gives none. *)
Theorem parseResponse_contract {num} (rt : Runtime num) (response : jsstring) :
  (forall x y z,
     cleanup response = x ++ lit "{" ++ y ++ lit "}" ++ z ->
     exists j, extractJSON (cleanup response) = Some j
               /\ spansBraces (cleanup response) j)
  /\ (includes (lit "{") (cleanup response) = false
      \/ includes (lit "}") (cleanup response) = false ->
      parseResponse rt response
      = Throws (Error (lit "No JSON object found in response")))
  /\ (forall j e,
        extractJSON (cleanup response) = Some j ->
        JSON_parse rt j = Throws e ->
        parseResponse rt response
        = Throws (Error (lit "JSON parsing failed: " ++ message e)))
  /\ (forall j parsed,
        extractJSON (cleanup response) = Some j ->
        JSON_parse rt j = Returns parsed ->
        (forall nm, getProp rt parsed (lit "name") = Returns (JString nm) ->
                    nm = []) ->
        parseResponse rt response
        = Throws (Error (lit "JSON parsing failed: " ++
                         match getProp rt parsed (lit "name") with
                         | Throws e => message e
                         | Returns _ => msg_invalid_name
                         end)))
  /\ (forall fc,
        parseResponse rt response = Returns fc ->
        exists j parsed,
          extractJSON (cleanup response) = Some j
          /\ JSON_parse rt j = Returns parsed
          /\ getProp rt parsed (lit "name") = Returns (JString (name fc))
          /\ name fc <> []
          /\ (forall props,
               getProp rt parsed (lit "parameters") = Returns (JObject props) ->
               forall k, k <> lit "__proto__" ->
                 match props !! k with
                 | Some v => exists sv, ToString rt v = Returns sv
                                        /\ parameters fc !! k = Some sv
                 | None => parameters fc !! k = None
                 end)
          /\ parameters fc !! lit "__proto__" = None
          /\ (forall elems,
               getProp rt parsed (lit "parameters") = Returns (JArray elems) ->
               (forall i,
                  match elems !! i with
                  | Some v => exists sv, ToString rt v = Returns sv
                                         /\ parameters fc !! decimal i = Some sv
                  | None => parameters fc !! decimal i = None
                  end)
               /\ forall k, (forall i, k <> decimal i) ->
                            parameters fc !! k = None)
          /\ (forall v,
               getProp rt parsed (lit "parameters") = Returns v ->
               match v with
               | JObject _ | JArray _ => True
               | _ => parameters fc = ∅
               end)).
Proof.
  split; [|split; [|split; [|split]]].
  - intros x y z. apply extractJSON_spans.
  - intros Hnone%extractJSON_None. unfold parseResponse. by rewrite Hnone.
  - intros j e Hj He. unfold parseResponse, mbind, Outcome_bind.
    by rewrite Hj, He.
  - intros j parsed Hj Hparsed Hname.
    unfold parseResponse, mbind, Outcome_bind.
    rewrite Hj, Hparsed, (validateCall_invalid_name rt parsed Hname).
    by destruct (getProp rt parsed (lit "name")).
  - intros fc. unfold parseResponse, mbind, Outcome_bind.
    destruct (extractJSON (cleanup response)) as [j|] eqn:Hj; [|done].
    destruct (JSON_parse rt j) as [e|parsed] eqn:Hparsed; [done|].
    destruct (validateCall rt parsed) as [e|fc'] eqn:Hv; [done|].
    intros [= ->].
    destruct (validateCall_parameters rt parsed fc Hv) as (pv & Hpv & Hloop).
    apply validateCall_Returns in Hv as (Hn & Hne & Hps).
    exists j, parsed.
    split; [done|split; [done|split; [done|split; [done|]]]].
    split; [|split; [|split]].
    + intros props Hprops. by apply stringifyEntries_object, Hps.
    + destruct (truthy rt pv && _); [|by rewrite Hloop].
      by rewrite (stringifyEntries_proto rt _ _ _ Hloop).
    + intros elems Helems. rewrite Hpv in Helems. injection Helems as ->.
      cbn [truthy typeof andb] in Hloop.
      rewrite bool_decide_eq_true_2 in Hloop by done.
      by apply stringifyEntries_array.
    + intros v Hv'. rewrite Hpv in Hv'. injection Hv' as <-.
      destruct pv as [| |b|n|sv|elems|props]; try done.
      all: cbn [truthy typeof andb] in Hloop.
      all: try (rewrite bool_decide_eq_false_2 in Hloop by lit_neq).
      all: try (by rewrite andb_false_r in Hloop).
      all: done.
Qed.

(** The model's answer to "open google in tab 2". *)
Lemma parseResponse_contract_witness :
  exists j parsed,
    extractJSON (cleanup Sample.generated) = Some j
    /\ JSON_parse Sample.runtime j = Returns parsed
    /\ getProp Sample.runtime parsed (lit "name")
       = Returns (JString (name Sample.generatedCall))
    /\ name Sample.generatedCall <> []
    /\ (forall props,
         getProp Sample.runtime parsed (lit "parameters")
         = Returns (JObject props) ->
         forall k, k <> lit "__proto__" ->
           match props !! k with
           | Some v => exists sv, ToString Sample.runtime v = Returns sv
                                  /\ parameters Sample.generatedCall !! k = Some sv
           | None => parameters Sample.generatedCall !! k = None
           end)
    /\ parameters Sample.generatedCall !! lit "__proto__" = None
    /\ (forall elems,
         getProp Sample.runtime parsed (lit "parameters")
         = Returns (JArray elems) ->
         (forall i,
            match elems !! i with
            | Some v => exists sv,
                          ToString Sample.runtime v = Returns sv
                          /\ parameters Sample.generatedCall !! decimal i
                             = Some sv
            | None => parameters Sample.generatedCall !! decimal i = None
            end)
         /\ forall k, (forall i, k <> decimal i) ->
                      parameters Sample.generatedCall !! k = None)
    /\ (forall v,
         getProp Sample.runtime parsed (lit "parameters") = Returns v ->
         match v with
         | JObject _ | JArray _ => True
         | _ => parameters Sample.generatedCall = ∅
         end).
Proof.
  apply (proj2 (proj2 (proj2 (proj2
           (parseResponse_contract Sample.runtime Sample.generated))))
           Sample.generatedCall).
  vm_compute. reflexivity.
Defined.

Example parseResponse_generated :
  parseResponse Sample.runtime Sample.generated = Returns Sample.generatedCall.
Proof. vm_compute. reflexivity. Qed.

Example parseResponse_no_object :
  parseResponse Sample.runtime (lit "I cannot help with that")
  = Throws (Error (lit "No JSON object found in response")).
Proof. reflexivity. Qed.

Example parseResponse_no_name :
  parseResponse Sample.runtime (litq "{'parameters':{'url':'google'}}")
  = Throws (Error (lit "JSON parsing failed: " ++ msg_invalid_name)).
Proof. vm_compute. reflexivity. Qed.

(** C3 as stated fails: of a text with two objects the first balanced
    object is the first of them, which is a valid call; the code takes
    everything from the first opening brace to the last closing brace,
    which does not parse. *)
Lemma parseResponse_not_first_balanced :
  spec_firstBalancedObject (cleanup Sample.generatedTwice)
  = Some (litq "{'name':'go_back'}")
  /\ extractJSON (cleanup Sample.generatedTwice)
     = Some (litq "{'name':'go_back'} or {'name':'refresh_page'}")
  /\ spec_parseResponse Sample.runtime Sample.generatedTwice
     = Returns {| name := lit "go_back"; parameters := ∅ |}
  /\ parseResponse Sample.runtime Sample.generatedTwice
     = Throws (Error (lit "JSON parsing failed: JSON Parse error: Unexpected token")).
Proof. vm_compute. repeat split. Qed.

(* ===================================================================== *)
(** * 22. From the transcript to the screen *)
(* ===================================================================== *)

(** The backend answers "open google": the page is opened. *)
Example processVoiceCommand_open_google :
  let env := Sample.phone [] (AxiosResponse Sample.openGoogle) in
  let a := (processVoiceCommand Sample.runtime env HookScreen (lit "open google")
              {| world := initialWorld env; screen := initialScreen |}).2 in
  status (screen a) = lit "Opening https://www.google.com..."
  /\ isProcessing (screen a) = false
  /\ length (trace (world a)) = 1.
Proof. repeat split. Qed.

(** The backend answers 503: the user is shown the error. *)
Example processVoiceCommand_backend_down :
  let env := Sample.phone [] (AxiosRejected (Some 503%Z)) in
  let a := (processVoiceCommand Sample.runtime env HookScreen (lit "open google")
              {| world := initialWorld env; screen := initialScreen |}).2 in
  status (screen a) = lit "Error: Backend server is not running"
  /\ isProcessing (screen a) = false
  /\ url (screen a) = url initialScreen.
Proof. repeat split. Qed.

(** The loaded model answers on the device: no request leaves it. *)
Example processVoiceCommand_on_device :
  let env := Sample.phone Sample.generated (AxiosRejected None) in
  let a := (processVoiceCommand Sample.runtime env HookScreen
              (lit "open google in tab 2")
              {| world := Sample.loaded env; screen := initialScreen |}).2 in
  status (screen a) = lit "Opening https://www.google.com..."
  /\ (forall url command timeout, EvPost url command timeout ∉ trace (world a)).
Proof.
  split; [reflexivity|]. intros url command timeout.
  vm_compute. intros H.
  repeat (apply elem_of_cons in H as [H|H]; [discriminate H|]).
  by apply elem_of_nil in H.
Qed.

(* ===================================================================== *)
(** * 23. More on URL normalisation *)
(* ===================================================================== *)

(** X1. Every normalised URL is well formed for the web view: it has no
    white space at either end, it has a scheme separator, and it has a dot
    or names [localhost]. *)
Theorem normalizeURL_well_formed (x : jsstring) :
  trim (normalizeURL x) = normalizeURL x
  /\ includes (lit "://") (normalizeURL x) = true
  /\ includes (lit ".") (normalizeURL x)
     || includes (lit "localhost") (normalizeURL x) = true.
Proof.
  rewrite (normalizeURL_steps x).
  destruct (trim_clean x) as [Hs He].
  destruct (withScheme_clean _ Hs He) as [Hs' He'].
  destruct (asHostname_clean _ Hs' He') as [Hs'' He''].
  split; [by apply trim_fixed|split].
  - apply asHostname_includes, withScheme_includes.
  - apply asHostname_dotted.
Qed.

(** What the web view is given always has a scheme separator, and a dot or
    [localhost]. *)
Lemma normalizeURL_separated (x : jsstring) :
  includes (lit "://") (normalizeURL x) = true
  /\ includes (lit ".") (normalizeURL x)
     || includes (lit "localhost") (normalizeURL x) = true.
Proof.
  rewrite (normalizeURL_steps x). split.
  - apply asHostname_includes, withScheme_includes.
  - apply asHostname_dotted.
Qed.

Lemma trim_idempotent (x : jsstring) : trim (trim x) = trim x.
Proof. destruct (trim_clean x). by apply trim_fixed. Qed.

(** X2. A complete URL (one that, trimmed, has a scheme separator and a dot
    or [localhost]) is only trimmed: no scheme is put in front of it and
    nothing is appended, whatever its scheme. *)
Theorem normalizeURL_complete (x : jsstring) :
  includes (lit "://") (trim x) = true ->
  includes (lit ".") (trim x) || includes (lit "localhost") (trim x) = true ->
  normalizeURL x = trim x.
Proof.
  intros Hsep Hdot. rewrite normalizeURL_steps.
  unfold withScheme. rewrite Hsep. cbn [negb]. unfold asHostname.
  apply orb_true_iff in Hdot as [-> | ->]; cbn [negb andb]; [done|].
  by rewrite andb_false_r.
Qed.

Lemma normalizeURL_complete_witness :
  normalizeURL (lit "  ftp://files.example.org/a b  ")
  = trim (lit "  ftp://files.example.org/a b  ").
Proof.
  apply (normalizeURL_complete (lit "  ftp://files.example.org/a b  "));
    reflexivity.
Defined.

(** X3. [www.] is only ever put after [https://]: a dotless address with
    another scheme (and no [https://] anywhere in it) only gets [.com]
    appended. *)
Theorem normalizeURL_other_scheme (x : jsstring) :
  includes (lit "://") (trim x) = true ->
  includes (lit "https://") (trim x) = false ->
  includes (lit ".") (trim x) = false ->
  includes (lit "localhost") (trim x) = false ->
  normalizeURL x = trim x ++ lit ".com".
Proof.
  intros Hsep Hhttps Hdot Hlocal. rewrite normalizeURL_steps.
  unfold withScheme. rewrite Hsep. cbn [negb]. unfold asHostname.
  rewrite Hdot, Hlocal. cbn [negb andb].
  by rewrite replace_absent.
Qed.

Lemma normalizeURL_other_scheme_witness :
  normalizeURL (lit "http://intranet") = trim (lit "http://intranet") ++ lit ".com".
Proof. apply (normalizeURL_other_scheme (lit "http://intranet")); reflexivity. Defined.

(* ===================================================================== *)
(** * 24. More on the command executor *)
(* ===================================================================== *)

Section ExecutorMore.

Context {num : Type}.
Variable rt : Runtime num.
Variable version : ScreenVersion.

Implicit Types s : Screen.
Implicit Types fc : JSValue num.

(** Whatever throws in the executor throws before the screen is touched. *)
Lemma executeFunction_throws_unchanged fc originalCommand s e :
  (executeFunction rt version fc originalCommand s).1 = Throws e ->
  (executeFunction rt version fc originalCommand s).2 = s.
Proof.
  unfold executeFunction, mbind, M_bind, liftOutcome.
  destruct (getProp rt fc (lit "name")) as [e1|nm]; [done|].
  destruct (getProp rt fc (lit "parameters")) as [e2|ps]; [done|].
  destruct (strictEq nm (lit "open_browser")).
  { destruct (getProp rt ps (lit "url")) as [e3|u]; [done|].
    destruct (truthy rt u); [|done].
    by destruct (normalizeURL_of rt u) as [e4|n]. }
  destruct (strictEq nm (lit "search_web")).
  { destruct (getProp rt ps (lit "query")) as [e3|q]; [done|].
    destruct (truthy rt q); [|done].
    unfold Outcome_bind.
    destruct (ToString rt q) as [e4|sq]; [done|].
    by destruct (encodeURIComponent rt sq) as [e5|enc]. }
  destruct (strictEq nm (lit "go_back")); [done|].
  destruct (strictEq nm (lit "go_forward")); [done|].
  destruct (strictEq nm (lit "refresh_page")); [done|].
  by destruct (ToString rt nm) as [e3|shown].
Qed.

(** Whatever the executor does when it returns, the panel is up, the hide
    timer runs for 3000 ms, and the processing flag is as it was. *)
Lemma executeFunction_returns_feedback fc originalCommand s :
  (executeFunction rt version fc originalCommand s).1 = Returns tt ->
  showFeedback (executeFunction rt version fc originalCommand s).2 = true
  /\ hideTimer (executeFunction rt version fc originalCommand s).2 = Some 3000%Z
  /\ isProcessing (executeFunction rt version fc originalCommand s).2
     = isProcessing s.
Proof.
  unfold executeFunction, mbind, M_bind, liftOutcome.
  destruct (getProp rt fc (lit "name")) as [e1|nm]; [done|].
  destruct (getProp rt fc (lit "parameters")) as [e2|ps]; [done|].
  destruct (strictEq nm (lit "open_browser")).
  { destruct (getProp rt ps (lit "url")) as [e3|u]; [done|].
    destruct (truthy rt u); [|done].
    by destruct (normalizeURL_of rt u) as [e4|n]. }
  destruct (strictEq nm (lit "search_web")).
  { destruct (getProp rt ps (lit "query")) as [e3|q]; [done|].
    destruct (truthy rt q); [|done].
    unfold Outcome_bind.
    destruct (ToString rt q) as [e4|sq]; [done|].
    by destruct (encodeURIComponent rt sq) as [e5|enc]. }
  destruct (strictEq nm (lit "go_back")); [done|].
  destruct (strictEq nm (lit "go_forward")); [done|].
  destruct (strictEq nm (lit "refresh_page")); [done|].
  by destruct (ToString rt nm) as [e3|shown].
Qed.

End ExecutorMore.

(** X4. The executor is all or nothing: when [executeFunction] throws (a
    call that is [null], a call without a [parameters] object, a [url] that
    is no string, a query that cannot be encoded), the screen is exactly as
    it was: no status shown, no timer started, no navigation. *)
Theorem executeFunction_atomic {num} (rt : Runtime num) (version : ScreenVersion)
    (functionCall : JSValue num) (originalCommand : jsstring) (s : Screen)
    (e : JsError) :
  (executeFunction rt version functionCall originalCommand s).1 = Throws e ->
  (executeFunction rt version functionCall originalCommand s).2 = s.
Proof. apply executeFunction_throws_unchanged. Qed.

(** [{name: "open_browser"}] has no [parameters] to read [url] from. *)
Lemma executeFunction_atomic_witness :
  (executeFunction Sample.runtime HookScreen
     (JObject {[ lit "name" := JString (lit "open_browser") ]})
     (lit "open") initialScreen).2 = initialScreen.
Proof.
  apply (executeFunction_atomic Sample.runtime HookScreen _ _ _
           (mkError TypeErrorC (lit "Cannot read property 'url' of undefined"))).
  reflexivity.
Defined.

(** X5. [open_browser] with a non-empty string [url] navigates: the web
    view and the address bar both get [normalizeURL(url)], and the status is
    "Opening " that URL "...".  The address it navigates to always has a
    scheme separator and a dot or [localhost]. *)
Theorem executeFunction_open_browser {num} (rt : Runtime num)
    (version : ScreenVersion) (ps : gmap jsstring (JSValue num))
    (u originalCommand : jsstring) (s : Screen) :
  ps !! lit "url" = Some (JString u) ->
  u <> [] ->
  exists s',
    executeFunction rt version (callValue (lit "open_browser") ps)
      originalCommand s = (Returns tt, s')
    /\ url s' = normalizeURL u
    /\ currentUrl s' = normalizeURL u
    /\ status s' = lit "Opening " ++ normalizeURL u ++ lit "..."
    /\ webViewCalls s' = webViewCalls s
    /\ includes (lit "://") (url s') = true
    /\ includes (lit ".") (url s') || includes (lit "localhost") (url s') = true.
Proof.
  intros Hurl Hu.
  destruct (normalizeURL_separated u) as [Hsep Hdot].
  unfold executeFunction, mbind, M_bind, liftOutcome.
  rewrite getProp_callValue_name, getProp_callValue_parameters.
  cbn [strictEq getProp]. rewrite bool_decide_eq_true_2 by done.
  rewrite Hurl. cbn [default from_option id truthy].
  destruct u as [|c u]; [done|]. cbn [nonEmpty normalizeURL_of].
  eexists. split; [reflexivity|]. cbn. by repeat split.
Qed.

Lemma executeFunction_open_browser_witness :
  exists s',
    executeFunction Sample.runtime HookScreen
      (callValue (lit "open_browser") {[ lit "url" := JString (lit "wikipedia") ]})
      (lit "open wikipedia") initialScreen = (Returns tt, s')
    /\ url s' = normalizeURL (lit "wikipedia")
    /\ currentUrl s' = normalizeURL (lit "wikipedia")
    /\ status s' = lit "Opening " ++ normalizeURL (lit "wikipedia") ++ lit "..."
    /\ webViewCalls s' = webViewCalls initialScreen
    /\ includes (lit "://") (url s') = true
    /\ includes (lit ".") (url s') || includes (lit "localhost") (url s') = true.
Proof.
  apply (executeFunction_open_browser Sample.runtime HookScreen
           {[ lit "url" := JString (lit "wikipedia") ]} (lit "wikipedia")).
  - apply lookup_singleton_eq.
  - discriminate.
Defined.

(** X6. [search_web] with a truthy [query] navigates to the Google search
    address followed by [encodeURIComponent] of the query's string, while
    the status quotes the query as it is, not encoded.  A query that is no
    string (a number, say) is searched for as its string. *)
Theorem executeFunction_search_web {num} (rt : Runtime num)
    (version : ScreenVersion) (ps : gmap jsstring (JSValue num))
    (q : JSValue num) (text encoded originalCommand : jsstring) (s : Screen) :
  ps !! lit "query" = Some q ->
  truthy rt q = true ->
  ToString rt q = Returns text ->
  encodeURIComponent rt text = Returns encoded ->
  exists s',
    executeFunction rt version (callValue (lit "search_web") ps)
      originalCommand s = (Returns tt, s')
    /\ url s' = lit "https://www.google.com/search?q=" ++ encoded
    /\ currentUrl s' = url s'
    /\ status s' = lit "Searching for " ++ dquote ++ text ++ dquote ++ lit "..."
    /\ webViewCalls s' = webViewCalls s.
Proof.
  intros Hq Htruthy Htext Henc.
  unfold executeFunction, mbind, M_bind, liftOutcome.
  rewrite getProp_callValue_name, getProp_callValue_parameters.
  cbn [strictEq getProp].
  rewrite (bool_decide_eq_false_2 (lit "search_web" = lit "open_browser"))
    by lit_neq.
  rewrite bool_decide_eq_true_2 by done.
  rewrite Hq. cbn [default from_option id]. rewrite Htruthy.
  unfold Outcome_bind. rewrite Htext, Henc.
  eexists. split; [reflexivity|]. by repeat split.
Qed.

Lemma executeFunction_search_web_witness :
  exists s',
    executeFunction Sample.runtime HookScreen
      (callValue (lit "search_web") {[ lit "query" := JNumber 42%Z ]})
      (lit "search for forty two") initialScreen = (Returns tt, s')
    /\ url s' = lit "https://www.google.com/search?q=" ++ lit "42"
    /\ currentUrl s' = url s'
    /\ status s' = lit "Searching for " ++ dquote ++ lit "42" ++ dquote ++ lit "..."
    /\ webViewCalls s' = webViewCalls initialScreen.
Proof.
  apply (executeFunction_search_web Sample.runtime HookScreen
           {[ lit "query" := JNumber 42%Z ]} (JNumber 42%Z)); reflexivity.
Defined.

(** X7. The history commands [go_back], [go_forward] and [refresh_page]
    need no [parameters] at all; they leave [url] and [currentUrl] alone
    and call the one matching method of the web view, if it is mounted, and
    nothing if it is not. *)
Theorem executeFunction_history {num} (rt : Runtime num)
    (version : ScreenVersion) (props : gmap jsstring (JSValue num))
    (n originalCommand : jsstring) (call : WebViewCall) (s : Screen) :
  props !! lit "name" = Some (JString n) ->
  historyCall n = Some call ->
  exists s',
    executeFunction rt version (JObject props) originalCommand s
    = (Returns tt, s')
    /\ url s' = url s
    /\ currentUrl s' = currentUrl s
    /\ webViewCalls s'
       = if webViewMounted s then webViewCalls s ++ [call] else webViewCalls s.
Proof.
  intros Hname Hcall.
  unfold historyCall in Hcall.
  unfold executeFunction, mbind, M_bind, liftOutcome, getProp.
  rewrite Hname. cbn [default from_option id strictEq].
  repeat case_bool_decide; simplify_eq;
    try match goal with H : lit _ = lit _ |- _ => by vm_compute in H end.
  all: eexists; split; [reflexivity|]; by repeat split.
Qed.

Lemma executeFunction_history_witness :
  exists s',
    executeFunction Sample.runtime HookScreen
      (JObject {[ lit "name" := JString (lit "refresh_page") ]})
      (lit "reload") initialScreen = (Returns tt, s')
    /\ url s' = url initialScreen
    /\ currentUrl s' = currentUrl initialScreen
    /\ webViewCalls s'
       = if webViewMounted initialScreen
         then webViewCalls initialScreen ++ [Reload]
         else webViewCalls initialScreen.
Proof.
  apply (executeFunction_history Sample.runtime HookScreen
           {[ lit "name" := JString (lit "refresh_page") ]} (lit "refresh_page")).
  - apply lookup_singleton_eq.
  - reflexivity.
Defined.

(* ===================================================================== *)
(** * 25. More on [processVoiceCommand] *)
(* ===================================================================== *)

(** X8. [processVoiceCommand] never throws, whatever the interpretation and
    the executor do, and when it is over the processing flag is off and the
    feedback panel is up. *)
Theorem processVoiceCommand_total {num} (rt : Runtime num) (env : Env num)
    (version : ScreenVersion) (command : jsstring) (a : App num) :
  (processVoiceCommand rt env version command a).1 = Returns tt
  /\ isProcessing (screen (processVoiceCommand rt env version command a).2)
     = false
  /\ showFeedback (screen (processVoiceCommand rt env version command a).2)
     = true.
Proof.
  unfold processVoiceCommand, try_finally, try_catch, mbind, M_bind, onScreen,
    onWorld.
  cbn.
  destruct (parseVoiceCommand rt env command (world a)) as [[e|fc] w']; cbn;
    [done|].
  match goal with
  | |- context [executeFunction rt version fc command ?s0] =>
      pose proof (executeFunction_returns_feedback rt version fc command s0) as Hf;
      destruct (executeFunction rt version fc command s0) as [[e|[]] s']
  end; cbn in *; [done|].
  destruct (Hf eq_refl) as (-> & _ & _). done.
Qed.

(** What the executor returns or throws does not depend on the screen. *)
Lemma executeFunction_outcome_any_screen {num} (rt : Runtime num)
    (version : ScreenVersion) (fc : JSValue num) (originalCommand : jsstring)
    (s s0 : Screen) :
  (executeFunction rt version fc originalCommand s).1
  = (executeFunction rt version fc originalCommand s0).1.
Proof.
  unfold executeFunction, mbind, M_bind, liftOutcome.
  destruct (getProp rt fc (lit "name")) as [e1|nm]; [done|].
  destruct (getProp rt fc (lit "parameters")) as [e2|ps]; [done|].
  destruct (strictEq nm (lit "open_browser")).
  { destruct (getProp rt ps (lit "url")) as [e3|u]; [done|].
    destruct (truthy rt u); [|done].
    by destruct (normalizeURL_of rt u) as [e4|n]. }
  destruct (strictEq nm (lit "search_web")).
  { destruct (getProp rt ps (lit "query")) as [e3|q]; [done|].
    destruct (truthy rt q); [|done].
    unfold Outcome_bind.
    destruct (ToString rt q) as [e4|sq]; [done|].
    by destruct (encodeURIComponent rt sq) as [e5|enc]. }
  destruct (strictEq nm (lit "go_back")); [done|].
  destruct (strictEq nm (lit "go_forward")); [done|].
  destruct (strictEq nm (lit "refresh_page")); [done|].
  by destruct (ToString rt nm) as [e3|shown].
Qed.

(** X9. When the interpretation is rejected, or resolves to a call on which
    the executor throws, the user is shown "Error: " and the error's
    message, and nothing is navigated. *)
Theorem processVoiceCommand_error {num} (rt : Runtime num) (env : Env num)
    (version : ScreenVersion) (command : jsstring) (a : App num) (e : JsError) :
  (parseVoiceCommand rt env command (world a)).1 = Throws e
  \/ (exists functionCall,
        (parseVoiceCommand rt env command (world a)).1 = Returns functionCall
        /\ (executeFunction rt version functionCall command (screen a)).1
           = Throws e) ->
  status (screen (processVoiceCommand rt env version command a).2)
  = lit "Error: " ++ message e
  /\ noNavigation (screen a)
       (screen (processVoiceCommand rt env version command a).2).
Proof.
  intros H.
  unfold processVoiceCommand, try_finally, try_catch, mbind, M_bind, onScreen,
    onWorld.
  cbn.
  destruct (parseVoiceCommand rt env command (world a)) as [[e'|fc] w']; cbn.
  { destruct H as [[= ->]|(fc & [=] & _)]. by repeat split. }
  destruct H as [[=]|(fc' & [= <-] & Hthrow)].
  match goal with
  | |- context [executeFunction rt version fc command ?s0] =>
      pose proof (executeFunction_throws_unchanged rt version fc command s0) as Hu;
      rewrite (executeFunction_outcome_any_screen rt version fc command _ s0)
        in Hthrow;
      destruct (executeFunction rt version fc command s0) as [[e'|[]] s']
  end; cbn in *; [|done].
  injection Hthrow as ->. rewrite (Hu e eq_refl). by repeat split.
Qed.

(** The backend is down: the 503 becomes the status. *)
Lemma processVoiceCommand_error_witness :
  status (screen (processVoiceCommand Sample.runtime
                    (Sample.phone [] (AxiosRejected (Some 503%Z))) HookScreen
                    (lit "open google")
                    {| world := initialWorld
                                  (Sample.phone [] (AxiosRejected (Some 503%Z)));
                       screen := initialScreen |}).2)
  = lit "Error: " ++ message (Error (lit "Backend server is not running"))
  /\ noNavigation initialScreen
       (screen (processVoiceCommand Sample.runtime
                  (Sample.phone [] (AxiosRejected (Some 503%Z))) HookScreen
                  (lit "open google")
                  {| world := initialWorld
                                (Sample.phone [] (AxiosRejected (Some 503%Z)));
                     screen := initialScreen |}).2).
Proof.
  apply (processVoiceCommand_error Sample.runtime
           (Sample.phone [] (AxiosRejected (Some 503%Z))) HookScreen
           (lit "open google")
           {| world := initialWorld
                         (Sample.phone [] (AxiosRejected (Some 503%Z)));
              screen := initialScreen |}).
  left. reflexivity.
Defined.

(* ===================================================================== *)
(** * 26. More on the router *)
(* ===================================================================== *)

Section RouterMore.

Context {num : Type}.
Variable rt : Runtime num.
Variable env : Env num.

Implicit Types w : World num.

#[local] Instance samePosts_preorder : PreOrder (@samePosts num).
Proof.
  split; [done|]. intros w1 w2 w3 H12 H23. unfold samePosts in *. congruence.
Qed.

#[local] Instance sameEngine_preorder : PreOrder (@sameEngine num).
Proof.
  split; [done|]. intros w1 w2 w3 [? ?] [? ?]. unfold sameEngine in *.
  split; congruence.
Qed.

Lemma posts_snoc (t : list (Event num)) ev :
  posts (t ++ [ev]) = if isPost ev then posts t ++ [ev] else posts t.
Proof.
  unfold posts. rewrite List.filter_app. cbn [List.filter].
  destruct (isPost ev); [done | apply app_nil_r].
Qed.

Lemma natives_snoc (t : list (Event num)) ev :
  natives (t ++ [ev]) = if isPost ev then natives t else natives t ++ [ev].
Proof.
  unfold natives, isNative. rewrite List.filter_app. cbn [List.filter].
  destruct (isPost ev); [apply app_nil_r | done].
Qed.

(** The local path asks nothing of the backend. *)
Lemma emit_samePosts (ev : Event num) :
  isPost ev = false -> maintains samePosts (emit ev).
Proof.
  intros H w. unfold samePosts, emit, modify. cbn [snd trace].
  by rewrite posts_snoc, H.
Qed.

Lemma getFunctionGemmaEngine_samePosts :
  maintains samePosts (@getFunctionGemmaEngine num).
Proof. intros w. unfold getFunctionGemmaEngine. by destruct (engineInstance w). Qed.

Lemma this_samePosts : maintains samePosts (@this num).
Proof. done. Qed.

Lemma set_this_samePosts f : maintains samePosts (@set_this num f).
Proof. done. Qed.

#[local] Hint Resolve getFunctionGemmaEngine_samePosts this_samePosts
  set_this_samePosts : maintains.
#[local] Hint Extern 1 (maintains (@samePosts _) (emit _)) =>
  apply emit_samePosts; reflexivity : maintains.

Lemma parseCommand_samePosts userInput options :
  maintains samePosts (parseCommand rt env userInput options).
Proof. unfold parseCommand. maintain. Qed.

#[local] Hint Resolve parseCommand_samePosts : maintains.

Lemma parseCommandOnDevice_samePosts command :
  maintains samePosts (parseCommandOnDevice rt env command).
Proof. unfold parseCommandOnDevice, isModelLoaded. maintain. Qed.

Lemma loadModel_samePosts modelPath config :
  maintains samePosts (loadModel rt env modelPath config).
Proof. unfold loadModel. maintain. Qed.

(** The remote path asks nothing of the native module and leaves the
    engine alone. *)
Lemma parseCommandViaBackend_sameEngine command :
  maintains sameEngine (parseCommandViaBackend rt env command).
Proof.
  intros w.
  unfold parseCommandViaBackend, backendCatch, mbind, M_bind, get, emit, modify.
  cbn [fst snd]. unfold sameEngine.
  destruct (axios_post _ _ _ _) as [data|st].
  - cbn [snd trace engineInstance mret M_ret]. by rewrite natives_snoc.
  - destruct (bool_decide _); cbn [snd trace engineInstance mret M_ret throw];
      by rewrite natives_snoc.
Qed.

Lemma parseVoiceCommand_remote_only command w :
  currentMode (service w) = BACKEND
  \/ (currentMode (service w) = AUTO /\ onDeviceAvailable (service w) = false) ->
  parseVoiceCommand rt env command w = parseCommandViaBackend rt env command w.
Proof.
  intros H. unfold parseVoiceCommand, mbind, M_bind, get, try_catch, throw.
  destruct H as [-> | [-> ->]];
    by destruct (parseCommandViaBackend rt env command w) as [[e|v] w'].
Qed.

Lemma parseVoiceCommand_auto_local command w v w' :
  currentMode (service w) = AUTO ->
  onDeviceAvailable (service w) = true ->
  parseCommandOnDevice rt env command w = (Returns v, w') ->
  parseVoiceCommand rt env command w = (Returns v, w').
Proof.
  intros Hmode Hready Hlocal.
  unfold parseVoiceCommand, mbind, M_bind, get, try_catch, throw.
  by rewrite Hmode, Hready, Hlocal.
Qed.

End RouterMore.

(** X10. In [BACKEND] mode, and in [AUTO] mode while readiness is not set,
    [parseVoiceCommand] is the remote path and nothing else: the native
    module is asked nothing and the engine singleton is not touched (not
    even created), and exactly one request goes to the backend. *)
Theorem parseVoiceCommand_remote {num} (rt : Runtime num) (env : Env num)
    (command : jsstring) (w : World num) :
  currentMode (service w) = BACKEND
  \/ (currentMode (service w) = AUTO /\ onDeviceAvailable (service w) = false) ->
  parseVoiceCommand rt env command w = parseCommandViaBackend rt env command w
  /\ sameEngine w (parseVoiceCommand rt env command w).2
  /\ trace (parseVoiceCommand rt env command w).2
     = trace w ++ [EvPost (API_URL (service w) ++ lit "/parse-command") command
                     (Some (Number_ofZ rt 10000))].
Proof.
  intros H. rewrite (parseVoiceCommand_remote_only rt env command w H).
  split; [done|split].
  - apply parseCommandViaBackend_sameEngine.
  - apply parseCommandViaBackend_trace.
Qed.

(** A fresh process is in [AUTO] mode without readiness. *)
Lemma parseVoiceCommand_remote_witness :
  parseVoiceCommand Sample.runtime
    (Sample.phone [] (AxiosResponse Sample.openGoogle)) (lit "open google")
    (initialWorld (Sample.phone [] (AxiosResponse Sample.openGoogle)))
  = parseCommandViaBackend Sample.runtime
      (Sample.phone [] (AxiosResponse Sample.openGoogle)) (lit "open google")
      (initialWorld (Sample.phone [] (AxiosResponse Sample.openGoogle)))
  /\ engineInstance
       (parseVoiceCommand Sample.runtime
          (Sample.phone [] (AxiosResponse Sample.openGoogle)) (lit "open google")
          (initialWorld (Sample.phone [] (AxiosResponse Sample.openGoogle)))).2
     = None.
Proof.
  destruct (parseVoiceCommand_remote Sample.runtime
              (Sample.phone [] (AxiosResponse Sample.openGoogle))
              (lit "open google")
              (initialWorld (Sample.phone [] (AxiosResponse Sample.openGoogle))))
    as (H1 & [_ H2] & _).
  - right. split; reflexivity.
  - split; [exact H1 | exact H2].
Defined.

(** X11. In [AUTO] mode with readiness set, when the local interpretation
    succeeds its call is the answer and no request goes to the backend. *)
Theorem parseVoiceCommand_auto_local_success {num} (rt : Runtime num)
    (env : Env num) (command : jsstring) (w w' : World num) (v : JSValue num) :
  currentMode (service w) = AUTO ->
  onDeviceAvailable (service w) = true ->
  parseCommandOnDevice rt env command w = (Returns v, w') ->
  parseVoiceCommand rt env command w = (Returns v, w')
  /\ posts (trace w') = posts (trace w).
Proof.
  intros Hmode Hready Hlocal. split.
  - by apply parseVoiceCommand_auto_local.
  - pose proof (parseCommandOnDevice_samePosts rt env command w) as H.
    by rewrite Hlocal in H.
Qed.

Lemma parseVoiceCommand_auto_local_success_witness :
  (parseVoiceCommand Sample.runtime
     (Sample.phone Sample.generated (AxiosRejected (Some 503%Z)))
     (lit "open google in tab 2")
     (Sample.loaded (Sample.phone Sample.generated (AxiosRejected (Some 503%Z))))).1
  = Returns (valueOfCall Sample.generatedCall).
Proof.
  pose proof (parseVoiceCommand_auto_local_success Sample.runtime
    (Sample.phone Sample.generated (AxiosRejected (Some 503%Z)))
    (lit "open google in tab 2")
    (Sample.loaded (Sample.phone Sample.generated (AxiosRejected (Some 503%Z))))
    (parseCommandOnDevice Sample.runtime
       (Sample.phone Sample.generated (AxiosRejected (Some 503%Z)))
       (lit "open google in tab 2")
       (Sample.loaded
          (Sample.phone Sample.generated (AxiosRejected (Some 503%Z))))).2
    (valueOfCall Sample.generatedCall)
    eq_refl eq_refl) as H.
  rewrite (proj1 (H ltac:(vm_compute; reflexivity))). reflexivity.
Defined.

(** X12. In [ON_DEVICE] mode no request ever goes to the backend, whether
    the model is loaded or not and whether the interpretation succeeds or
    fails. *)
Theorem parseVoiceCommand_on_device_never_posts {num} (rt : Runtime num)
    (env : Env num) (command : jsstring) (w : World num) :
  currentMode (service w) = ON_DEVICE ->
  posts (trace (parseVoiceCommand rt env command w).2) = posts (trace w).
Proof.
  intros Hmode. rewrite (parseVoiceCommand_on_device rt env command w Hmode).
  apply parseCommandOnDevice_samePosts.
Qed.

(** The loaded model answers nonsense; the backend is not asked. *)
Lemma parseVoiceCommand_on_device_never_posts_witness :
  posts (trace (parseVoiceCommand Sample.runtime
                  (Sample.phone (lit "no idea") (AxiosResponse Sample.openGoogle))
                  (lit "open google")
                  (setInferenceMode ON_DEVICE
                     (Sample.loaded
                        (Sample.phone (lit "no idea")
                           (AxiosResponse Sample.openGoogle)))).2).2)
  = [].
Proof.
  rewrite (parseVoiceCommand_on_device_never_posts Sample.runtime
             (Sample.phone (lit "no idea") (AxiosResponse Sample.openGoogle))
             (lit "open google")); reflexivity.
Defined.

(* ===================================================================== *)
(** * 27. More on the engine *)
(* ===================================================================== *)

(** X13. [loadModel] never rejects: it resolves to [true] or [false].
    After [true] the engine is loaded, holds a context and has no load
    error.  After [false] a load error is recorded, and [isLoaded] and the
    context are what they were, so a model loaded before a failed reload is
    still the one in use.  The voice service's variables are not touched. *)
Theorem loadModel_outcome {num} (rt : Runtime num) (env : Env num)
    (modelPath : jsstring) (config : option (ModelConfig num)) (w : World num) :
  exists b,
    (loadModel rt env modelPath config w).1 = Returns b
    /\ service (loadModel rt env modelPath config w).2 = service w
    /\ if b
       then isLoaded (engineOf (loadModel rt env modelPath config w).2) = true
            /\ loadError (engineOf (loadModel rt env modelPath config w).2) = None
            /\ is_Some
                 (llamaContext (engineOf (loadModel rt env modelPath config w).2))
       else isLoaded (engineOf (loadModel rt env modelPath config w).2)
            = isLoaded (engineOf w)
            /\ llamaContext (engineOf (loadModel rt env modelPath config w).2)
               = llamaContext (engineOf w)
            /\ is_Some
                 (loadError (engineOf (loadModel rt env modelPath config w).2)).
Proof.
  unfold loadModel, try_catch, mbind, M_bind, set_this, modify, emit,
    liftOutcome, throw, mret, M_ret, engineOf.
  destruct (Platform_OS env); cbn.
  all: try (exists false; by repeat split).
  all: destruct (llama_rn env) as [initLlama|]; cbn;
    [|exists false; by repeat split].
  all: match goal with
       | init : _ -> Outcome LlamaContext |- context [?f ?p] =>
           unify f init; destruct (init p) as [e|ctx]
       end; cbn;
    [exists false; by repeat split | exists true; by repeat split].
Qed.

Lemma unloadModel_effect {num} (env : Env num) (w : World num) :
  (unloadModel env w).1 = Returns tt
  /\ isLoaded (engineOf (unloadModel env w).2) = false
  /\ llamaContext (engineOf (unloadModel env w).2) = None
  /\ service (unloadModel env w).2 = service w.
Proof.
  unfold unloadModel, try_catch, mbind, M_bind, this, set_this, modify, emit,
    liftOutcome, mret, M_ret, engineOf.
  remember (default newEngine (engineInstance w)) as e0 eqn:He0.
  destruct (llamaContext e0) as [ctx|] eqn:Hctx; cbn; [|by subst e0].
  by destruct (llama_release env ctx) as [e|[]].
Qed.

(** X14. [unloadModel] never rejects, even when releasing the context
    throws; afterwards the engine is not loaded and holds no context, and a
    local interpretation is refused with "On-device model not loaded".  The
    readiness flag of the voice service is not touched by it. *)
Theorem unloadModel_outcome {num} (rt : Runtime num) (env env' : Env num)
    (command : jsstring) (w : World num) :
  (unloadModel env w).1 = Returns tt
  /\ isLoaded (engineOf (unloadModel env w).2) = false
  /\ llamaContext (engineOf (unloadModel env w).2) = None
  /\ service (unloadModel env w).2 = service w
  /\ (parseCommandOnDevice rt env' command (unloadModel env w).2).1
     = Throws (Error (lit "On-device model not loaded")).
Proof.
  destruct (unloadModel_effect env w) as (H1 & H2 & H3 & H4).
  repeat split; try done.
  by apply parseCommandOnDevice_not_loaded.
Qed.

(** X15. One interpretation on the engine is stateless: [parseCommand]
    leaves the engine and the voice service as they are.  Unless the engine
    is loaded and holds a context, it asks nothing and throws "Model not
    loaded. Call loadModel() first.".  When it is loaded, it makes exactly
    one completion request, on the loaded context, for the prompt built
    from the input, with the options given or else 256 tokens, temperature
    0 and top-p 1, and with the end-of-turn marker as stop word; it returns
    what [parseResponse] makes of the completion, and whatever the
    completion or the parsing throws is thrown as "Inference failed: "
    followed by that error's message. *)
Theorem parseCommand_stateless {num} (rt : Runtime num) (env : Env num)
    (userInput : jsstring) (options : option (InferenceOptions num))
    (w : World num) :
  engineInstance (parseCommand rt env userInput options w).2 = engineInstance w
  /\ service (parseCommand rt env userInput options w).2 = service w
  /\ match isLoaded (engineOf w), llamaContext (engineOf w) with
     | true, Some ctx =>
         let params :=
           {| prompt := buildPrompt userInput;
              n_predict := default (Number_ofZ rt 256) (options ≫= maxTokens);
              temperature :=
                default (Number_ofZ rt 0) (options ≫= temperatureOpt);
              top_p := default (Number_ofZ rt 1) (options ≫= topP);
              stop := [lit "<end_of_turn>"] |} in
         trace (parseCommand rt env userInput options w).2
         = trace w ++ [EvCompletion ctx params]
         /\ (parseCommand rt env userInput options w).1
            = match llama_completion env ctx params with
              | Throws e =>
                  Throws (Error (lit "Inference failed: " ++ message e))
              | Returns text =>
                  match parseResponse rt text with
                  | Throws e =>
                      Throws (Error (lit "Inference failed: " ++ message e))
                  | Returns functionCall => Returns functionCall
                  end
              end
     | _, _ =>
         (parseCommand rt env userInput options w).1
         = Throws (Error (lit "Model not loaded. Call loadModel() first."))
         /\ trace (parseCommand rt env userInput options w).2 = trace w
     end.
Proof.
  unfold parseCommand, this, engineOf, mbind, M_bind.
  cbn [fst snd].
  set (e0 := default newEngine (engineInstance w)).
  destruct (isLoaded e0); [|done].
  destruct (llamaContext e0) as [ctx|]; [|done].
  unfold try_catch, mbind, M_bind, emit, modify, liftOutcome, throw.
  cbn [fst snd trace engineInstance service].
  match goal with
  | |- context [llama_completion env ctx ?p] =>
      set (params := p);
      destruct (llama_completion env ctx params) as [e|text] eqn:Hc
  end.
  - cbn [fst snd trace engineInstance service]. done.
  - destruct (parseResponse rt text) as [e|fc] eqn:Hp;
      cbn [fst snd trace engineInstance service]; done.
Qed.

(* ===================================================================== *)
(** * 28. More on the voice service *)
(* ===================================================================== *)

Section ServiceMore.

Context {num : Type}.
Variable rt : Runtime num.

Implicit Types w : World num.
Implicit Types env : Env num.

Lemma autoInitializeOnDevice_attempted env w :
  autoInitAttempted (service (autoInitializeOnDevice rt env w).2) = true.
Proof.
  unfold autoInitializeOnDevice, mbind, M_bind, get, try_catch, modify, mret,
    M_ret.
  destruct (autoInitAttempted (service w)) eqn:Ha; [done|]. cbn.
  pose proof (getFunctionGemmaEngine_sameService
                (set_service (set_autoInitAttempted true) w)) as H1.
  destruct (getFunctionGemmaEngine _) as [[e|engine] w1]; cbn in *.
  { by rewrite H1. }
  pose proof (tryLoadBundledModel_sameService rt env w1) as H2.
  destruct (tryLoadBundledModel rt env w1) as [[e|[|]] w2]; cbn in *;
    unfold sameService in *; rewrite ?H2, ?H1; done.
Qed.

(** Where no model can load, [loadModel] resolves to [false]. *)
Lemma loadModel_cannotLoad env modelPath config w :
  cannotLoad env -> (loadModel rt env modelPath config w).1 = Returns false.
Proof.
  unfold loadModel, try_catch, mbind, M_bind, set_this, modify, emit,
    liftOutcome, throw, mret, M_ret.
  intros [Hweb|Hnone].
  - by rewrite Hweb.
  - rewrite Hnone. by destruct (Platform_OS env).
Qed.

Lemma initializeOnDeviceInference_cannotLoad env modelPath w :
  cannotLoad env ->
  (initializeOnDeviceInference rt env modelPath w).1 = Returns false
  /\ service (initializeOnDeviceInference rt env modelPath w).2 = service w.
Proof.
  intros Hc.
  unfold initializeOnDeviceInference, mbind, M_bind, try_catch, modify, mret,
    M_ret.
  pose proof (getFunctionGemmaEngine_sameService w) as H1.
  destruct (getFunctionGemmaEngine w) as [[e|engine] w1]; cbn in *; [done|].
  pose proof (loadModel_cannotLoad env modelPath None w1 Hc) as Hl.
  pose proof (loadModel_sameService rt env modelPath None w1) as H2.
  destruct (loadModel rt env modelPath None w1) as [[e|b] w2]; cbn in *;
    [done|]. injection Hl as ->.
  unfold getLoadError, this, mbind, M_bind, mret, M_ret. cbn.
  unfold sameService in *. by rewrite H2, H1.
Qed.

Lemma tryLoadBundledModel_cannotLoad env w :
  cannotLoad env -> (tryLoadBundledModel rt env w).1 = Returns false.
Proof.
  intros Hc. unfold tryLoadBundledModel.
  destruct (getBundledModelPath env); [|done].
  by apply loadModel_cannotLoad.
Qed.

Lemma autoInitializeOnDevice_cannotLoad env w :
  cannotLoad env ->
  onDeviceAvailable (service (autoInitializeOnDevice rt env w).2)
  = onDeviceAvailable (service w).
Proof.
  intros Hc.
  unfold autoInitializeOnDevice, mbind, M_bind, get, try_catch, modify, mret,
    M_ret.
  destruct (autoInitAttempted (service w)) eqn:Ha; [done|]. cbn.
  pose proof (getFunctionGemmaEngine_sameService
                (set_service (set_autoInitAttempted true) w)) as H1.
  destruct (getFunctionGemmaEngine _) as [[e|engine] w1]; cbn in *.
  { by rewrite H1. }
  pose proof (tryLoadBundledModel_cannotLoad env w1 Hc) as Hl.
  pose proof (tryLoadBundledModel_sameService rt env w1) as H2.
  destruct (tryLoadBundledModel rt env w1) as [[e|b] w2]; cbn in *; [done|].
  injection Hl as ->. cbn. unfold sameService in *. by rewrite H2, H1.
Qed.

Lemma step_cannotLoad w env op :
  cannotLoad env ->
  onDeviceAvailable (service (step rt w (env, op)))
  = onDeviceAvailable (service w).
Proof.
  intros Hc. destruct op as [|path|mode| | | |command| |]; cbn [step].
  - by apply autoInitializeOnDevice_cannotLoad.
  - by rewrite (proj2 (initializeOnDeviceInference_cannotLoad env path w Hc)).
  - done.
  - done.
  - done.
  - done.
  - by rewrite (parseVoiceCommand_sameService rt env command w).
  - by rewrite (singleton_unloadModel_sameService env w).
  - by rewrite (releaseFunctionGemmaEngine_sameService env w).
Qed.

End ServiceMore.

(** X16. The automatic load is attempted at most once per process: however
    the first call of [autoInitializeOnDevice] ended, every later call, in
    whatever environment, asks nothing of the native module, changes
    nothing, and resolves to the readiness flag as it stands. *)
Theorem autoInitializeOnDevice_once {num} (rt : Runtime num)
    (env env' : Env num) (w : World num) :
  autoInitializeOnDevice rt env' (autoInitializeOnDevice rt env w).2
  = (Returns (onDeviceAvailable (service (autoInitializeOnDevice rt env w).2)),
     (autoInitializeOnDevice rt env w).2).
Proof.
  pose proof (autoInitializeOnDevice_attempted rt env w) as H.
  unfold autoInitializeOnDevice at 1. unfold mbind, M_bind, get.
  by rewrite H.
Qed.

(** X17. Where no model can load (the web platform, or a build without
    [llama.rn]) readiness never appears: after any sequence of operations,
    each run in such an environment, [onDeviceAvailable] is what it was at
    the start, so a process that starts there stays on the backend in
    [AUTO] mode. *)
Theorem onDeviceAvailable_never_without_engine {num} (rt : Runtime num)
    (ops : list (Env num * Op)) (w : World num) :
  Forall (fun envop => cannotLoad envop.1) ops ->
  onDeviceAvailable (service (run rt ops w)) = onDeviceAvailable (service w).
Proof.
  revert w. induction ops as [|[env op] ops IH]; intros w Hall; [done|].
  apply Forall_cons in Hall as [Hc Hall]. cbn [run foldl].
  change (foldl (step rt) (step rt w (env, op)) ops)
    with (run rt ops (step rt w (env, op))).
  rewrite (IH _ Hall). by apply step_cannotLoad.
Qed.

(** A browser tab tries the automatic load, an explicit load, and an
    interpretation. *)
Lemma onDeviceAvailable_never_without_engine_witness :
  onDeviceAvailable
    (service (run Sample.runtime
       [ (Sample.browserTab (AxiosRejected None), OpAutoInitialize);
         (Sample.browserTab (AxiosRejected None),
          OpInitialize (lit "/models/gemma.gguf"));
         (Sample.browserTab (AxiosResponse Sample.openGoogle),
          OpParseVoiceCommand (lit "open google")) ]
       (initialWorld (Sample.browserTab (AxiosRejected None)))))
  = false.
Proof.
  rewrite (onDeviceAvailable_never_without_engine Sample.runtime).
  - reflexivity.
  - repeat apply Forall_cons_2; try apply Forall_nil_2; by left.
Defined.

(** X18. Unloading the model does not clear readiness, but in [AUTO] mode
    every command after it is handed to the backend all the same: the local
    attempt, if readiness makes the router try it, is refused before any
    completion is asked for, and [parseVoiceCommand] is the remote path. *)
Theorem parseVoiceCommand_after_unload {num} (rt : Runtime num)
    (env env' : Env num) (command : jsstring) (w : World num) :
  currentMode (service w) = AUTO ->
  parseVoiceCommand rt env' command (unloadModel env w).2
  = parseCommandViaBackend rt env' command (unloadModel env w).2
  /\ onDeviceAvailable (service (unloadModel env w).2)
     = onDeviceAvailable (service w).
Proof.
  intros Hmode.
  destruct (unloadModel_effect env w) as (_ & Hloaded & _ & Hservice).
  split; [|by rewrite Hservice].
  set (w1 := (unloadModel env w).2) in *.
  assert (Hinst : is_Some (engineInstance w1)).
  { unfold w1, unloadModel, try_catch, mbind, M_bind, this, set_this, modify,
      emit, liftOutcome, mret, M_ret.
    cbn. destruct (llamaContext _) as [ctx|]; cbn; [|done].
    by destruct (llama_release env ctx) as [e|[]]. }
  destruct (onDeviceAvailable (service w1)) eqn:Hready.
  - assert (Hlocal : parseCommandOnDevice rt env' command w1
                     = (Throws (Error (lit "On-device model not loaded")), w1)).
    { unfold parseCommandOnDevice, isModelLoaded, getFunctionGemmaEngine, this,
        mbind, M_bind, mret, M_ret, throw.
      destruct Hinst as [engine Hengine].
      unfold engineOf in Hloaded. rewrite Hengine in Hloaded. cbn in Hloaded.
      rewrite Hengine. cbn [default from_option id]. rewrite Hengine.
      cbn [default from_option id]. by rewrite Hloaded. }
    apply (parseVoiceCommand_auto_local_failure rt env' command w1
             (Error (lit "On-device model not loaded")) w1);
      [by rewrite Hservice | done | done].
  - apply parseVoiceCommand_remote_only. right.
    split; [by rewrite Hservice | done].
Qed.

Lemma parseVoiceCommand_after_unload_witness :
  (parseVoiceCommand Sample.runtime
     (Sample.phone Sample.generated (AxiosResponse Sample.openGoogle))
     (lit "open google")
     (unloadModel (Sample.phone Sample.generated (AxiosResponse Sample.openGoogle))
        (Sample.loaded
           (Sample.phone Sample.generated (AxiosResponse Sample.openGoogle)))).2).1
  = Returns Sample.openGoogle
  /\ onDeviceAvailable
       (service (unloadModel
          (Sample.phone Sample.generated (AxiosResponse Sample.openGoogle))
          (Sample.loaded
             (Sample.phone Sample.generated (AxiosResponse Sample.openGoogle)))).2)
     = true.
Proof.
  destruct (parseVoiceCommand_after_unload Sample.runtime
              (Sample.phone Sample.generated (AxiosResponse Sample.openGoogle))
              (Sample.phone Sample.generated (AxiosResponse Sample.openGoogle))
              (lit "open google")
              (Sample.loaded
                 (Sample.phone Sample.generated (AxiosResponse Sample.openGoogle)))
              eq_refl) as [H1 H2].
  split; [by rewrite H1 | by rewrite H2].
Defined.

Lemma beforeColon_no_colon (s : jsstring) :
  includes (lit ":") (beforeColon s) = false.
Proof.
  change (lit ":") with [58%N].
  induction s as [|c s IH]; [done|]. cbn [beforeColon].
  destruct (c =? 58)%N eqn:Hc; [done|].
  rewrite includes_char_cons, IH, N.eqb_sym, Hc. done.
Qed.

(** X19. The backend address is always ["http://" + host + ":8000"] with a
    host that has no colon in it: whatever port the development server's
    [hostUri] carries is dropped, and the backend's port 8000 is used. *)
Theorem getBackendUrl_shape {num} (env : Env num) :
  exists host,
    getBackendUrl env = lit "http://" ++ host ++ lit ":8000"
    /\ includes (lit ":") host = false.
Proof.
  unfold getBackendUrl.
  assert (Hlocal : exists host,
            lit "http://localhost:8000" = lit "http://" ++ host ++ lit ":8000"
            /\ includes (lit ":") host = false).
  { by exists (lit "localhost"). }
  assert (Hemu : exists host,
            lit "http://10.0.2.2:8000" = lit "http://" ++ host ++ lit ":8000"
            /\ includes (lit ":") host = false).
  { by exists (lit "10.0.2.2"). }
  assert (Hhost : exists host,
            match Constants_hostUri env with
            | Some debuggerHost =>
                if nonEmpty debuggerHost
                then lit "http://" ++ beforeColon debuggerHost ++ lit ":8000"
                else lit "http://localhost:8000"
            | None => lit "http://localhost:8000"
            end = lit "http://" ++ host ++ lit ":8000"
            /\ includes (lit ":") host = false).
  { destruct (Constants_hostUri env) as [debuggerHost|]; [|done].
    destruct (nonEmpty debuggerHost); [|done].
    exists (beforeColon debuggerHost). split; [done|].
    apply beforeColon_no_colon. }
  destruct (Platform_OS env), (Constants_isDevice env); done.
Qed.

(* ===================================================================== *)
(** * 29. Transcripts reaching the screen *)
(* ===================================================================== *)

#[local] Arguments lit : simpl never.

Section TranscriptsMore.

Context {num : Type}.
Variable rt : Runtime num.
Variable env : Env num.

(** All that [processVoiceCommand] does to the service is one
    [parseVoiceCommand]. *)
Lemma processVoiceCommand_world version command (a : App num) :
  world (processVoiceCommand rt env version command a).2
  = (parseVoiceCommand rt env command (world a)).2.
Proof.
  unfold processVoiceCommand, try_finally, try_catch, mbind, M_bind, onScreen,
    onWorld.
  cbn.
  destruct (parseVoiceCommand rt env command (world a)) as [[e|fc] w']; cbn;
    [done|].
  match goal with
  | |- context [executeFunction rt version fc command ?s0] =>
      destruct (executeFunction rt version fc command s0) as [[e|[]] s']
  end; done.
Qed.

Lemma processVoiceCommand_returns version command (a : App num) :
  (processVoiceCommand rt env version command a).1 = Returns tt.
Proof.
  unfold processVoiceCommand, try_finally, try_catch, mbind, M_bind, onScreen,
    onWorld.
  cbn.
  destruct (parseVoiceCommand rt env command (world a)) as [[e|fc] w']; cbn;
    [done|].
  match goal with
  | |- context [executeFunction rt version fc command ?s0] =>
      destruct (executeFunction rt version fc command s0) as [[e|[]] s']
  end; done.
Qed.

(** On the inline screen a result that is not final is only displayed. *)
Lemma onResult_inline_interim t (a : App num) :
  world (onResult rt env InlineScreen t false a).2 = world a.
Proof. done. Qed.

Lemma onResult_inline_final t (a : App num) :
  world (onResult rt env InlineScreen t true a).2
  = (parseVoiceCommand rt env t (world a)).2.
Proof.
  unfold onResult. unfold mbind at 1. unfold M_bind, onScreen, setTranscript,
    modify.
  cbn [fst snd]. by rewrite processVoiceCommand_world.
Qed.

Lemma onResult_inline_returns t isFinal (a : App num) :
  (onResult rt env InlineScreen t isFinal a).1 = Returns tt.
Proof.
  unfold onResult. unfold mbind at 1. unfold M_bind, onScreen, setTranscript,
    modify.
  cbn [fst snd]. destruct isFinal; [|done]. apply processVoiceCommand_returns.
Qed.

(** On the hook screen a result only sets the transcript, and throws. *)
Lemma onResult_hook t isFinal (a : App num) :
  (onResult rt env HookScreen t isFinal a).1
  = Throws (mkError TypeErrorC (msg_not_a_function rt (lit "onResult")))
  /\ world (onResult rt env HookScreen t isFinal a).2 = world a
  /\ noNavigation (screen a) (screen (onResult rt env HookScreen t isFinal a).2).
Proof. done. Qed.

Lemma interim_inline_world (interim : list jsstring) (a : App num) :
  world (foldl (hear rt env InlineScreen) a ((fun t => (t, false)) <$> interim))
  = world a.
Proof.
  revert a. induction interim as [|t interim IH]; intros a; [done|].
  cbn [fmap list_fmap foldl]. rewrite IH. apply onResult_inline_interim.
Qed.

Lemma results_hook (results : list (jsstring * bool)) (a : App num) :
  world (foldl (hear rt env HookScreen) a results) = world a
  /\ noNavigation (screen a) (screen (foldl (hear rt env HookScreen) a results)).
Proof.
  revert a. induction results as [|[t isFinal] results IH]; intros a; [done|].
  cbn [foldl]. destruct (IH (hear rt env HookScreen a (t, isFinal)))
    as (Hw & Hu & Hc & Hv).
  destruct (onResult_hook t isFinal a) as (_ & Hw1 & Hu1 & Hc1 & Hv1).
  unfold hear in *. cbn [fst snd] in *.
  split; [congruence|]. repeat split; congruence.
Qed.

End TranscriptsMore.

(** X20. On the inline screen a listening session, of any number of
    interim transcripts and then a final one, interprets the final
    transcript and only that one, once: what it does to the voice service,
    the engine and the outside world is what a single [parseVoiceCommand] of
    the final transcript does, and no result's handler throws.  On the hook
    screen nothing is interpreted: the screen gives the hook an object where
    the hook expects the callback, so the hook's handler throws a
    [TypeError] on every result, interim or final, and a session leaves the
    voice service, the engine and the outside world as they were and
    navigates nowhere. *)
Theorem session_interpretation {num} (rt : Runtime num) (env : Env num)
    (interim : list jsstring) (final : jsstring) (a : App num) :
  (world (session rt env InlineScreen interim final a)
   = (parseVoiceCommand rt env final (world a)).2
   /\ forall t isFinal a',
        (onResult rt env InlineScreen t isFinal a').1 = Returns tt)
  /\ (world (session rt env HookScreen interim final a) = world a
      /\ noNavigation (screen a)
           (screen (session rt env HookScreen interim final a))
      /\ forall t isFinal a',
           (onResult rt env HookScreen t isFinal a').1
           = Throws (mkError TypeErrorC
                       (msg_not_a_function rt (lit "onResult")))).
Proof.
  split; [split|split; [|split]].
  - unfold session. rewrite foldl_snoc. unfold hear at 1. cbn [fst snd].
    rewrite onResult_inline_final. by rewrite interim_inline_world.
  - intros t isFinal a'. apply onResult_inline_returns.
  - apply results_hook.
  - apply results_hook.
  - intros t isFinal a'. apply onResult_hook.
Qed.

(* ===================================================================== *)
(** * 30. The speech recognition hook *)
(* ===================================================================== *)

(** X21. [stopListening] never throws, also when the recogniser's [stop]
    does, and always leaves the hook not listening; the transcript, the
    error and the support flag stay as they are. *)
Theorem stopListening_total (platform : VoiceRecognition.Speech)
    (s : VoiceRecognition.State) :
  (VoiceRecognition.stopListening platform s).1 = Returns tt
  /\ VoiceRecognition.isListening
       (VoiceRecognition.hook (VoiceRecognition.stopListening platform s).2)
     = false
  /\ VoiceRecognition.transcript
       (VoiceRecognition.hook (VoiceRecognition.stopListening platform s).2)
     = VoiceRecognition.transcript (VoiceRecognition.hook s)
  /\ VoiceRecognition.error
       (VoiceRecognition.hook (VoiceRecognition.stopListening platform s).2)
     = VoiceRecognition.error (VoiceRecognition.hook s)
  /\ VoiceRecognition.isSupported
       (VoiceRecognition.hook (VoiceRecognition.stopListening platform s).2)
     = VoiceRecognition.isSupported (VoiceRecognition.hook s).
Proof.
  unfold VoiceRecognition.stopListening, try_catch, mbind, M_bind, get,
    liftOutcome.
  destruct (VoiceRecognition.OS platform); cbn.
  3: destruct (VoiceRecognition.webRecognitionRef _); cbn; [|done];
     by destruct (VoiceRecognition.webStop platform) as [e|[]].
  all: by destruct (VoiceRecognition.nativeStop platform) as [e|[]].
Qed.

(** X22. On a native platform, when the permission asked for is not
    granted, [startListening] reports "Microphone permission denied" as the
    hook's error, never starts the recogniser, and leaves the listening flag
    as it was. *)
Theorem startListening_permission_denied (platform : VoiceRecognition.Speech)
    (s : VoiceRecognition.State) (status : jsstring) :
  VoiceRecognition.OS platform <> web ->
  VoiceRecognition.requestPermissionsAsync platform = Returns status ->
  status <> lit "granted" ->
  (VoiceRecognition.startListening platform s).1 = Returns tt
  /\ VoiceRecognition.error
       (VoiceRecognition.hook (VoiceRecognition.startListening platform s).2)
     = Some (lit "Microphone permission denied")
  /\ VoiceRecognition.isListening
       (VoiceRecognition.hook (VoiceRecognition.startListening platform s).2)
     = VoiceRecognition.isListening (VoiceRecognition.hook s)
  /\ VoiceRecognition.calls (VoiceRecognition.startListening platform s).2
     = VoiceRecognition.calls s ++ [VoiceRecognition.RequestPermissions].
Proof.
  intros Hos Hperm Hstatus.
  unfold VoiceRecognition.startListening, try_catch, mbind, M_bind, get,
    liftOutcome.
  rewrite Hperm.
  destruct (VoiceRecognition.OS platform); try done; cbn.
  all: by rewrite bool_decide_eq_false_2.
Qed.

Lemma startListening_permission_denied_witness :
  VoiceRecognition.error
    (VoiceRecognition.hook
       (VoiceRecognition.startListening VoiceRecognition.refusingPhone
          VoiceRecognition.initial).2)
  = Some (lit "Microphone permission denied").
Proof.
  apply (startListening_permission_denied VoiceRecognition.refusingPhone
           VoiceRecognition.initial (lit "denied")); [done|reflexivity|done].
Defined.

(** X23. [startListening] never throws and always clears the transcript.
    When it reports an error (a refused permission, or whatever the
    recogniser's [start] threw), the listening flag is as it was.  When it
    reports none, the hook listens, unless it is in a browser without a
    recogniser: then nothing was called and nothing is reported. *)
Theorem startListening_outcome (platform : VoiceRecognition.Speech)
    (s : VoiceRecognition.State) :
  (VoiceRecognition.startListening platform s).1 = Returns tt
  /\ VoiceRecognition.transcript
       (VoiceRecognition.hook (VoiceRecognition.startListening platform s).2)
     = []
  /\ match VoiceRecognition.error
             (VoiceRecognition.hook
                (VoiceRecognition.startListening platform s).2) with
     | Some _ =>
         VoiceRecognition.isListening
           (VoiceRecognition.hook
              (VoiceRecognition.startListening platform s).2)
         = VoiceRecognition.isListening (VoiceRecognition.hook s)
     | None =>
         VoiceRecognition.isListening
           (VoiceRecognition.hook
              (VoiceRecognition.startListening platform s).2) = true
         \/ VoiceRecognition.OS platform = web
            /\ VoiceRecognition.webRecognitionRef (VoiceRecognition.hook s)
               = false
            /\ VoiceRecognition.isListening
                 (VoiceRecognition.hook
                    (VoiceRecognition.startListening platform s).2)
               = VoiceRecognition.isListening (VoiceRecognition.hook s)
            /\ VoiceRecognition.calls
                 (VoiceRecognition.startListening platform s).2
               = VoiceRecognition.calls s
     end.
Proof.
  unfold VoiceRecognition.startListening, try_catch, mbind, M_bind, get,
    liftOutcome.
  destruct (VoiceRecognition.OS platform) eqn:Hos; cbn.
  3: { destruct (VoiceRecognition.webRecognitionRef _) eqn:Href; cbn.
       - destruct (VoiceRecognition.webStart platform) as [e|[]]; cbn;
           repeat split; by left.
       - repeat split. by right. }
  all: destruct (VoiceRecognition.requestPermissionsAsync platform)
         as [e|status]; cbn; [done|].
  all: destruct (bool_decide (status = lit "granted")); cbn; [|done].
  all: destruct (VoiceRecognition.nativeStart platform) as [e|[]]; cbn;
         repeat split; by left.
Qed.

Section HookRuns.

Variable platform : VoiceRecognition.Speech.
Hypothesis Hweb : VoiceRecognition.OS platform = web.
Hypothesis Hnone :
  VoiceRecognition.speechInWindow platform = false
  \/ VoiceRecognition.speechConstructor platform = false.

Lemma mount_idle :
  VoiceRecognition.idle
    (VoiceRecognition.mount platform VoiceRecognition.initial).2.
Proof.
  unfold VoiceRecognition.mount, mbind, M_bind, get. rewrite Hweb. cbn.
  destruct Hnone as [-> | ->]; cbn; [done|].
  by destruct (VoiceRecognition.speechInWindow platform).
Qed.

Lemma act_idle s a :
  VoiceRecognition.idle s ->
  VoiceRecognition.idle (VoiceRecognition.act platform s a).
Proof.
  intros (Href & Hl & He & Hc).
  destruct a; unfold VoiceRecognition.act, VoiceRecognition.startListening,
    VoiceRecognition.stopListening, mbind, M_bind, get;
    rewrite Hweb; cbn; rewrite Href; cbn; by repeat split.
Qed.

Lemma run_idle actions :
  VoiceRecognition.idle (VoiceRecognition.run platform actions).
Proof.
  unfold VoiceRecognition.run.
  induction actions as [|a actions IH] using rev_ind; [apply mount_idle|].
  rewrite foldl_snoc. by apply act_idle.
Qed.

End HookRuns.

(** X24. In a browser without the Web Speech API the hook never listens:
    however often listening is started and stopped after mounting, no
    recogniser is created or called, the listening flag stays off, and
    [startListening] reports no error either. *)
Theorem unsupported_browser_never_listens (platform : VoiceRecognition.Speech)
    (actions : list VoiceRecognition.Action) :
  VoiceRecognition.OS platform = web ->
  VoiceRecognition.speechInWindow platform = false
  \/ VoiceRecognition.speechConstructor platform = false ->
  VoiceRecognition.isListening
    (VoiceRecognition.hook (VoiceRecognition.run platform actions)) = false
  /\ VoiceRecognition.error
       (VoiceRecognition.hook (VoiceRecognition.run platform actions)) = None
  /\ VoiceRecognition.calls (VoiceRecognition.run platform actions) = [].
Proof.
  intros Hweb Hnone.
  destruct (run_idle platform Hweb Hnone actions) as (_ & Hl & He & Hc).
  done.
Qed.

Lemma unsupported_browser_never_listens_witness :
  VoiceRecognition.isListening
    (VoiceRecognition.hook
       (VoiceRecognition.run VoiceRecognition.plainBrowser
          [VoiceRecognition.Start; VoiceRecognition.Stop;
           VoiceRecognition.Start])) = false
  /\ VoiceRecognition.error
       (VoiceRecognition.hook
          (VoiceRecognition.run VoiceRecognition.plainBrowser
             [VoiceRecognition.Start; VoiceRecognition.Stop;
              VoiceRecognition.Start])) = None
  /\ VoiceRecognition.calls
       (VoiceRecognition.run VoiceRecognition.plainBrowser
          [VoiceRecognition.Start; VoiceRecognition.Stop;
           VoiceRecognition.Start]) = [].
Proof.
  apply (unsupported_browser_never_listens VoiceRecognition.plainBrowser);
    [reflexivity | by left].
Defined.

(* ===================================================================== *)
(** * 31. The settings screen *)
(* ===================================================================== *)

Section SettingsMore.

Context {num : Type}.
Variable rt : Runtime num.

#[local] Instance sameMode_preorder : PreOrder (@sameMode num).
Proof.
  split; [done|]. intros w1 w2 w3 H12 H23. unfold sameMode in *. congruence.
Qed.

Lemma sameService_sameMode {A} (m : M (World num) A) :
  maintains sameService m -> maintains sameMode m.
Proof. intros H w. unfold sameMode. by rewrite (H w). Qed.

Lemma ready_sameMode :
  maintains sameMode
    (modify (set_service (num:=num) (set_onDeviceAvailable true))).
Proof. by intros w. Qed.

Lemma attempted_sameMode :
  maintains sameMode
    (modify (set_service (num:=num) (set_autoInitAttempted true))).
Proof. by intros w. Qed.

#[local] Hint Resolve ready_sameMode attempted_sameMode : maintains.
#[local] Hint Resolve getFunctionGemmaEngine_sameService this_sameService
  loadModel_sameService tryLoadBundledModel_sameService : maintains.

Lemma autoInitializeOnDevice_sameMode env :
  maintains sameMode (autoInitializeOnDevice rt env).
Proof.
  unfold autoInitializeOnDevice. maintain.
  all: apply sameService_sameMode; maintain.
Qed.

Lemma initializeOnDeviceInference_sameMode env modelPath :
  maintains sameMode (initializeOnDeviceInference rt env modelPath).
Proof.
  unfold initializeOnDeviceInference, getLoadError. maintain.
  all: apply sameService_sameMode; maintain.
Qed.

Lemma gesture_consistent (p : SettingsScreen.Page) envg :
  SettingsScreen.consistent p ->
  SettingsScreen.consistent (SettingsScreen.gesture rt p envg).
Proof.
  intros (Hmode & Hready & Hguard). destruct envg as [env [|command| |picker|mode]];
    unfold SettingsScreen.gesture.
  - pose proof (autoInitializeOnDevice_staysReady rt env
                  (SettingsScreen.services p)) as Hr.
    pose proof (autoInitializeOnDevice_sameMode env
                  (SettingsScreen.services p)) as Hm.
    unfold SettingsScreen.onService.
    destruct (autoInitializeOnDevice rt env (SettingsScreen.services p))
      as [o w]. cbn in *.
    unfold SettingsScreen.consistent, staysReady, sameMode in *. cbn.
    rewrite Hm. auto.
  - pose proof (parseVoiceCommand_sameService rt env command
                  (SettingsScreen.services p)) as Hs.
    unfold SettingsScreen.onService.
    destruct (parseVoiceCommand rt env command (SettingsScreen.services p))
      as [o w]. cbn in *.
    unfold SettingsScreen.consistent, sameService in *. cbn.
    rewrite Hs. auto.
  - unfold SettingsScreen.consistent. cbn. auto.
  - unfold SettingsScreen.handleLoadModel, try_finally, try_catch, mbind,
      M_bind, liftOutcome.
    destruct picker as [e|[|name uri]]; cbn; [done|done|].
    destruct (endsWith (lit ".gguf") name); cbn; [|done].
    pose proof (initializeOnDeviceInference_staysReady rt env uri
                  (SettingsScreen.services p)) as Hr.
    pose proof (initializeOnDeviceInference_sameMode env uri
                  (SettingsScreen.services p)) as Hm.
    unfold SettingsScreen.onService. cbn.
    destruct (initializeOnDeviceInference rt env uri
                (SettingsScreen.services p)) as [[e|[|]] w]; cbn in *.
    all: unfold SettingsScreen.consistent, staysReady, sameMode in *; cbn.
    all: rewrite Hm; auto.
  - unfold SettingsScreen.handleModeChange, mbind, M_bind, get. cbn.
    destruct mode; cbn.
    1: destruct (SettingsScreen.onDeviceReady (SettingsScreen.settings p))
         eqn:Hr; cbn.
    all: unfold SettingsScreen.consistent, SettingsScreen.refreshStats,
           SettingsScreen.onService, getInferenceStats, mbind, M_bind, get;
         cbn; repeat split; auto; try done; try (intros; congruence).
Qed.

Lemma use_consistent gs (p : SettingsScreen.Page) :
  SettingsScreen.consistent p ->
  SettingsScreen.consistent (SettingsScreen.use rt gs p).
Proof.
  revert p. induction gs as [|g gs IH]; intros p Hp; [done|].
  apply IH. by apply gesture_consistent.
Qed.

Lemma initialPage_consistent (env : Env num) :
  SettingsScreen.consistent (SettingsScreen.initialPage (initialWorld env)).
Proof. done. Qed.

End SettingsMore.

(** X25. However the application is used (started, spoken to, a model
    file picked, a mode chosen, the figures refreshed), the voice service is
    in on-device mode only with its readiness flag set, which takes a
    successful load: the settings screen refuses the mode until it has seen
    the service ready, and readiness is never withdrawn. *)
Theorem on_device_mode_only_with_model {num} (rt : Runtime num) (env : Env num)
    (gs : list (Env num * SettingsScreen.Gesture)) :
  currentMode
    (service (SettingsScreen.services
       (SettingsScreen.use rt gs
          (SettingsScreen.initialPage (initialWorld env))))) = ON_DEVICE ->
  onDeviceAvailable
    (service (SettingsScreen.services
       (SettingsScreen.use rt gs
          (SettingsScreen.initialPage (initialWorld env))))) = true.
Proof.
  intros Hmode.
  destruct (use_consistent rt gs _ (initialPage_consistent env))
    as (_ & _ & Hguard).
  by apply Hguard.
Qed.

Lemma on_device_mode_only_with_model_witness :
  onDeviceAvailable
    (service (SettingsScreen.services
       (SettingsScreen.use Sample.runtime
          [(Sample.phone Sample.generated (AxiosResponse Sample.openGoogle),
            SettingsScreen.PickModel
              (Returns (SettingsScreen.Asset (lit "functiongemma.gguf")
                          (lit "file:///models/functiongemma.gguf"))));
           (Sample.phone Sample.generated (AxiosResponse Sample.openGoogle),
            SettingsScreen.Refresh);
           (Sample.phone Sample.generated (AxiosResponse Sample.openGoogle),
            SettingsScreen.ChooseMode ON_DEVICE)]
          (SettingsScreen.initialPage
             (initialWorld
                (Sample.phone Sample.generated
                   (AxiosResponse Sample.openGoogle))))))) = true.
Proof.
  apply (on_device_mode_only_with_model Sample.runtime). reflexivity.
Defined.

(** X26. The mode the settings screen shows is always the mode the voice
    service is in, however the application is used. *)
Theorem settings_show_mode_in_use {num} (rt : Runtime num) (env : Env num)
    (gs : list (Env num * SettingsScreen.Gesture)) :
  SettingsScreen.inferenceMode
    (SettingsScreen.settings
       (SettingsScreen.use rt gs
          (SettingsScreen.initialPage (initialWorld env))))
  = currentMode
      (service (SettingsScreen.services
         (SettingsScreen.use rt gs
            (SettingsScreen.initialPage (initialWorld env))))).
Proof.
  by destruct (use_consistent rt gs _ (initialPage_consistent env))
    as (Hmode & _ & _).
Qed.

(** X27. [handleLoadModel] never throws and always ends with the loading
    indicator off.  A cancelled pick shows no alert and leaves the voice
    service, the engine and the model path as they are; every other outcome
    (a picker that fails, a file of another kind, a load that succeeds, a
    load that fails) shows exactly one alert. *)
Theorem handleLoadModel_total {num} (rt : Runtime num) (env : Env num)
    (picker : Outcome SettingsScreen.Picked) (p : SettingsScreen.Page) :
  (SettingsScreen.handleLoadModel rt env picker p).1 = Returns tt
  /\ SettingsScreen.isLoading
       (SettingsScreen.settings
          (SettingsScreen.handleLoadModel rt env picker p).2) = false
  /\ match picker with
     | Returns SettingsScreen.Canceled =>
         SettingsScreen.services
           (SettingsScreen.handleLoadModel rt env picker p).2
         = SettingsScreen.services p
         /\ SettingsScreen.alerts
              (SettingsScreen.settings
                 (SettingsScreen.handleLoadModel rt env picker p).2)
            = SettingsScreen.alerts (SettingsScreen.settings p)
         /\ SettingsScreen.modelPath
              (SettingsScreen.settings
                 (SettingsScreen.handleLoadModel rt env picker p).2)
            = SettingsScreen.modelPath (SettingsScreen.settings p)
     | _ =>
         exists title message,
           SettingsScreen.alerts
             (SettingsScreen.settings
                (SettingsScreen.handleLoadModel rt env picker p).2)
           = SettingsScreen.alerts (SettingsScreen.settings p)
             ++ [(title, message)]
     end.
Proof.
  unfold SettingsScreen.handleLoadModel, try_finally, try_catch, mbind,
    M_bind, liftOutcome.
  destruct picker as [e|[|name uri]]; cbn.
  - repeat split. by eexists _, _.
  - by repeat split.
  - destruct (endsWith (lit ".gguf") name); cbn.
    + unfold SettingsScreen.onService. cbn.
      destruct (initializeOnDeviceInference rt env uri
                  (SettingsScreen.services p)) as [[e|[|]] w]; cbn.
      all: repeat split; by eexists _, _.
    + repeat split. by eexists _, _.
Qed.

(** X28. A picked file whose name does not end in [.gguf] (in lower case)
    never reaches the engine: the voice service, the engine and the model
    path are left as they are, and "Invalid File" is shown. *)
Theorem handleLoadModel_other_file {num} (rt : Runtime num) (env : Env num)
    (name uri : jsstring) (p : SettingsScreen.Page) :
  endsWith (lit ".gguf") name = false ->
  SettingsScreen.services
    (SettingsScreen.handleLoadModel rt env
       (Returns (SettingsScreen.Asset name uri)) p).2
  = SettingsScreen.services p
  /\ SettingsScreen.modelPath
       (SettingsScreen.settings
          (SettingsScreen.handleLoadModel rt env
             (Returns (SettingsScreen.Asset name uri)) p).2)
     = SettingsScreen.modelPath (SettingsScreen.settings p)
  /\ SettingsScreen.alerts
       (SettingsScreen.settings
          (SettingsScreen.handleLoadModel rt env
             (Returns (SettingsScreen.Asset name uri)) p).2)
     = SettingsScreen.alerts (SettingsScreen.settings p)
       ++ [(lit "Invalid File", lit "Please select a .gguf model file")].
Proof.
  intros Hname.
  unfold SettingsScreen.handleLoadModel, try_finally, try_catch, mbind,
    M_bind, liftOutcome.
  cbn. by rewrite Hname.
Qed.

Lemma handleLoadModel_other_file_witness :
  SettingsScreen.services
    (SettingsScreen.handleLoadModel Sample.runtime
       (Sample.phone Sample.generated (AxiosResponse Sample.openGoogle))
       (Returns (SettingsScreen.Asset (lit "FunctionGemma.GGUF")
                   (lit "file:///models/FunctionGemma.GGUF")))
       (SettingsScreen.initialPage
          (initialWorld
             (Sample.phone Sample.generated
                (AxiosResponse Sample.openGoogle))))).2
  = SettingsScreen.services
      (SettingsScreen.initialPage
         (initialWorld
            (Sample.phone Sample.generated (AxiosResponse Sample.openGoogle)))).
Proof.
  apply (handleLoadModel_other_file Sample.runtime
           (Sample.phone Sample.generated (AxiosResponse Sample.openGoogle))
           (lit "FunctionGemma.GGUF") (lit "file:///models/FunctionGemma.GGUF")).
  reflexivity.
Defined.

(* ===================================================================== *)
(** * 32. The web application's interpretation route *)
(* ===================================================================== *)

Lemma untilClose_Some (s body : jsstring) :
  WebRoute.untilClose s = Some body ->
  (WebRoute.rbrace ∉ body) /\ exists after, s = body ++ WebRoute.rbrace :: after.
Proof.
  revert body. induction s as [|c s IH]; intros body; [done|].
  cbn [WebRoute.untilClose].
  destruct (c =? WebRoute.rbrace)%N eqn:Hc.
  - intros [= <-]. apply N.eqb_eq in Hc as ->. split; [apply not_elem_of_nil|].
    by exists s.
  - destruct (WebRoute.untilClose s) as [b|]; [|done].
    cbn. intros [= <-]. destruct (IH b eq_refl) as [Hb [after ->]]. split.
    + apply not_elem_of_cons. split; [|done].
      intros H. subst c. by rewrite N.eqb_refl in Hc.
    + by exists after.
Qed.

(** X29. What the route takes out of the model's answer for [JSON.parse]
    is a piece of the answer that starts with an opening brace, ends with
    the first closing brace after it, and has at least one character and no
    closing brace in between.  So an object that holds another object, as
    in the format the route's own prompt asks for, is never taken whole. *)
Theorem matchObject_shape (response jsonMatch : jsstring) :
  WebRoute.matchObject response = Some jsonMatch ->
  exists before body after,
    response = before ++ jsonMatch ++ after
    /\ jsonMatch = WebRoute.lbrace :: body ++ [WebRoute.rbrace]
    /\ body <> []
    /\ (WebRoute.rbrace ∉ body).
Proof.
  induction response as [|c s IH]; [done|].
  cbn [WebRoute.matchObject].
  assert (Hrest : WebRoute.matchObject s = Some jsonMatch ->
            exists before body after,
              c :: s = before ++ jsonMatch ++ after
              /\ jsonMatch = WebRoute.lbrace :: body ++ [WebRoute.rbrace]
              /\ body <> []
              /\ (WebRoute.rbrace ∉ body)).
  { intros Hm. destruct (IH Hm) as (before & body & after & -> & H).
    by exists (c :: before), body, after. }
  destruct (c =? WebRoute.lbrace)%N eqn:Hc; [|done].
  destruct (WebRoute.untilClose s) as [[|d body]|] eqn:Hu; [done| |done].
  intros [= <-]. apply N.eqb_eq in Hc as ->.
  destruct (untilClose_Some _ _ Hu) as [Hno [after ->]].
  exists [], (d :: body), after. split; [|done].
  cbn. by rewrite <- !app_assoc.
Qed.

Lemma matchObject_shape_witness :
  exists before body after,
    litq "Sure: {'name': 'go_back', 'parameters': {}}"
    = before ++ litq "{'name': 'go_back', 'parameters': {}" ++ after
    /\ litq "{'name': 'go_back', 'parameters': {}"
       = WebRoute.lbrace :: body ++ [WebRoute.rbrace]
    /\ body <> []
    /\ (WebRoute.rbrace ∉ body).
Proof.
  apply (matchObject_shape
           (litq "Sure: {'name': 'go_back', 'parameters': {}}")
           (litq "{'name': 'go_back', 'parameters': {}")).
  reflexivity.
Defined.

Lemma caught_cases {num} (error : WebRoute.Thrown) :
  WebRoute.caught (num:=num) error
  = {| WebRoute.status := 503;
       WebRoute.body :=
         WebRoute.errorBody (lit "Ollama is not running. Please start Ollama and pull functiongemma model.") |}
  \/ exists message,
       message <> []
       /\ WebRoute.caught (num:=num) error
          = {| WebRoute.status := 500;
               WebRoute.body := WebRoute.errorBody message |}.
Proof.
  unfold WebRoute.caught. destruct (bool_decide _); [by left|]. right.
  destruct (WebRoute.thrownMessage error) as [|c m]; cbn [nonEmpty].
  - by exists (lit "Failed to process command").
  - by exists (c :: m).
Qed.

Lemma POST_cases {num} (rt : Runtime num) (server : WebRoute.Server num) :
  (exists props text response,
     WebRoute.status (WebRoute.POST rt server) = 200%Z
     /\ WebRoute.request_json server = inr (JObject props)
     /\ props !! lit "command" = Some (JString text)
     /\ text <> []
     /\ WebRoute.ollama_generate server (WebRoute.promptFor text)
        = inr response
     /\ (WebRoute.body (WebRoute.POST rt server)
         = valueOfCall (searchFallback text)
         \/ exists jsonMatch,
              WebRoute.matchObject response = Some jsonMatch
              /\ JSON_parse rt jsonMatch
                 = Returns (WebRoute.body (WebRoute.POST rt server))))
  \/ WebRoute.POST rt server
     = {| WebRoute.status := 400;
          WebRoute.body := WebRoute.errorBody (lit "Invalid command") |}
  \/ WebRoute.POST rt server
     = {| WebRoute.status := 503;
          WebRoute.body :=
            WebRoute.errorBody (lit "Ollama is not running. Please start Ollama and pull functiongemma model.") |}
  \/ exists message,
       message <> []
       /\ WebRoute.POST rt server
          = {| WebRoute.status := 500;
               WebRoute.body := WebRoute.errorBody message |}.
Proof.
  unfold WebRoute.POST, WebRoute.attempt.
  destruct (WebRoute.request_json server) as [error|json].
  { right. right. apply caught_cases. }
  destruct json as [| |b|n|s|elems|props];
    try (right; right; apply caught_cases); try (by right; left).
  destruct (props !! lit "command") as [command|] eqn:Hcommand;
    cbn [default from_option id]; [|by right; left].
  destruct command as [| |b|n|text|elems|ps]; try (by right; left).
  cbn [truthy]. destruct text as [|c text]; cbn [nonEmpty negb];
    [by right; left|].
  destruct (WebRoute.ollama_generate server _) as [error|response] eqn:Hg.
  { right. right. apply caught_cases. }
  left. exists props, (c :: text), response.
  split; [done|]. split; [done|]. split; [done|]. split; [done|].
  split; [done|]. cbn [WebRoute.body].
  destruct (WebRoute.matchObject response) as [jsonMatch|]; [|by left].
  destruct (JSON_parse rt jsonMatch) as [e|functionCall] eqn:Hp; [by left|].
  right. by exists jsonMatch.
Qed.

Lemma POST_thrown {num} (rt : Runtime num) (server : WebRoute.Server num)
    (error : WebRoute.Thrown) :
  WebRoute.thrown server error ->
  WebRoute.POST rt server = WebRoute.caught error.
Proof.
  unfold WebRoute.POST, WebRoute.attempt.
  intros [H|[[H ->]|[[H ->]|(props & text & H & Hcommand & Htext & Hg)]]];
    rewrite H; [done|done|done|].
  rewrite Hcommand. cbn [default from_option id truthy].
  destruct text as [|c text]; [done|]. cbn [nonEmpty negb].
  by rewrite Hg.
Qed.

(** X30. The route always replies, with status 200, 400, 503 or 500.  A
    reply with status 200 is only given for a command that is a non-empty
    string and an answer of the model, and it carries either what
    [JSON.parse] made of the piece taken out of the answer, or the search
    for the command itself.  When something is thrown (by [request.json()],
    by the destructuring of [null], or by the model server), the reply is
    the 503 one exactly when the error's code is [ECONNREFUSED], and
    otherwise the 500 one with the error's message, or "Failed to process
    command" when it has none.  A body whose command is no non-empty string
    is answered with 400. *)
Theorem POST_replies {num} (rt : Runtime num) (server : WebRoute.Server num) :
  ((exists props text response,
        WebRoute.status (WebRoute.POST rt server) = 200%Z
        /\ WebRoute.request_json server = inr (JObject props)
        /\ props !! lit "command" = Some (JString text)
        /\ text <> []
        /\ WebRoute.ollama_generate server (WebRoute.promptFor text)
           = inr response
        /\ (WebRoute.body (WebRoute.POST rt server)
            = valueOfCall (searchFallback text)
            \/ exists jsonMatch,
                 WebRoute.matchObject response = Some jsonMatch
                 /\ JSON_parse rt jsonMatch
                    = Returns (WebRoute.body (WebRoute.POST rt server))))
     \/ WebRoute.POST rt server
        = {| WebRoute.status := 400;
             WebRoute.body := WebRoute.errorBody (lit "Invalid command") |}
     \/ WebRoute.POST rt server
        = {| WebRoute.status := 503;
             WebRoute.body :=
               WebRoute.errorBody (lit "Ollama is not running. Please start Ollama and pull functiongemma model.") |}
     \/ exists message,
          message <> []
          /\ WebRoute.POST rt server
             = {| WebRoute.status := 500;
                  WebRoute.body := WebRoute.errorBody message |})
  /\ (forall error,
        WebRoute.thrown server error ->
        WebRoute.code error = Some (lit "ECONNREFUSED") ->
        WebRoute.POST rt server
        = {| WebRoute.status := 503;
             WebRoute.body :=
               WebRoute.errorBody (lit "Ollama is not running. Please start Ollama and pull functiongemma model.") |})
  /\ (forall error,
        WebRoute.thrown server error ->
        WebRoute.code error <> Some (lit "ECONNREFUSED") ->
        WebRoute.POST rt server
        = {| WebRoute.status := 500;
             WebRoute.body :=
               WebRoute.errorBody
                 (if nonEmpty (WebRoute.thrownMessage error)
                  then WebRoute.thrownMessage error
                  else lit "Failed to process command") |})
  /\ (forall json,
        WebRoute.request_json server = inr json ->
        json <> JNull -> json <> JUndefined ->
        (forall props text,
           json = JObject props ->
           props !! lit "command" = Some (JString text) ->
           text = []) ->
        WebRoute.POST rt server
        = {| WebRoute.status := 400;
             WebRoute.body := WebRoute.errorBody (lit "Invalid command") |}).
Proof.
  split; [apply POST_cases|split; [|split]].
  - intros error Hthrown Hcode. rewrite (POST_thrown rt server error Hthrown).
    unfold WebRoute.caught. by rewrite bool_decide_eq_true_2.
  - intros error Hthrown Hcode. rewrite (POST_thrown rt server error Hthrown).
    unfold WebRoute.caught. by rewrite bool_decide_eq_false_2.
  - intros json Hjson Hnull Hundef Hcommand.
    unfold WebRoute.POST, WebRoute.attempt. rewrite Hjson.
    destruct json as [| |b|n|s|elems|props]; try done.
    destruct (props !! lit "command") as [command|] eqn:Hc;
      cbn [default from_option id]; [|done].
    destruct command as [| |b|n|text|elems|ps]; try done.
    by rewrite (Hcommand props text eq_refl Hc).
Qed.

(** No model server listens: the reply is the 503 one. *)
Lemma POST_replies_witness :
  WebRoute.POST Sample.runtime WebRoute.refusedRequest
  = {| WebRoute.status := 503;
       WebRoute.body :=
         WebRoute.errorBody (lit "Ollama is not running. Please start Ollama and pull functiongemma model.") |}.
Proof.
  apply (proj1 (proj2 (POST_replies Sample.runtime WebRoute.refusedRequest))
           {| WebRoute.code := Some (lit "ECONNREFUSED");
              WebRoute.thrownMessage :=
                lit "connect ECONNREFUSED 127.0.0.1:11434" |}).
  - right. right. right.
    exists {[ lit "command" := JString (lit "go back") ]}, (lit "go back").
    split; [reflexivity|]. split; [reflexivity|]. split; [discriminate|].
    reflexivity.
  - reflexivity.
Defined.

Example POST_documented_format :
  WebRoute.POST Sample.runtime
    (WebRoute.goBackRequest (litq "{'name': 'go_back', 'parameters': {}}"))
  = {| WebRoute.status := 200;
       WebRoute.body := valueOfCall (searchFallback (lit "go back")) |}.
Proof. reflexivity. Qed.

Example POST_flat_object :
  WebRoute.POST Sample.runtime
    (WebRoute.goBackRequest (litq "{'name':'go_back'}"))
  = {| WebRoute.status := 200;
       WebRoute.body :=
         JObject (<[lit "name" := JString (lit "go_back")]> ∅) |}.
Proof. reflexivity. Qed.
